(** * HAREM XML to JSON conversion: alignment of entity offsets

    A shallow embedding of [xml_to_json.py] (class [XMLtoJSON]) and the
    properties of its text reconstruction: label resolution, entity
    extraction, the handling of [ALT] blocks and the assembly of the
    document text.

    Python values are modelled as follows.
    - [str] is a list of characters, those of the Latin-1 range; [len],
      slicing, [split], [lstrip], [strip] and [re.finditer] are the
      functions of module [Py].
    - [int] is [Z]; an index that the code only ever counts upwards from
      zero ([group_ix], [N_max]) is a [nat].
    - an exception is a value of [exn], carried by [result].
    - a [dict] with fixed keys (an entity) is a record; the attribute map of
      an element is a [gmap].
    - an lxml element is a record of tag, attributes, text, tail and
      children. *)

From Stdlib Require Import ZArith Ascii String List Lia.
From stdpp Require Import base option list strings gmap.

Abbreviation str := (list ascii).

(** A string literal of the source. *)
Definition lit (s : string) : str := list_ascii_of_string s.
Arguments lit : simpl never.

(** ** Exceptions *)

Inductive exn : Set :=
| AttributeError
| KeyError
| IndexError
| ValueError
| AssertionError
| HypothesisViolation.

Inductive result (A : Type) : Type :=
| Ok (a : A)
| Raise (e : exn).

Arguments Ok {A} a.
Arguments Raise {A} e.

#[global] Instance result_ret : MRet result := @Ok.
#[global] Instance result_bind : MBind result :=
  λ A B f m, match m with Ok a => f a | Raise e => Raise e end.

#[global] Instance result_fmap : FMap result :=
  λ A B f m, match m with Ok a => Ok (f a) | Raise e => Raise e end.

#[global] Instance exn_eq_dec : EqDecision exn.
Proof. solve_decision. Defined.

(** ** The Python built-ins the converter uses *)

Module Py.

(** [len(s)] *)
Definition len {A} (s : list A) : Z := Z.of_nat (length s).

(** [str.isspace] on one character of the Latin-1 range: the control
    characters 9-13 and 28-31, the space, NEL and the no-break space. *)
Definition isspace (c : ascii) : bool :=
  let n := N_of_ascii c in
  ((9 <=? n) && (n <=? 13) || (28 <=? n) && (n <=? 32)
   || (n =? 133) || (n =? 160))%N.

(** [s.lstrip()] *)
Fixpoint lstrip (s : str) : str :=
  match s with
  | [] => []
  | c :: s' => if isspace c then lstrip s' else s
  end.

(** [s.rstrip()] *)
Definition rstrip (s : str) : str := reverse (lstrip (reverse s)).

(** [s.strip()] *)
Definition strip (s : str) : str := rstrip (lstrip s).

(** [s.split(sep)] for a separator of one character. *)
Fixpoint split (sep : ascii) (s : str) : list str :=
  match s with
  | [] => [[]]
  | c :: s' =>
      if decide (c = sep) then [] :: split sep s'
      else match split sep s' with
           | seg :: segs => (c :: seg) :: segs
           | [] => [[c]]
           end
  end.

(** [sep.join(parts)] *)
Fixpoint join (sep : ascii) (parts : list str) : str :=
  match parts with
  | [] => []
  | [p] => p
  | p :: ps => p ++ sep :: join sep ps
  end.

(** [[m.start() for m in re.finditer(c, s)]] for a pattern that matches
    the single character [c]; [pos] is the offset of the head of [s]. *)
Fixpoint finditer_start (c : ascii) (s : str) (pos : Z) : list Z :=
  match s with
  | [] => []
  | c' :: s' =>
      if decide (c' = c) then pos :: finditer_start c s' (pos + 1)
      else finditer_start c s' (pos + 1)
  end.

(** An index of a slice, brought into [0, n]: a negative index counts
    from the end. *)
Definition clip (n i : Z) : Z :=
  if (i <? 0)%Z then Z.max 0 (i + n) else Z.min i n.

(** [s[i:j]] *)
Definition slice {A} (s : list A) (i j : Z) : list A :=
  let a := clip (len s) i in
  let b := clip (len s) j in
  take (Z.to_nat (b - a)) (drop (Z.to_nat a) s).

(** [l[i]] for an index that is not negative. *)
Definition getitem {A} (l : list A) (i : nat) : result A :=
  match l !! i with
  | Some x => Ok x
  | None => Raise IndexError
  end.

(** [s[0]] and [s[-1]] *)
Definition first {A} (s : list A) : result A := getitem s 0.
Definition lastitem {A} (s : list A) : result A :=
  match last s with
  | Some x => Ok x
  | None => Raise IndexError
  end.

(** [sum(l)] *)
Definition sum (l : list Z) : Z := foldr Z.add 0%Z l.

(** [max(l)] *)
Definition max (l : list Z) : result Z :=
  match l with
  | [] => Raise ValueError
  | x :: l' => Ok (foldl Z.max x l')
  end.

(** [l.index(x)] *)
Fixpoint index (l : list Z) (x : Z) : result nat :=
  match l with
  | [] => Raise ValueError
  | y :: l' => if decide (y = x) then Ok 0%nat else S <$> index l' x
  end.

(** [assert b] *)
Definition assert (b : bool) : result unit :=
  if b then Ok tt else Raise AssertionError.

End Py.

(** Truth value of a string: [if s:] holds for every non-empty [s]. *)
Definition nonempty (s : str) : bool :=
  match s with [] => false | _ => true end.

(** A loop whose body may raise: [for x in l: acc = body(acc, x)]. *)
Fixpoint for_each {A S} (body : S → A → result S) (l : list A) (acc : S)
  : result S :=
  match l with
  | [] => Ok acc
  | x :: l' => acc' ← body acc x; for_each body l' acc'
  end.

(** ** Data model *)

(** The element tree that [lxml] hands to the converter. *)
Module etree.

#[warnings="-register-all"]
Inductive _Element : Type := Element {
  tag : str;
  attrib : gmap str str;
  text : option str;
  tail : option str;
  children : list _Element
}.

End etree.

(** [ENTITY]: the dict built by [_convert_entity]. *)
Record ENTITY : Type := {
  entity_id : str;
  text : str;
  label : option str;
  start_offset : Z;
  end_offset : Z
}.

(** [DOCUMENT]: the dict built by [convert_document]. *)
Record DOCUMENT : Type := {
  doc_id : str;
  doc_text : str;
  entities : list ENTITY
}.

#[global] Instance ENTITY_eq_dec : EqDecision ENTITY.
Proof. solve_decision. Defined.

Definition SELECTIVE_CATEGS : list str :=
  [ lit "PESSOA"; lit "ORGANIZACAO"; lit "LOCAL"; lit "TEMPO"; lit "VALOR" ].

Definition ALL_CATEGS : list str :=
  SELECTIVE_CATEGS ++
  [ lit "ABSTRACCAO"; lit "ACONTECIMENTO"; lit "COISA"; lit "OBRA";
    lit "OUTRO" ].

(** The attributes of a converter instance. *)
Record XMLtoJSON : Type := {
  _accepted_labels : list str;
  alt_strategy : str
}.

Definition __init__ (selective : bool) (alt_strategy : str)
  : result XMLtoJSON :=
  let accepted := if selective then SELECTIVE_CATEGS else ALL_CATEGS in
  let strategies := [ lit "most_entities"; lit "entity_coverage" ] in
  if bool_decide (alt_strategy ∉ strategies) then Raise ValueError
  else Ok {| _accepted_labels := accepted; alt_strategy := alt_strategy |}.

(** ** Label resolution and entity extraction *)

Definition _shift_offset (entity : ENTITY) (group_offset : Z) : ENTITY :=
  {| entity_id := entity_id entity;
     text := text entity;
     label := label entity;
     start_offset := start_offset entity + group_offset;
     end_offset := end_offset entity + group_offset |}.

(** The loop of [_get_label]: [for label in labels: if label in accepted:
    return label], and [None] after the loop. *)
Fixpoint first_accepted (accepted : list str) (labels : list str)
  : option str :=
  match labels with
  | [] => None
  | label :: labels' =>
      if bool_decide (label ∈ accepted) then Some label
      else first_accepted accepted labels'
  end.

Definition _get_label (self : XMLtoJSON) (entity : etree._Element)
  : option str :=
  match etree.attrib entity !! lit "CATEG" with
  | None => None
  | Some categ =>
      let labels := Py.strip <$> Py.split "|" categ in
      first_accepted (_accepted_labels self) labels
  end.

(** [elem.text.lstrip()] raises [AttributeError] when the element has no
    text, [elem.attrib['ID']] raises [KeyError] when it has no identifier. *)
Definition _convert_entity (self : XMLtoJSON) (elem : etree._Element)
  : result ENTITY :=
  match etree.text elem with
  | None => Raise AttributeError
  | Some elem_text =>
      let entity_text := Py.lstrip elem_text in
      match etree.attrib elem !! lit "ID" with
      | None => Raise KeyError
      | Some id =>
          Ok {| entity_id := id;
                text := entity_text;
                label := _get_label self elem;
                start_offset := 0;
                end_offset := Py.len entity_text |}
      end
  end.

(** ** Text assembly and the handling of ALT blocks *)

Section Converter.

(** [utils._is_whitespace_or_punctuation], a predicate on one character
    that the converter imports; the converter is parametric in it. *)
Variable _is_whitespace_or_punctuation : ascii → bool.

Definition _avoid_word_agglutination (text insertion : str) : result str :=
  if negb (nonempty text) then Ok text
  else
    last_char ← Py.lastitem text;
    if negb (_is_whitespace_or_punctuation last_char) then
      first_char ← Py.first insertion;
      if negb (_is_whitespace_or_punctuation first_char)
      then Ok (text ++ lit " ")
      else Ok text
    else Ok text.

Definition append_text_safe (text piece : str) : result str :=
  if nonempty text then
    last_char ← Py.lastitem text;
    if negb (_is_whitespace_or_punctuation last_char) then
      first_char ← Py.first piece;
      if negb (_is_whitespace_or_punctuation first_char)
      then Ok ((text ++ lit " ") ++ piece)
      else Ok (text ++ piece)
    else Ok (text ++ piece)
  else Ok (text ++ piece).

(** The body of the loop of [_iterate_alt_tag] over the children. *)
Definition _iterate_alt_tag_body (self : XMLtoJSON)
    (acc : str * list ENTITY) (tag : etree._Element)
  : result (str * list ENTITY) :=
  let '(text0, entities0) := acc in
  if bool_decide (etree.tag tag = lit "EM") then
    entity ← _convert_entity self tag;
    let '(entity, entities1) :=
      match label entity with
      | Some _ =>
          let shifted := _shift_offset entity (Py.len text0) in
          (shifted, entities0 ++ [shifted])
      | None => (entity, entities0)
      end in
    text1 ← append_text_safe text0 (text entity);
    text2 ← match etree.tail tag with
             | Some tl =>
                 if nonempty tl then append_text_safe text1 tl else Ok text1
             | None => Ok text1
             end;
    Ok (text2, entities1)
  else Ok (text0, entities0).

Definition _iterate_alt_tag (self : XMLtoJSON) (alt_tag : etree._Element)
  : result (str * list ENTITY) :=
  let text0 :=
    match etree.text alt_tag with
    | Some t => if nonempty t then t else []
    | None => []
    end in
  for_each (_iterate_alt_tag_body self) (etree.children alt_tag) (text0, []).

(** The state of the loop of [_split_alternatives]. *)
Record split_state : Type := {
  group_ix : nat;
  group_start_offset : Z;
  current_group_end : Z;
  groups : list (list ENTITY)
}.

Definition _split_alternatives_body (alt_text : str) (divs : list Z)
    (st : split_state) (entity : ENTITY) : result split_state :=
  let start := start_offset entity in
  st1 ←
    (if (start >? current_group_end st)%Z then
       let ix := S (group_ix st) in
       let gso := (current_group_end st + 1)%Z in
       cge ← (if bool_decide (ix < length divs)%nat then Py.getitem divs ix
              else if bool_decide (ix = length divs)
                   then Ok (Py.len alt_text)
                   else Ok (current_group_end st));
       Ok {| group_ix := ix; group_start_offset := gso;
             current_group_end := cge; groups := groups st |}
     else Ok st);
  let shifted := _shift_offset entity (- group_start_offset st1) in
  _ ← Py.getitem (groups st1) (group_ix st1);
  Ok {| group_ix := group_ix st1;
        group_start_offset := group_start_offset st1;
        current_group_end := current_group_end st1;
        groups := alter (λ g, g ++ [shifted]) (group_ix st1) (groups st1) |}.

Definition _split_alternatives (alt_text : str) (alt_entities : list ENTITY)
  : result (list str * list (list ENTITY)) :=
  let alt_texts := Py.split "|" alt_text in
  if (Py.len alt_texts <? 2)%Z then Raise HypothesisViolation
  else
    let divs := Py.finditer_start "|" alt_text 0 in
    let groups0 := replicate (length alt_texts) [] in
    div0 ← Py.getitem divs 0;
    st ← for_each (_split_alternatives_body alt_text divs) alt_entities
           {| group_ix := 0; group_start_offset := 0;
              current_group_end := div0; groups := groups0 |};
    _ ← Py.assert (bool_decide (length (groups st) = length alt_texts));
    Ok (alt_texts, groups st).

(** The score of a group under each strategy. *)
Definition ents_per_group (groups : list (list ENTITY)) : list Z :=
  Py.len <$> groups.

Definition coverages (groups : list (list ENTITY)) : list Z :=
  (λ group, Py.sum ((λ ent, Py.len (text ent)) <$> group)) <$> groups.

(** The debug messages of [_handle_alt], which only read the groups, are
    left out. *)
Definition _handle_alt (self : XMLtoJSON) (alt_tag : etree._Element)
  : result (str * list ENTITY) :=
  '(tag_text, entities) ← _iterate_alt_tag self alt_tag;
  '(alt_texts, groups) ← _split_alternatives tag_text entities;
  if bool_decide (alt_strategy self = lit "most_entities") then
    let ents_per_group := ents_per_group groups in
    _ ← Py.assert (Py.sum ents_per_group =? Py.len entities)%Z;
    m ← Py.max ents_per_group;
    N_max ← Py.index ents_per_group m;
    chosen_entities ← Py.getitem groups N_max;
    group_text ← Py.getitem alt_texts N_max;
    Ok (group_text, chosen_entities)
  else
    _ ← Py.assert (bool_decide (alt_strategy self = lit "entity_coverage"));
    let coverages := coverages groups in
    m ← Py.max coverages;
    N_max ← Py.index coverages m;
    chosen_entities ← Py.getitem groups N_max;
    group_text ← Py.getitem alt_texts N_max;
    Ok (group_text, chosen_entities).

Definition _convert_tag (self : XMLtoJSON) (tag : etree._Element)
  : result (str * list ENTITY) :=
  '(text0, entities0) ←
    (if bool_decide (etree.tag tag = lit "EM") then
       entity ← _convert_entity self tag;
       Ok (text entity,
           match label entity with Some _ => [entity] | None => [] end)
     else if bool_decide (etree.tag tag = lit "ALT") then
       _handle_alt self tag
     else Ok ([], []));
  match etree.tail tag with
  | Some tl =>
      text1 ← _avoid_word_agglutination text0 tl;
      Ok (text1 ++ tl, entities0)
  | None => Ok (text0, entities0)
  end.

(** The body of the loop of [convert_document] over the children. *)
Definition convert_document_body (self : XMLtoJSON)
    (acc : str * list ENTITY) (tag : etree._Element)
  : result (str * list ENTITY) :=
  let '(text0, entities0) := acc in
  '(tag_text, tag_entities) ← _convert_tag self tag;
  text1 ← _avoid_word_agglutination text0 tag_text;
  let tag_entities' :=
    (λ entity, _shift_offset entity (Py.len text1)) <$> tag_entities in
  text2 ← (if nonempty tag_text then append_text_safe text1 tag_text
           else Ok text1);
  Ok (text2, entities0 ++ tag_entities').

Definition convert_document (self : XMLtoJSON) (doc : etree._Element)
  : result DOCUMENT :=
  if bool_decide (etree.tag doc ≠ lit "DOC") then Raise ValueError
  else
    let text0 := match etree.text doc with Some t => t | None => [] end in
    '(text1, entities1) ←
      for_each (convert_document_body self) (etree.children doc) (text0, []);
    match etree.attrib doc !! lit "DOCID" with
    | None => Raise KeyError
    | Some id =>
        Ok {| doc_id := id; doc_text := text1; entities := entities1 |}
    end.

End Converter.

(** ** The corpus driver *)

(** [convert_xml], from the [DOC] elements that [tree.findall('//DOC')]
    returns for the parsed file: the converter is built first, then the
    documents are converted in order and collected. Reading and parsing the
    file are not modelled. *)
Definition convert_xml (is_whitespace_or_punctuation : ascii → bool)
    (docs : list etree._Element) (selective : bool) (alt_strategy : str)
  : result (list DOCUMENT) :=
  converter ← __init__ selective alt_strategy;
  for_each
    (λ docs_info doc,
       doc_info ← convert_document is_whitespace_or_punctuation converter doc;
       Ok (docs_info ++ [doc_info]))
    docs [].

(** ** Concrete inputs *)

(** Modelled from the spec: [utils._is_whitespace_or_punctuation] is not
    among the sources, and the spec names the class only as "whitespace or
    punctuation". On the characters used in the examples below it is taken
    as white space together with the printable ASCII characters that are
    neither letters nor digits. *)
Definition ascii_whitespace_or_punctuation (c : ascii) : bool :=
  let n := N_of_ascii c in
  (Py.isspace c
   || (33 <=? n) && (n <=? 47) || (58 <=? n) && (n <=? 64)
   || (91 <=? n) && (n <=? 96) || (123 <=? n) && (n <=? 126))%N.

(** [<EM ID=id CATEG=categ>text</EM>tail] *)
Definition EM (id categ text : string) (tail : option string)
  : etree._Element :=
  etree.Element (lit "EM")
    (<[lit "ID" := lit id]> (<[lit "CATEG" := lit categ]> ∅))
    (Some (lit text)) (lit <$> tail) [].

(** [<ALT>text children</ALT>tail] *)
Definition ALT (text : option string) (children : list etree._Element)
    (tail : option string) : etree._Element :=
  etree.Element (lit "ALT") ∅ (lit <$> text) (lit <$> tail) children.

(** [<DOC DOCID=id>text children</DOC>] *)
Definition DOC (id : string) (text : option string)
    (children : list etree._Element) : etree._Element :=
  etree.Element (lit "DOC") (<[lit "DOCID" := lit id]> ∅)
    (lit <$> text) None children.

(** The converter of [XMLtoJSON(selective, alt_strategy)] for the two
    strategies. *)
Definition converter (selective : bool) (alt_strategy : string) : XMLtoJSON :=
  {| _accepted_labels := if selective then SELECTIVE_CATEGS else ALL_CATEGS;
     alt_strategy := lit alt_strategy |}.

(** An entity dict. *)
Definition entity (id text label : string) (start_offset end_offset : Z)
  : ENTITY :=
  {| entity_id := lit id; text := lit text; label := Some (lit label);
     start_offset := start_offset; end_offset := end_offset |}.

(** The [ALT] element of [test_handle_alt_method]: one event, or two
    teams. *)
Definition ovarense_amora : etree._Element :=
  ALT None
    [ EM "142" "ACONTECIMENTO" "Ovarense-Amora" (Some "|");
      EM "143" "PESSOA" "Ovarense" (Some "-");
      EM "144" "PESSOA" "Amora" None ]
    None.

(** [<ALT>rio<EM ID="1" CATEG="LOCAL">Tejo</EM>|rio Tejo</ALT>]: the text
    before the first entity ends with a letter. *)
Definition rio_tejo : etree._Element :=
  ALT (Some "rio") [ EM "1" "LOCAL" "Tejo" (Some "|rio Tejo") ] None.

(** [<ALT>rio|o rio|<EM ID="1" CATEG="LOCAL">Tejo</EM></ALT>]: three
    alternatives, the only entity in the third. *)
Definition rio_o_rio_tejo : etree._Element :=
  ALT (Some "rio|o rio|") [ EM "1" "LOCAL" "Tejo" None ] None.

(** [<ALT>x|<EM ID="1" CATEG="PESSOA"> </EM>y</ALT>]: the only entity has
    a text of white space. *)
Definition blank_entity_alt : etree._Element :=
  ALT (Some "x|") [ EM "1" "PESSOA" " " (Some "y") ] None.

(** The [ALT] element of [test_handle_alt_simple_case]: only the second
    alternative has an entity. *)
Definition nomes_de_origem : etree._Element :=
  ALT (Some "Nomes de Origem|")
    [ EM "2011" "ABSTRACCAO" "Nomes de Origem" None ] None.

(** [<ALT><EM ID="1" CATEG="PESSOA">Ana</EM></ALT>]: one alternative
    only, no [|]. *)
Definition ana_alone : etree._Element :=
  ALT None [ EM "1" "PESSOA" "Ana" None ] None.

(** The document of [test_text_agglutination_correction]: no space
    between [aos] and the entity that follows. *)
Definition marco_bode : etree._Element :=
  DOC "part of HAREM-273-02298" None
    [ EM "203" "PESSOA" "Marco Bode" (Some " fez o ");
      EM "204" "VALOR" "4-0" (Some " aos");
      EM "205" "VALOR" "67'" (Some ", o ");
      EM "206" "PESSOA" "Duisburg" (Some " reduziu por ");
      EM "207" "PESSOA" "Markkus Marin" (Some " (");
      EM "208" "VALOR" "78'" (Some ") e foi ");
      EM "209" "PESSOA" "Andreas Herzog"
        (Some " quem estabeleceu o resultado final, a sete minutos do fim.") ].

(** ** Notions used to state the properties *)

(** [first_argmax scores i]: position [i] holds the greatest score, and no
    earlier position holds it. *)
Definition first_argmax (scores : list Z) (i : nat) : Prop :=
  ∃ m, scores !! i = Some m
       ∧ (∀ j x, scores !! j = Some x → (x ≤ m)%Z)
       ∧ (∀ j x, (j < i)%nat → scores !! j = Some x → (x < m)%Z).

(** The offset in the probe string at which segment [i] starts: the
    lengths of the segments before it, each counted with its delimiter. *)
Definition segment_start (alt_texts : list str) (i : nat) : Z :=
  Py.sum ((λ t, Py.len t + 1)%Z <$> take i alt_texts).

(** The entities of [alt_entities] that a group holds, rebased to the start
    of segment [i]: a sublist, in the same order. *)
Definition rebased_group (alt_texts : list str) (alt_entities : list ENTITY)
    (i : nat) (group : list ENTITY) : Prop :=
  ∃ sub, sublist sub alt_entities
         ∧ group = (λ e, _shift_offset e (- segment_start alt_texts i)) <$> sub.

(** What the loop of [_split_alternatives] maintains, [seen] being the
    entities gone through: one group per segment, the start offset of the
    current group, its end delimiter, and groups that hold the entities
    seen, rebased. *)
Definition split_invariant (alt_text : str) (seen : list ENTITY)
    (st : split_state) : Prop :=
  let alt_texts := Py.split "|" alt_text in
  let divs := Py.finditer_start "|" alt_text 0 in
  length (groups st) = length alt_texts
  ∧ group_start_offset st = segment_start alt_texts (group_ix st)
  ∧ ((group_ix st < length divs)%nat →
     divs !! group_ix st = Some (current_group_end st))
  ∧ length (concat (groups st)) = length seen
  ∧ ∀ i g, groups st !! i = Some g → rebased_group alt_texts seen i g.

(** The pieces of text of an [ALT] element after its own text: for each
    [EM] child in order, its text without leading white space and then its
    tail, when it has one that is not empty. *)
Definition alt_pieces (alt_tag : etree._Element) : list str :=
  tag ← etree.children alt_tag;
  if bool_decide (etree.tag tag = lit "EM") then
    default [] (Py.lstrip <$> etree.text tag)
    :: match etree.tail tag with
       | Some tl => if nonempty tl then [tl] else []
       | None => []
       end
  else [].

(** [located doc_text e]: the offsets of [e] delimit an occurrence of its
    text in [doc_text]. *)
Definition located (doc_text : str) (e : ENTITY) : Prop :=
  ∃ before after,
    doc_text = before ++ text e ++ after
    ∧ start_offset e = Py.len before
    ∧ end_offset e = (Py.len before + Py.len (text e))%Z.

(** What identifies an entity apart from its label: identifier, text and
    offsets. *)
Definition entity_span (e : ENTITY) : str * str * Z * Z :=
  (entity_id e, text e, start_offset e, end_offset e).

(** [stepwise prev ks]: the indices [ks] never go down, and go up by one
    at a time, from [prev] on. *)
Fixpoint stepwise (prev : nat) (ks : list nat) : Prop :=
  match ks with
  | [] => True
  | k :: ks' => (k = prev ∨ k = S prev) ∧ stepwise k ks'
  end.

(** [in_segment alt_texts k e]: the entity [e] starts within segment [k],
    between the first character of the segment and the delimiter (or the
    end of the probe string) after it. *)
Definition in_segment (alt_texts : list str) (k : nat) (e : ENTITY) : Prop :=
  ∃ t, alt_texts !! k = Some t
       ∧ (segment_start alt_texts k ≤ start_offset e
          ≤ segment_start alt_texts k + Py.len t)%Z.

(** The entities that [assigned] gives to segment [i], in order and
    rebased to the start of that segment. *)
Definition rebased_to (alt_texts : list str) (assigned : list (nat * ENTITY))
    (i : nat) : list ENTITY :=
  (λ e, _shift_offset e (- segment_start alt_texts i))
    <$> (filter (λ p, p.1 = i) assigned).*2.

(** The errors that a malformed input causes: an [EM] element without
    text or identifier, a document without identifier, an empty piece of
    text after a letter, an [ALT] block without [|]. *)
Definition input_errors : list exn :=
  [ AttributeError; KeyError; IndexError; HypothesisViolation ].

(** The claim that the single segment with entities is selected, at one
    [ALT] element: when all the entities collected from it, and there is
    one at least, start in segment [k] of its probe string, both strategies
    return the text of segment [k] and these entities, rebased to the start
    of the segment. *)
Definition selects_single_segment (is_wp : ascii → bool)
    (accepted : list str) (alt_tag : etree._Element) : Prop :=
  let self strategy :=
    {| _accepted_labels := accepted; alt_strategy := lit strategy |} in
  ∀ probe alt_entities k group_text,
    _iterate_alt_tag is_wp (self "most_entities") alt_tag
      = Ok (probe, alt_entities) →
    alt_entities ≠ [] →
    Forall (in_segment (Py.split "|" probe) k) alt_entities →
    Py.split "|" probe !! k = Some group_text →
    let chosen :=
      (λ e, _shift_offset e (- segment_start (Py.split "|" probe) k))
        <$> alt_entities in
    _handle_alt is_wp (self "most_entities") alt_tag = Ok (group_text, chosen)
    ∧ _handle_alt is_wp (self "entity_coverage") alt_tag
        = Ok (group_text, chosen).

(** * Properties *)

(** ** The built-ins *)

Module PyFacts.

Lemma split_nonempty sep s : Py.split sep s ≠ [].
Proof.
  destruct s as [|c s]; simpl; [done|].
  case_decide; [done|]. by destruct (Py.split sep s).
Qed.

(** One segment more than there are separators. *)
Lemma split_length sep s pos :
  length (Py.split sep s) = S (length (Py.finditer_start sep s pos)).
Proof.
  revert pos. induction s as [|c s IH]; intros pos; simpl; [done|].
  case_decide; simpl.
  - by rewrite (IH (pos + 1)%Z).
  - specialize (IH (pos + 1)%Z).
    destruct (Py.split sep s); simpl in *; [done | lia].
Qed.

(** Joining the segments with the separator gives the string back. *)
Lemma join_split sep s : Py.join sep (Py.split sep s) = s.
Proof.
  induction s as [|c s IH]; simpl; [done|].
  case_decide as Hc.
  - subst c. pose proof (split_nonempty sep s) as Hne.
    destruct (Py.split sep s) as [|seg segs]; [done|].
    simpl in *. by rewrite IH.
  - pose proof (split_nonempty sep s) as Hne.
    destruct (Py.split sep s) as [|seg segs]; [done|].
    simpl in *. destruct segs; simpl in *; by rewrite <- IH.
Qed.

(** No segment holds the separator. *)
Lemma split_no_sep sep s : Forall (λ seg, sep ∉ seg) (Py.split sep s).
Proof.
  induction s as [|c s IH]; simpl.
  - constructor; [|done]. by intros ?%elem_of_nil.
  - case_decide as Hc.
    + constructor; [|done]. by intros ?%elem_of_nil.
    + destruct (Py.split sep s) as [|seg segs].
      * constructor; [|done].
        intros [->|?%elem_of_nil]%elem_of_cons; done.
      * inversion IH as [|? ? Hseg Hsegs]; subst.
        constructor; [|done].
        intros [->|?]%elem_of_cons; done.
Qed.

Lemma finditer_start_nil c s pos :
  Py.finditer_start c s pos = [] ↔ c ∉ s.
Proof.
  revert pos. induction s as [|c' s IH]; intros pos; simpl.
  - split; [intros _ ?%elem_of_nil; done | done].
  - case_decide as Hc.
    + subst. split; [done|]. intros []. by left.
    + rewrite IH, not_elem_of_cons.
      split; [intros ?; split; [congruence | done] | by intros [_ ?]].
Qed.

(** [lstrip] removes a prefix of white space, and all of it. *)
Lemma lstrip_spec s :
  ∃ ws, s = ws ++ Py.lstrip s
        ∧ Forall (λ c, Py.isspace c = true) ws
        ∧ ∀ c, head (Py.lstrip s) = Some c → Py.isspace c = false.
Proof.
  induction s as [|c s (ws & Hs & Hws & Hhd)]; simpl.
  - exists []. by repeat split.
  - destruct (Py.isspace c) eqn:Hc.
    + exists (c :: ws). simpl. split; [by rewrite <- Hs|].
      split; [by constructor | done].
    + exists []. repeat split; [done|].
      simpl. by intros ? [= <-].
Qed.

(** What follows the first character that is not white space is kept,
    trailing white space included. *)
Lemma lstrip_app s t :
  Py.lstrip s ≠ [] → Py.lstrip (s ++ t) = Py.lstrip s ++ t.
Proof.
  induction s as [|c s IH]; simpl; [done|].
  destruct (Py.isspace c); [exact IH | done].
Qed.

(** [rstrip] removes a suffix of white space, and all of it. *)
Lemma rstrip_spec s :
  ∃ ws, s = Py.rstrip s ++ ws
        ∧ Forall (λ c, Py.isspace c = true) ws
        ∧ ∀ c, last (Py.rstrip s) = Some c → Py.isspace c = false.
Proof.
  destruct (lstrip_spec (reverse s)) as (ws & Hs & Hws & Hhd).
  exists (reverse ws). unfold Py.rstrip. split; [|split].
  - by rewrite <- reverse_app, <- Hs, reverse_involutive.
  - by apply Forall_reverse.
  - intros c. rewrite last_reverse. apply Hhd.
Qed.

(** [strip] removes the white space at both ends. *)
Lemma strip_spec s :
  ∃ ws1 ws2, s = ws1 ++ Py.strip s ++ ws2
             ∧ Forall (λ c, Py.isspace c = true) ws1
             ∧ Forall (λ c, Py.isspace c = true) ws2
             ∧ (∀ c, head (Py.strip s) = Some c → Py.isspace c = false)
             ∧ (∀ c, last (Py.strip s) = Some c → Py.isspace c = false).
Proof.
  destruct (lstrip_spec s) as (ws1 & Hs & Hws1 & Hhd).
  destruct (rstrip_spec (Py.lstrip s)) as (ws2 & Ht & Hws2 & Hlast).
  exists ws1, ws2. unfold Py.strip.
  split; [by rewrite <- Ht|]. split; [done|]. split; [done|].
  split; [|done].
  intros c Hc. apply Hhd. rewrite Ht.
  by destruct (Py.rstrip (Py.lstrip s)).
Qed.

Lemma len_app {A} (s t : list A) : Py.len (s ++ t) = (Py.len s + Py.len t)%Z.
Proof. unfold Py.len. rewrite length_app. lia. Qed.

Lemma len_nonneg {A} (s : list A) : (0 ≤ Py.len s)%Z.
Proof. unfold Py.len. lia. Qed.

End PyFacts.

(** ** Label resolution *)

Lemma first_accepted_Some accepted labels l :
  first_accepted accepted labels = Some l ↔
  ∃ i, labels !! i = Some l ∧ l ∈ accepted
       ∧ ∀ j l', (j < i)%nat → labels !! j = Some l' → l' ∉ accepted.
Proof.
  induction labels as [|x labels IH]; simpl.
  - split; [done|]. by intros (i & ? & _).
  - case_bool_decide as Hx.
    + split.
      * intros [= <-]. exists 0%nat. repeat split; [done|]. lia.
      * intros (i & Hi & Hl & Hfirst). destruct i as [|i]; [by simplify_eq|].
        exfalso. apply (Hfirst 0%nat x); [lia | done | done].
    + rewrite IH. split.
      * intros (i & Hi & Hl & Hfirst). exists (S i). repeat split; [done..|].
        intros [|j] l' Hj Hl'; simpl in *; [by simplify_eq|].
        apply (Hfirst j); [lia | done].
      * intros (i & Hi & Hl & Hfirst).
        destruct i as [|i]; [simpl in Hi; by simplify_eq|].
        exists i. repeat split; [done..|].
        intros j l' Hj Hl'. apply (Hfirst (S j)); [lia | done].
Qed.

Lemma first_accepted_None accepted labels :
  first_accepted accepted labels = None ↔ ∀ l, l ∈ labels → l ∉ accepted.
Proof.
  induction labels as [|x labels IH]; simpl.
  - split; [|done]. by intros _ l ?%elem_of_nil.
  - case_bool_decide as Hx.
    + split; [done|]. intros Hall. exfalso. apply (Hall x); [by left | done].
    + rewrite IH. split.
      * intros Hall l [->|?]%elem_of_cons; [done | by apply Hall].
      * intros Hall l Hl. apply Hall. by right.
Qed.

(** C6. [_get_label] returns the first label, in the order in which the
    [CATEG] attribute lists them between [|] and with the white space around
    each removed, that is among the accepted labels of the converter: the
    five selective categories when [selective], all ten otherwise. It
    returns [None] when no listed label is accepted and when the element has
    no [CATEG] attribute. *)
Theorem get_label_first_match selective strategy self elem :
  __init__ selective strategy = Ok self →
  let accepted := if selective then SELECTIVE_CATEGS else ALL_CATEGS in
  _accepted_labels self = accepted
  ∧ length SELECTIVE_CATEGS = 5%nat ∧ length ALL_CATEGS = 10%nat
  ∧ NoDup ALL_CATEGS ∧ SELECTIVE_CATEGS ⊆ ALL_CATEGS
  ∧ match etree.attrib elem !! lit "CATEG" with
    | None => _get_label self elem = None
    | Some categ =>
        let candidates := Py.strip <$> Py.split "|" categ in
        (∀ l, _get_label self elem = Some l ↔
              ∃ i, candidates !! i = Some l ∧ l ∈ accepted
                   ∧ ∀ j l', (j < i)%nat → candidates !! j = Some l' →
                             l' ∉ accepted)
        ∧ (_get_label self elem = None ↔
           ∀ l, l ∈ candidates → l ∉ accepted)
    end.
Proof.
  intros Hinit accepted.
  assert (_accepted_labels self = accepted) as Hacc.
  { unfold __init__ in Hinit. case_bool_decide; [done|]. by simplify_eq. }
  split; [done|]. split; [done|]. split; [done|].
  split; [by apply (bool_decide_unpack (NoDup ALL_CATEGS)); vm_compute|].
  split; [intros l Hl; apply elem_of_app; by left|].
  unfold _get_label. rewrite Hacc.
  destruct (etree.attrib elem !! lit "CATEG") as [categ|]; [|done].
  split.
  - intros l. apply first_accepted_Some.
  - apply first_accepted_None.
Qed.

Lemma get_label_first_match_witness :
  let self := converter true "entity_coverage" in
  let elem := EM "383" "ABSTRACCAO | PESSOA" "" None in
  __init__ true (lit "entity_coverage") = Ok self
  ∧ _get_label self elem = Some (lit "PESSOA").
Proof.
  intros self elem. split; [reflexivity|].
  destruct (get_label_first_match true (lit "entity_coverage") self elem
              eq_refl) as (_ & _ & _ & _ & _ & Hlabel).
  change (etree.attrib elem !! lit "CATEG")
    with (Some (lit "ABSTRACCAO | PESSOA")) in Hlabel.
  destruct Hlabel as [Hsome _]. apply Hsome. exists 1%nat.
  split; [reflexivity|]. split.
  - apply (bool_decide_unpack _). vm_compute. exact I.
  - intros [|j] l' Hj Hl'; [|lia]. injection Hl' as <-.
    apply (bool_decide_unpack _). vm_compute. exact I.
Defined.

(** ** Entity extraction *)

(** C7. For an [EM] element with an [ID] attribute and a text,
    [_convert_entity] returns an entity whose text is the element's text
    without its leading white space (everything from the first other
    character on is kept, trailing white space included), whose offsets are
    0 and the length of that text, whose label is that of [_get_label] and
    whose identifier is the [ID] attribute. *)
Theorem convert_entity_spec self elem id elem_text :
  etree.attrib elem !! lit "ID" = Some id →
  etree.text elem = Some elem_text →
  ∃ entity ws,
    _convert_entity self elem = Ok entity
    ∧ text entity = Py.lstrip elem_text
    ∧ elem_text = ws ++ text entity
    ∧ Forall (λ c, Py.isspace c = true) ws
    ∧ (∀ c, head (text entity) = Some c → Py.isspace c = false)
    ∧ (∀ u v, elem_text = u ++ v → Py.lstrip u ≠ [] →
              text entity = Py.lstrip u ++ v)
    ∧ start_offset entity = 0%Z
    ∧ end_offset entity = Py.len (text entity)
    ∧ label entity = _get_label self elem
    ∧ entity_id entity = id.
Proof.
  intros Hid Htext.
  destruct (PyFacts.lstrip_spec elem_text) as (ws & Hws & Hall & Hhd).
  eexists _, ws. unfold _convert_entity. rewrite Htext, Hid.
  split; [reflexivity|]. simpl.
  repeat split; try done.
  intros u v -> Hu. by apply PyFacts.lstrip_app.
Qed.

Lemma convert_entity_spec_witness :
  let self := converter false "most_entities" in
  ∃ entity,
    _convert_entity self (EM "205" "VALOR" " 67' " None) = Ok entity
    ∧ text entity = lit "67' "
    ∧ start_offset entity = 0%Z ∧ end_offset entity = 4%Z
    ∧ label entity = Some (lit "VALOR").
Proof.
  intros self.
  destruct (convert_entity_spec self (EM "205" "VALOR" " 67' " None)
              (lit "205") (lit " 67' ") eq_refl eq_refl)
    as (entity & ws & Hok & Htext & _ & _ & _ & _ & Hstart & Hend & Hlabel & _).
  exists entity. split; [exact Hok|].
  split; [exact Htext|]. split; [exact Hstart|].
  split; [by rewrite Hend, Htext|]. by rewrite Hlabel.
Defined.

(** ** The agglutination guard *)

(** C9. When [text] ends with a character that is neither white space nor
    punctuation and [piece] starts with such a character,
    [append_text_safe] returns [text], one space and [piece]. When [text] is
    empty, or its last character is white space or punctuation, or the first
    character of [piece] is, it returns [text] followed by [piece]. *)
Theorem append_text_safe_spec (is_wp : ascii → bool) (text piece : str) :
  (∀ c d, last text = Some c → head piece = Some d →
          is_wp c = false → is_wp d = false →
          append_text_safe is_wp text piece = Ok (text ++ lit " " ++ piece))
  ∧ (text = []
     ∨ (∃ c, last text = Some c ∧ is_wp c = true)
     ∨ (∃ d, head piece = Some d ∧ is_wp d = true) →
     append_text_safe is_wp text piece = Ok (text ++ piece)).
Proof.
  unfold append_text_safe, Py.lastitem, Py.first, Py.getitem. split.
  - intros c d Hc Hd Hwc Hwd.
    destruct text as [|x text]; [done|]. simpl nonempty. cbv iota.
    rewrite Hc. simpl. rewrite Hwc. simpl.
    destruct piece as [|y piece]; [done|]. simpl in Hd. simplify_eq. simpl.
    rewrite Hwd. simpl. by rewrite <- app_assoc.
  - intros Hcases.
    destruct text as [|x text]; [done|]. simpl nonempty. cbv iota.
    destruct Hcases as [?|[(c & Hc & Hwc)|(d & Hd & Hwd)]]; [done| |].
    + rewrite Hc. simpl. by rewrite Hwc.
    + destruct (proj2 (last_is_Some (x :: text))) as [c Hc]; [done|].
      rewrite Hc. simpl.
      destruct (is_wp c); [done|]. simpl.
      destruct piece as [|y piece]; [done|]. simpl in Hd. simplify_eq. simpl.
      by rewrite Hwd.
Qed.

Lemma append_text_safe_spec_witness :
  let is_wp := ascii_whitespace_or_punctuation in
  append_text_safe is_wp (lit "aos") (lit "67'") = Ok (lit "aos 67'")
  ∧ append_text_safe is_wp [] (lit "67'") = Ok (lit "67'")
  ∧ append_text_safe is_wp (lit "o ") (lit "4-0") = Ok (lit "o 4-0")
  ∧ append_text_safe is_wp (lit "Marin") (lit " (") = Ok (lit "Marin (").
Proof.
  intros is_wp. split; [|split; [|split]].
  - apply (proj1 (append_text_safe_spec is_wp (lit "aos") (lit "67'"))
             "s"%char "6"%char); reflexivity.
  - apply (proj2 (append_text_safe_spec is_wp [] (lit "67'"))).
    left. reflexivity.
  - apply (proj2 (append_text_safe_spec is_wp (lit "o ") (lit "4-0"))).
    right; left. exists " "%char. split; reflexivity.
  - apply (proj2 (append_text_safe_spec is_wp (lit "Marin") (lit " ("))).
    right; right. exists " "%char. split; reflexivity.
Defined.

(** ** Elements that are neither EM nor ALT *)

(** C10. For an element whose tag is neither [EM] nor [ALT], [_convert_tag]
    returns no entity and, as text, the tail of the element (the empty
    string when there is none): the text of the element and its children do
    not reach the result. *)
Theorem convert_tag_other (is_wp : ascii → bool) self tag :
  etree.tag tag ≠ lit "EM" →
  etree.tag tag ≠ lit "ALT" →
  _convert_tag is_wp self tag = Ok (default [] (etree.tail tag), []).
Proof.
  intros HEM HALT. unfold _convert_tag.
  rewrite !bool_decide_eq_false_2 by done. simpl.
  by destruct (etree.tail tag).
Qed.

Lemma convert_tag_other_witness :
  _convert_tag ascii_whitespace_or_punctuation
    (converter false "most_entities")
    (etree.Element (lit "OMITIDO") ∅ (Some (lit "inner text"))
       (Some (lit " tail")) [EM "1" "PESSOA" "Ana" None])
  = Ok (lit " tail", []).
Proof.
  apply (convert_tag_other ascii_whitespace_or_punctuation
           (converter false "most_entities")
           (etree.Element (lit "OMITIDO") ∅ (Some (lit "inner text"))
              (Some (lit " tail")) [EM "1" "PESSOA" "Ana" None]));
    apply (bool_decide_unpack _); vm_compute; exact I.
Defined.

(** ** Loops *)

Lemma for_each_cons {A S} (body : S → A → result S) x l acc :
  for_each body (x :: l) acc = body acc x ≫= for_each body l.
Proof. done. Qed.

Lemma for_each_app {A S} (body : S → A → result S) l1 l2 acc :
  for_each body (l1 ++ l2) acc = for_each body l1 acc ≫= for_each body l2.
Proof.
  revert acc. induction l1 as [|x l1 IH]; intros acc; simpl; [done|].
  destruct (body acc x) as [acc'|e]; simpl; [apply IH | done].
Qed.

(** A loop raises only what its body raises. *)
Lemma for_each_Raise {A S} (body : S → A → result S) l acc e :
  for_each body l acc = Raise e →
  ∃ acc' x, x ∈ l ∧ body acc' x = Raise e.
Proof.
  revert acc. induction l as [|x l IH]; intros acc; simpl; [done|].
  destruct (body acc x) as [acc'|e'] eqn:Hbody; simpl.
  - intros (acc'' & y & Hy & Hraise)%IH. exists acc'', y. split; [by right | done].
  - intros [= ->]. exists acc, x. split; [by left | done].
Qed.

(** An invariant that speaks of the elements gone through so far. *)
Lemma for_each_invariant {A S} (body : S → A → result S)
    (I : list A → S → Prop) l acc0 acc :
  I [] acc0 →
  (∀ done x acc1 acc2,
     I done acc1 → body acc1 x = Ok acc2 → I (done ++ [x]) acc2) →
  for_each body l acc0 = Ok acc →
  I l acc.
Proof.
  intros H0 Hstep.
  assert (∀ done acc1, I done acc1 → for_each body l acc1 = Ok acc →
                       I (done ++ l) acc) as Hgen.
  { induction l as [|x l IH]; intros done acc1 HI Hrun; simpl in *.
    - rewrite app_nil_r. by simplify_eq.
    - destruct (body acc1 x) as [acc2|] eqn:Hbody; [|done]. simpl in Hrun.
      rewrite (cons_middle x), app_assoc. eapply IH; [|done]. by eapply Hstep. }
  intros Hrun. by apply (Hgen [] acc0).
Qed.

(** ** The split step *)

Lemma split_alternatives_body_Raise alt_text divs st entity e :
  _split_alternatives_body alt_text divs st entity = Raise e → e = IndexError.
Proof.
  unfold _split_alternatives_body, Py.getitem.
  destruct (start_offset entity >? current_group_end st)%Z; simpl.
  - case_bool_decide; simpl.
    + destruct (divs !! S (group_ix st)); simpl; [|by intros [= <-]].
      destruct (groups st !! S (group_ix st)); simpl; [done | by intros [= <-]].
    + case_bool_decide; simpl;
        (destruct (groups st !! S (group_ix st)); simpl;
         [done | by intros [= <-]]).
  - destruct (groups st !! group_ix st); simpl; [done | by intros [= <-]].
Qed.

Lemma split_length_lt_2 (s : str) :
  (length (Py.split "|" s) < 2)%nat ↔ "|"%char ∉ s.
Proof.
  rewrite (PyFacts.split_length _ _ 0), <- (PyFacts.finditer_start_nil _ _ 0).
  destruct (Py.finditer_start "|" s 0); simpl; [|split; [lia | done]].
  split; [done | lia].
Qed.

Lemma split_alternatives_no_delimiter alt_text alt_entities :
  "|"%char ∉ alt_text →
  _split_alternatives alt_text alt_entities = Raise HypothesisViolation.
Proof.
  intros Hno%split_length_lt_2. unfold _split_alternatives, Py.len.
  by rewrite (proj2 (Z.ltb_lt _ 2)) by lia.
Qed.

Lemma split_alternatives_delimiter alt_text alt_entities :
  "|"%char ∈ alt_text →
  _split_alternatives alt_text alt_entities ≠ Raise HypothesisViolation.
Proof.
  intros Hin. unfold _split_alternatives, Py.len.
  assert (¬ (length (Py.split "|" alt_text) < 2)%nat) as Hlen.
  { rewrite split_length_lt_2. naive_solver. }
  rewrite (proj2 (Z.ltb_ge _ 2)) by lia.
  destruct (Py.getitem (Py.finditer_start "|" alt_text 0) 0) as [div0|e] eqn:Hd.
  - simpl.
    match goal with
    | |- context [for_each ?b ?l ?a] => destruct (for_each b l a) eqn:Hloop
    end; simpl.
    + by case_bool_decide.
    + apply for_each_Raise in Hloop as (st & x & _ & Hraise).
      apply split_alternatives_body_Raise in Hraise. by subst.
  - unfold Py.getitem in Hd.
    by destruct (Py.finditer_start "|" alt_text 0 !! 0%nat); simplify_eq.
Qed.

(** C8. An [ALT] element whose probe string has no [|] (it splits into
    fewer than two segments) makes the split step raise
    [HypothesisViolation], and the error is not caught: [_handle_alt],
    [_convert_tag] and [convert_document] raise it too. A probe string with
    at least one [|] never makes the split step raise that error. *)
Theorem alt_without_delimiter_is_fatal (is_wp : ascii → bool) self alt_tag
    probe alt_entities :
  _iterate_alt_tag is_wp self alt_tag = Ok (probe, alt_entities) →
  ((length (Py.split "|" probe) < 2)%nat ↔ "|"%char ∉ probe)
  ∧ ("|"%char ∉ probe →
     _split_alternatives probe alt_entities = Raise HypothesisViolation
     ∧ _handle_alt is_wp self alt_tag = Raise HypothesisViolation
     ∧ (etree.tag alt_tag = lit "ALT" →
        _convert_tag is_wp self alt_tag = Raise HypothesisViolation
        ∧ ∀ doc before after acc,
            etree.tag doc = lit "DOC" →
            etree.children doc = before ++ alt_tag :: after →
            for_each (convert_document_body is_wp self) before
              (default [] (etree.text doc), []) = Ok acc →
            convert_document is_wp self doc = Raise HypothesisViolation))
  ∧ ("|"%char ∈ probe →
     _split_alternatives probe alt_entities ≠ Raise HypothesisViolation).
Proof.
  intros Hprobe. split; [apply split_length_lt_2|].
  split; [|apply split_alternatives_delimiter].
  intros Hno.
  pose proof (split_alternatives_no_delimiter probe alt_entities Hno) as Hsplit.
  assert (_handle_alt is_wp self alt_tag = Raise HypothesisViolation) as Halt.
  { unfold _handle_alt. rewrite Hprobe. simpl. by rewrite Hsplit. }
  split; [done|]. split; [done|]. intros Htag.
  assert (_convert_tag is_wp self alt_tag = Raise HypothesisViolation) as Hconv.
  { unfold _convert_tag. rewrite Htag.
    rewrite bool_decide_eq_false_2 by done.
    rewrite bool_decide_eq_true_2 by done. by rewrite Halt. }
  split; [done|].
  intros doc before after [text0 entities0] Hdoc Hchildren Hbefore.
  unfold convert_document. rewrite bool_decide_eq_false_2 by naive_solver.
  rewrite Hchildren, for_each_app.
  replace (match etree.text doc with Some t => t | None => [] end)
    with (default [] (etree.text doc)) by by destruct (etree.text doc).
  rewrite Hbefore. simpl. by rewrite Hconv.
Qed.

Lemma alt_without_delimiter_is_fatal_witness :
  let is_wp := ascii_whitespace_or_punctuation in
  let self := converter false "most_entities" in
  let alt_tag := ALT (Some "Nomes de Origem ")
                   [EM "2011" "ABSTRACCAO" "Nomes de Origem" None] None in
  convert_document is_wp self
    (DOC "d" (Some "Os ") [EM "1" "PESSOA" "Ana" (Some " e ")] ) ≠
    Raise HypothesisViolation
  ∧ convert_document is_wp self
      (DOC "d" (Some "Os ") [EM "1" "PESSOA" "Ana" (Some " e "); alt_tag])
    = Raise HypothesisViolation.
Proof.
  intros is_wp self alt_tag. split; [by vm_compute|].
  destruct (alt_without_delimiter_is_fatal is_wp self alt_tag
              (lit "Nomes de Origem Nomes de Origem")
              [ {| entity_id := lit "2011"; text := lit "Nomes de Origem";
                   label := Some (lit "ABSTRACCAO");
                   start_offset := 16; end_offset := 31 |} ]
              eq_refl) as (_ & Hfatal & _).
  destruct Hfatal as (_ & _ & Hdoc).
  { apply (bool_decide_unpack _). vm_compute. exact I. }
  destruct (Hdoc eq_refl) as [_ Hconv].
  apply (Hconv _ [EM "1" "PESSOA" "Ana" (Some " e ")] [] (lit "Os Ana e ",
           [ {| entity_id := lit "1"; text := lit "Ana";
                label := Some (lit "PESSOA");
                start_offset := 3; end_offset := 6 |} ]));
    reflexivity.
Defined.

(** ** Scores and their maximum *)

Lemma foldl_max_ge (l : list Z) x :
  (x ≤ foldl Z.max x l)%Z ∧ ∀ y, y ∈ l → (y ≤ foldl Z.max x l)%Z.
Proof.
  revert x. induction l as [|z l IH]; intros x; simpl.
  - split; [lia|]. by intros y ?%elem_of_nil.
  - destruct (IH (Z.max x z)) as [Hx Hl]. split; [lia|].
    intros y [->|Hy]%elem_of_cons; [lia | by apply Hl].
Qed.

Lemma foldl_max_elem (l : list Z) x : foldl Z.max x l ∈ x :: l.
Proof.
  revert x. induction l as [|z l IH]; intros x; simpl; [by left|].
  specialize (IH (Z.max x z)).
  apply elem_of_cons in IH as [Heq|Hin]; [|by do 2 right].
  rewrite Heq. destruct (Z.max_spec x z) as [[_ ->]|[_ ->]];
    [right; by left | by left].
Qed.

Lemma index_first (l : list Z) m :
  m ∈ l →
  ∃ i, Py.index l m = Ok i ∧ l !! i = Some m
       ∧ ∀ j x, (j < i)%nat → l !! j = Some x → x ≠ m.
Proof.
  induction l as [|y l IH]; simpl; [by intros ?%elem_of_nil|].
  intros Hin. case_decide as Hy.
  - exists 0%nat. subst. split; [done|]. split; [done|]. lia.
  - apply elem_of_cons in Hin as [->|Hin]; [done|].
    destruct (IH Hin) as (i & -> & Hi & Hfirst). exists (S i).
    split; [done|]. split; [done|].
    intros [|j] x Hj Hx; simpl in Hx; [by simplify_eq|].
    apply (Hfirst j); [lia | done].
Qed.

(** [l.index(max(l))] is the first position of the greatest element. *)
Lemma index_max (l : list Z) :
  l ≠ [] →
  ∃ m i, Py.max l = Ok m ∧ Py.index l m = Ok i ∧ l !! i = Some m
         ∧ (∀ j x, l !! j = Some x → (x ≤ m)%Z)
         ∧ (∀ j x, (j < i)%nat → l !! j = Some x → (x < m)%Z).
Proof.
  destruct l as [|x l]; [done|]. intros _. simpl Py.max.
  set (m := foldl Z.max x l).
  destruct (foldl_max_ge l x) as [Hx Hl].
  assert (∀ j y, (x :: l) !! j = Some y → (y ≤ m)%Z) as Hle.
  { intros j y Hy%list_elem_of_lookup_2.
    apply elem_of_cons in Hy as [->|Hy]; [done | by apply Hl]. }
  destruct (index_first (x :: l) m (foldl_max_elem l x))
    as (i & Hindex & Hi & Hfirst).
  exists m, i. repeat split; [done..|].
  intros j y Hj Hy. specialize (Hle j y Hy). specialize (Hfirst j y Hj Hy). lia.
Qed.

Lemma index_max_first_argmax (l : list Z) :
  l ≠ [] →
  ∃ m i, Py.max l = Ok m ∧ Py.index l m = Ok i ∧ first_argmax l i.
Proof.
  intros (m & i & Hmax & Hindex & Hi & Hle & Hlt)%index_max.
  exists m, i. repeat split; [done..|]. by exists m.
Qed.

Lemma first_argmax_unique (l : list Z) i j :
  first_argmax l i → first_argmax l j → i = j.
Proof.
  intros (m & Hi & Hle & Hlt) (m' & Hj & Hle' & Hlt').
  destruct (Nat.lt_trichotomy i j) as [Hij|[->|Hij]]; [|done|].
  - specialize (Hlt' i m Hij Hi). specialize (Hle j m' Hj). lia.
  - specialize (Hlt j m' Hij Hj). specialize (Hle' i m Hi). lia.
Qed.

Lemma sum_len_concat {A} (l : list (list A)) :
  Py.sum (Py.len <$> l) = Py.len (concat l).
Proof.
  induction l as [|g l IH]; [done|].
  unfold Py.sum in *. csimpl. by rewrite IH, PyFacts.len_app.
Qed.

Lemma concat_alter_snoc {A} (l : list (list A)) i g x :
  l !! i = Some g →
  length (concat (alter (λ g, g ++ [x]) i l)) = S (length (concat l)).
Proof.
  revert i. induction l as [|h l IH]; intros [|i] Hi; csimpl in *; try done.
  - simplify_eq. rewrite !length_app. simpl. lia.
  - rewrite !length_app, (IH i Hi). lia.
Qed.

Lemma concat_replicate_nil {A} n : concat (replicate n (@nil A)) = [].
Proof. induction n; simpl; done. Qed.

(** ** The delimiters and the segments *)

Lemma segment_start_0 alt_texts : segment_start alt_texts 0 = 0%Z.
Proof. done. Qed.

Lemma segment_start_S t alt_texts i :
  segment_start (t :: alt_texts) (S i)
  = (Py.len t + 1 + segment_start alt_texts i)%Z.
Proof. done. Qed.

(** The delimiter that ends segment [i] stands just before the start of
    segment [i + 1]. *)
Lemma finditer_segment_start sep s pos i d :
  Py.finditer_start sep s pos !! i = Some d →
  (d + 1 = pos + segment_start (Py.split sep s) (S i))%Z.
Proof.
  revert pos i. induction s as [|c s IH]; intros pos i; simpl; [done|].
  case_decide as Hc.
  - destruct i as [|i]; simpl.
    + intros [= <-]. rewrite segment_start_S, segment_start_0.
      unfold Py.len. simpl. lia.
    + intros Hd%IH. rewrite segment_start_S. unfold Py.len at 1. simpl. lia.
  - intros Hd%IH. pose proof (PyFacts.split_nonempty sep s) as Hne.
    destruct (Py.split sep s) as [|seg segs]; [done|].
    rewrite segment_start_S in *. unfold Py.len in *. simpl length. lia.
Qed.

(** ** The loop of the split step *)

(** One turn of the loop: the entity stays in the current group, or the
    loop moves to the next group, and the entity is added there. *)
Lemma split_alternatives_body_Ok alt_text divs st entity st' :
  _split_alternatives_body alt_text divs st entity = Ok st' →
  ∃ ix gso cge g,
    groups st !! ix = Some g
    ∧ st' = {| group_ix := ix; group_start_offset := gso;
               current_group_end := cge;
               groups := alter (λ g, g ++ [_shift_offset entity (- gso)])
                           ix (groups st) |}
    ∧ ((start_offset entity ≤ current_group_end st)%Z
       ∧ ix = group_ix st ∧ gso = group_start_offset st
       ∧ cge = current_group_end st
       ∨ (current_group_end st < start_offset entity)%Z
         ∧ ix = S (group_ix st) ∧ gso = (current_group_end st + 1)%Z
         ∧ ((ix < length divs)%nat → divs !! ix = Some cge)).
Proof.
  unfold _split_alternatives_body, Py.getitem.
  destruct (Z.gtb_spec (start_offset entity) (current_group_end st))
    as [Hgt|Hle]; simpl.
  - case_bool_decide as Hix; simpl.
    + destruct (divs !! S (group_ix st)) as [cge|] eqn:Hcge; simpl; [|done].
      destruct (groups st !! S (group_ix st)) as [g|] eqn:Hg; simpl; [|done].
      intros [= <-]. eexists (S (group_ix st)), _, cge, g.
      split; [done|]. split; [done|]. right. by repeat split.
    + case_bool_decide; simpl;
        (destruct (groups st !! S (group_ix st)) as [g|] eqn:Hg; simpl;
         [|done]);
        intros [= <-]; eexists (S (group_ix st)), _, _, g;
        (split; [done|]); (split; [done|]); right; by repeat split.
  - destruct (groups st !! group_ix st) as [g|] eqn:Hg; simpl; [|done].
    intros [= <-]. eexists (group_ix st), _, _, g.
    split; [done|]. split; [done|]. left. by repeat split.
Qed.

Lemma rebased_group_snoc alt_texts seen i g x :
  rebased_group alt_texts seen i g →
  rebased_group alt_texts (seen ++ [x]) i
    (g ++ [_shift_offset x (- segment_start alt_texts i)]).
Proof.
  intros (sub & Hsub & ->). exists (sub ++ [x]).
  split; [by apply sublist_app | by rewrite fmap_app].
Qed.

Lemma rebased_group_skip alt_texts seen i g x :
  rebased_group alt_texts seen i g →
  rebased_group alt_texts (seen ++ [x]) i g.
Proof.
  intros (sub & Hsub & ->). exists sub.
  split; [by apply sublist_inserts_r | done].
Qed.

Lemma split_invariant_step alt_text seen st entity st' :
  split_invariant alt_text seen st →
  _split_alternatives_body alt_text (Py.finditer_start "|" alt_text 0)
    st entity = Ok st' →
  split_invariant alt_text (seen ++ [entity]) st'.
Proof.
  intros (Hlen & Hgso & Hcge & Hcount & Hgroups)
         (ix & gso & cge & g & Hg & -> & Hcases)%split_alternatives_body_Ok.
  assert (gso = segment_start (Py.split "|" alt_text) ix
          ∧ ((ix < length (Py.finditer_start "|" alt_text 0))%nat →
             Py.finditer_start "|" alt_text 0 !! ix = Some cge))
    as [-> Hcge'].
  { destruct Hcases as [(_ & -> & -> & ->)|(_ & -> & -> & Hnext)]; [done|].
    split; [|done].
    apply lookup_lt_Some in Hg.
    rewrite Hlen, (PyFacts.split_length _ _ 0) in Hg.
    pose proof (finditer_segment_start _ _ _ _ _ (Hcge ltac:(lia))). lia. }
  unfold split_invariant. simpl.
  split; [by rewrite length_alter|]. split; [done|]. split; [done|].
  split; [rewrite (concat_alter_snoc _ _ g) by done;
          rewrite length_app; simpl; lia|].
  intros i h Hh. destruct (decide (i = ix)) as [->|Hne].
  - rewrite list_lookup_alter_eq, Hg in Hh. simpl in Hh. simplify_eq.
    by apply rebased_group_snoc, Hgroups.
  - rewrite list_lookup_alter_ne in Hh by done.
    by apply rebased_group_skip, Hgroups.
Qed.

(** What [_split_alternatives] returns when it returns: the segments of the
    probe string, at least two; one group for each of them; every entity in
    one group, and each group rebased to the start of its segment. *)
Lemma split_alternatives_Ok alt_text alt_entities alt_texts groups :
  _split_alternatives alt_text alt_entities = Ok (alt_texts, groups) →
  alt_texts = Py.split "|" alt_text
  ∧ (2 ≤ length alt_texts)%nat
  ∧ length groups = length alt_texts
  ∧ length (concat groups) = length alt_entities
  ∧ ∀ i g, groups !! i = Some g → rebased_group alt_texts alt_entities i g.
Proof.
  unfold _split_alternatives.
  destruct (Z.ltb_spec (Py.len (Py.split "|" alt_text)) 2) as [|Hlen]; [done|].
  unfold Py.len in Hlen.
  destruct (Py.getitem _ 0) as [div0|] eqn:Hdiv0; simpl; [|done].
  match goal with
  | |- context [for_each ?b ?l ?a] => destruct (for_each b l a) as [st|] eqn:Hloop
  end; simpl; [|done].
  case_bool_decide; simpl; [|done]. intros [= <- <-].
  apply (for_each_invariant _ (split_invariant alt_text)) in Hloop
    as (Hgroups & _ & _ & Hcount & Hrebased).
  - repeat split; [lia | done..].
  - unfold split_invariant. simpl.
    split; [by rewrite length_replicate|]. split; [done|].
    split.
    { intros _. unfold Py.getitem in Hdiv0.
      by destruct (Py.finditer_start "|" alt_text 0 !! 0%nat); simplify_eq. }
    split; [by rewrite concat_replicate_nil|].
    intros i g [-> _]%lookup_replicate. exists []. split; [done | done].
  - intros seen x st1 st2. apply split_invariant_step.
Qed.

(** ** The probe string and its entities *)

Lemma shift_offset_label entity k : label (_shift_offset entity k) = label entity.
Proof. done. Qed.

Lemma shift_offset_text entity k : text (_shift_offset entity k) = text entity.
Proof. done. Qed.

(** Only entities with a label are collected from an [ALT] element. *)
Lemma iterate_alt_tag_labels (is_wp : ascii → bool) self alt_tag probe
    alt_entities :
  _iterate_alt_tag is_wp self alt_tag = Ok (probe, alt_entities) →
  Forall (λ e, label e ≠ None) alt_entities.
Proof.
  unfold _iterate_alt_tag. intros Hloop.
  apply (for_each_invariant _
           (λ _ acc, Forall (λ e, label e ≠ None) acc.2)) in Hloop;
    [done | by constructor |].
  intros _ tag [text0 entities0] [text2 entities2] Hacc. simpl in Hacc.
  unfold _iterate_alt_tag_body. case_bool_decide; [|by intros [= <- <-]].
  destruct (_convert_entity self tag) as [entity|]; simpl; [|done].
  destruct (label entity) as [l|] eqn:Hlabel; simpl.
  - destruct (append_text_safe is_wp text0 (text entity)); simpl; [|done].
    match goal with
    | |- context [match etree.tail tag with _ => _ end] =>
        destruct (match etree.tail tag with Some _ => _ | None => _ end)
    end; simpl; [|done].
    intros [= <- <-]. simpl. apply Forall_app. split; [done|].
    constructor; [|done]. by rewrite shift_offset_label, Hlabel.
  - destruct (append_text_safe is_wp text0 (text entity)); simpl; [|done].
    match goal with
    | |- context [match etree.tail tag with _ => _ end] =>
        destruct (match etree.tail tag with Some _ => _ | None => _ end)
    end; simpl; [|done].
    by intros [= <- <-].
Qed.

(** The probe string and the entities do not depend on the strategy. *)
Lemma iterate_alt_tag_strategy (is_wp : ascii → bool) self self' alt_tag :
  _accepted_labels self = _accepted_labels self' →
  _iterate_alt_tag is_wp self alt_tag = _iterate_alt_tag is_wp self' alt_tag.
Proof.
  intros Hacc. unfold _iterate_alt_tag.
  generalize (match etree.text alt_tag with
              | Some t => if nonempty t then t else []
              | None => []
              end, @nil ENTITY).
  induction (etree.children alt_tag) as [|tag tags IH]; intros acc; [done|].
  simpl.
  assert (_iterate_alt_tag_body is_wp self acc tag
          = _iterate_alt_tag_body is_wp self' acc tag) as ->.
  { unfold _iterate_alt_tag_body, _convert_entity, _get_label.
    by rewrite Hacc. }
  destruct (_iterate_alt_tag_body is_wp self' acc tag); simpl; [apply IH | done].
Qed.

(** The probe string is the text of the [ALT] element to which the pieces
    of its [EM] children are appended in order, each with the guard against
    agglutination. *)
Lemma iterate_alt_tag_probe (is_wp : ascii → bool) self alt_tag probe
    alt_entities :
  _iterate_alt_tag is_wp self alt_tag = Ok (probe, alt_entities) →
  for_each (append_text_safe is_wp) (alt_pieces alt_tag)
    (default [] (etree.text alt_tag)) = Ok probe.
Proof.
  unfold _iterate_alt_tag, alt_pieces.
  replace (match etree.text alt_tag with
           | Some t => if nonempty t then t else []
           | None => []
           end) with (default [] (etree.text alt_tag))
    by (by destruct (etree.text alt_tag) as [[|]|]).
  generalize (default [] (etree.text alt_tag)) (@nil ENTITY).
  induction (etree.children alt_tag) as [|tag tags IH];
    intros text0 entities0; [by intros [= <- <-]|].
  rewrite for_each_cons, bind_cons.
  destruct (_iterate_alt_tag_body is_wp self (text0, entities0) tag)
    as [[text2 entities2]|] eqn:Hbody; simpl; [|done].
  intros Hrest%IH. rewrite for_each_app.
  enough (for_each (append_text_safe is_wp)
            (if bool_decide (etree.tag tag = lit "EM") then
               default [] (Py.lstrip <$> etree.text tag)
               :: match etree.tail tag with
                  | Some tl => if nonempty tl then [tl] else []
                  | None => []
                  end
             else []) text0 = Ok text2) as -> by done.
  clear IH Hrest. unfold _iterate_alt_tag_body in Hbody.
  case_bool_decide; [|by simplify_eq].
  unfold _convert_entity in Hbody.
  destruct (etree.text tag) as [elem_text|]; simpl in *; [|done].
  destruct (etree.attrib tag !! lit "ID"); simpl in *; [|done].
  destruct (_get_label self tag); simpl in *;
    (destruct (append_text_safe is_wp text0 (Py.lstrip elem_text))
       as [text1|]; simpl in *; [|done]);
    (destruct (etree.tail tag) as [tl|]; simpl in *;
     [destruct (nonempty tl); simpl in *;
      [destruct (append_text_safe is_wp text1 tl); simpl in *|]|]);
    by simplify_eq.
Qed.

(** ** The choice of a segment *)

Lemma select_first_argmax {A B} (scores : list Z) (xs : list A) (ys : list B) :
  scores ≠ [] →
  length xs = length scores →
  length ys = length scores →
  ∃ N x y,
    first_argmax scores N ∧ xs !! N = Some x ∧ ys !! N = Some y
    ∧ (m ← Py.max scores;
       N_max ← Py.index scores m;
       chosen ← Py.getitem xs N_max;
       group_text ← Py.getitem ys N_max;
       Ok (group_text, chosen)) = Ok (y, x).
Proof.
  intros (m & N & Hmax & Hindex & Hargmax)%index_max_first_argmax Hxs Hys.
  assert (N < length scores)%nat as HN.
  { destruct Hargmax as (? & HN%lookup_lt_Some & _). done. }
  destruct (lookup_lt_is_Some_2 xs N) as [x Hx]; [lia|].
  destruct (lookup_lt_is_Some_2 ys N) as [y Hy]; [lia|].
  exists N, x, y. repeat split; [done..|].
  rewrite Hmax. simpl. rewrite Hindex. simpl.
  unfold Py.getitem. rewrite Hx. simpl. by rewrite Hy.
Qed.

(** What [_handle_alt] returns for an element that is segmented: the
    segment at the first position of the greatest score. *)
Lemma handle_alt_first_argmax (is_wp : ascii → bool) self alt_tag probe
    alt_entities alt_texts groups :
  _iterate_alt_tag is_wp self alt_tag = Ok (probe, alt_entities) →
  _split_alternatives probe alt_entities = Ok (alt_texts, groups) →
  (∀ group entity, group ∈ groups → entity ∈ group → label entity ≠ None)
  ∧ (alt_strategy self = lit "most_entities" →
     ∃ N group_text chosen,
       first_argmax ((λ group, Py.len group) <$> groups) N
       ∧ alt_texts !! N = Some group_text ∧ groups !! N = Some chosen
       ∧ rebased_group alt_texts alt_entities N chosen
       ∧ _handle_alt is_wp self alt_tag = Ok (group_text, chosen))
  ∧ (alt_strategy self = lit "entity_coverage" →
     ∃ N group_text chosen,
       first_argmax
         ((λ group, Py.sum ((λ ent, Py.len (text ent)) <$> group))
            <$> groups) N
       ∧ alt_texts !! N = Some group_text ∧ groups !! N = Some chosen
       ∧ rebased_group alt_texts alt_entities N chosen
       ∧ _handle_alt is_wp self alt_tag = Ok (group_text, chosen)).
Proof.
  intros Hiter Hsplit.
  pose proof (iterate_alt_tag_labels _ _ _ _ _ Hiter) as Hlabels.
  destruct (split_alternatives_Ok _ _ _ _ Hsplit)
    as (_ & Htwo & Hlen & Hcount & Hrebased).
  assert (groups ≠ []) as Hne by (destruct groups; simpl in *; [lia | done]).
  split; [|split].
  - intros group entity [i Hi]%list_elem_of_lookup_1 Hentity.
    destruct (Hrebased i group Hi) as (sub & Hsub & ->).
    apply list_elem_of_fmap in Hentity as (e & -> & He).
    rewrite shift_offset_label.
    rewrite Forall_forall in Hlabels. apply Hlabels.
    by eapply sublist_submseteq, elem_of_submseteq in Hsub.
  - intros Hstrategy.
    destruct (select_first_argmax (Py.len <$> groups) groups alt_texts)
      as (N & chosen & group_text & Hargmax & Hchosen & Htext & Hrun);
      [by destruct groups | by rewrite length_fmap
       | by rewrite length_fmap |].
    exists N, group_text, chosen. repeat split; [done..| by apply Hrebased |].
    unfold _handle_alt. rewrite Hiter. simpl. rewrite Hsplit. simpl.
    rewrite bool_decide_eq_true_2 by done.
    unfold ents_per_group. rewrite sum_len_concat.
    replace (Py.len (concat groups)) with (Py.len alt_entities)
      by (unfold Py.len; by rewrite Hcount).
    rewrite Z.eqb_refl. simpl. exact Hrun.
  - intros Hstrategy.
    destruct (select_first_argmax (coverages groups) groups alt_texts)
      as (N & chosen & group_text & Hargmax & Hchosen & Htext & Hrun);
      [by destruct groups | by unfold coverages; rewrite length_fmap
       | by unfold coverages; rewrite length_fmap |].
    exists N, group_text, chosen. repeat split; [done..| by apply Hrebased |].
    unfold _handle_alt. rewrite Hiter. simpl. rewrite Hsplit. simpl.
    rewrite Hstrategy.
    rewrite bool_decide_eq_false_2 by (by vm_compute).
    rewrite bool_decide_eq_true_2 by done. simpl. exact Hrun.
Qed.

(** X24. Once the probe string of an [ALT] element is built and split,
    [_handle_alt] returns the text and the group at the first index at
    which the groups returned by [_split_alternatives] have the greatest
    score: the number of entities of the group under [most_entities], the
    sum of the lengths of their texts under [entity_coverage]. The groups
    hold entities with a label only, and the group returned is a sublist of
    the entities collected, shifted back by the start of the segment at
    that index. Which group an entity is in is the matter of the split
    step, not of this choice. *)
Theorem handle_alt_selection (is_wp : ascii → bool) self alt_tag probe
    alt_entities alt_texts groups :
  _iterate_alt_tag is_wp self alt_tag = Ok (probe, alt_entities) →
  _split_alternatives probe alt_entities = Ok (alt_texts, groups) →
  (∀ group entity, group ∈ groups → entity ∈ group → label entity ≠ None)
  ∧ (alt_strategy self = lit "most_entities" →
     ∃ N group_text chosen,
       first_argmax ((λ group, Py.len group) <$> groups) N
       ∧ alt_texts !! N = Some group_text ∧ groups !! N = Some chosen
       ∧ rebased_group alt_texts alt_entities N chosen
       ∧ _handle_alt is_wp self alt_tag = Ok (group_text, chosen))
  ∧ (alt_strategy self = lit "entity_coverage" →
     ∃ N group_text chosen,
       first_argmax
         ((λ group, Py.sum ((λ ent, Py.len (text ent)) <$> group))
            <$> groups) N
       ∧ alt_texts !! N = Some group_text ∧ groups !! N = Some chosen
       ∧ rebased_group alt_texts alt_entities N chosen
       ∧ _handle_alt is_wp self alt_tag = Ok (group_text, chosen)).
Proof. apply handle_alt_first_argmax. Qed.

Lemma handle_alt_selection_witness :
  let is_wp := ascii_whitespace_or_punctuation in
  (∃ N,
     first_argmax [1; 2]%Z N
     ∧ _handle_alt is_wp (converter false "most_entities") ovarense_amora
       = Ok (lit "Ovarense-Amora",
             [ entity "143" "Ovarense" "PESSOA" 0 8;
               entity "144" "Amora" "PESSOA" 9 14 ]))
  ∧ (∃ N,
       first_argmax [14; 13]%Z N
       ∧ _handle_alt is_wp (converter false "entity_coverage") ovarense_amora
         = Ok (lit "Ovarense-Amora",
               [ entity "142" "Ovarense-Amora" "ACONTECIMENTO" 0 14 ])).
Proof.
  intros is_wp.
  set (probe := lit "Ovarense-Amora|Ovarense-Amora").
  set (alt_entities :=
         [ entity "142" "Ovarense-Amora" "ACONTECIMENTO" 0 14;
           entity "143" "Ovarense" "PESSOA" 15 23;
           entity "144" "Amora" "PESSOA" 24 29 ]).
  set (alt_texts := [ lit "Ovarense-Amora"; lit "Ovarense-Amora" ]).
  set (groups :=
         [ [ entity "142" "Ovarense-Amora" "ACONTECIMENTO" 0 14 ];
           [ entity "143" "Ovarense" "PESSOA" 0 8;
             entity "144" "Amora" "PESSOA" 9 14 ] ]).
  split.
  - destruct (handle_alt_selection is_wp (converter false "most_entities")
                ovarense_amora probe alt_entities alt_texts groups
                eq_refl eq_refl) as (_ & Hmost & _).
    destruct (Hmost eq_refl) as (N & t & c & Hargmax & _ & _ & _ & Hrun).
    exists N. split; [exact Hargmax|]. rewrite Hrun.
    apply (f_equal (λ r, match r with Ok p => p | Raise _ => ([], []) end))
      in Hrun. simpl in Hrun. rewrite <- Hrun. reflexivity.
  - destruct (handle_alt_selection is_wp (converter false "entity_coverage")
                ovarense_amora probe alt_entities alt_texts groups
                eq_refl eq_refl) as (_ & _ & Hcoverage).
    destruct (Hcoverage eq_refl) as (N & t & c & Hargmax & _ & _ & _ & Hrun).
    exists N. split; [exact Hargmax|]. rewrite Hrun.
    apply (f_equal (λ r, match r with Ok p => p | Raise _ => ([], []) end))
      in Hrun. simpl in Hrun. rewrite <- Hrun. reflexivity.
Defined.

(** ** All entities in one segment *)

Lemma first_argmax_single (f : list ENTITY → Z) (groups : list (list ENTITY))
    k chosen :
  groups !! k = Some chosen →
  (∀ j group, j ≠ k → groups !! j = Some group → group = []) →
  f [] = 0%Z → (0 < f chosen)%Z →
  first_argmax (f <$> groups) k.
Proof.
  intros Hk Hothers Hnil Hpos. exists (f chosen).
  assert (∀ j x, j ≠ k → (f <$> groups) !! j = Some x → x = 0%Z) as Hzero.
  { intros j x Hj Hx. rewrite list_lookup_fmap in Hx.
    destruct (groups !! j) as [g|] eqn:Hg; [|done]. simpl in Hx.
    rewrite (Hothers j g Hj Hg) in Hx. by simplify_eq. }
  split; [by rewrite list_lookup_fmap, Hk|]. split.
  - intros j x Hx. destruct (decide (j = k)) as [->|Hj].
    + rewrite list_lookup_fmap, Hk in Hx. simpl in Hx. simplify_eq. lia.
    + rewrite (Hzero j x Hj Hx). lia.
  - intros j x Hj Hx. rewrite (Hzero j x) by (done || lia). done.
Qed.

(** When one group only, of those that the split step returns, holds
    entities, and their texts are not all empty, both strategies return the
    text and the group at its index. *)
Lemma handle_alt_single_group (is_wp : ascii → bool) accepted alt_tag probe
    alt_entities alt_texts groups k group_text chosen :
  let self strategy :=
    {| _accepted_labels := accepted; alt_strategy := lit strategy |} in
  _iterate_alt_tag is_wp (self "most_entities") alt_tag
    = Ok (probe, alt_entities) →
  _split_alternatives probe alt_entities = Ok (alt_texts, groups) →
  alt_texts !! k = Some group_text →
  groups !! k = Some chosen →
  chosen ≠ [] →
  (∀ j group, j ≠ k → groups !! j = Some group → group = []) →
  (0 < Py.sum ((λ ent, Py.len (text ent)) <$> chosen))%Z →
  _handle_alt is_wp (self "most_entities") alt_tag = Ok (group_text, chosen)
  ∧ _handle_alt is_wp (self "entity_coverage") alt_tag
      = Ok (group_text, chosen).
Proof.
  intros self Hiter Hsplit Htext Hchosen Hne Hothers Hcoverage.
  assert (_iterate_alt_tag is_wp (self "entity_coverage") alt_tag
          = Ok (probe, alt_entities)) as Hiter'.
  { by rewrite <- Hiter; apply iterate_alt_tag_strategy. }
  split.
  - destruct (handle_alt_first_argmax _ _ _ _ _ _ _ Hiter Hsplit)
      as (_ & Hmost & _).
    destruct (Hmost eq_refl) as (N & t & c & Hargmax & Ht & Hc & _ & ->).
    assert (N = k) as ->; [|by simplify_eq].
    apply (first_argmax_unique _ _ _ Hargmax).
    apply (first_argmax_single Py.len _ _ chosen); [done..|].
    destruct chosen; [done|]. unfold Py.len. simpl. lia.
  - destruct (handle_alt_first_argmax _ _ _ _ _ _ _ Hiter' Hsplit)
      as (_ & _ & Hcov).
    destruct (Hcov eq_refl) as (N & t & c & Hargmax & Ht & Hc & _ & ->).
    assert (N = k) as ->; [|by simplify_eq].
    apply (first_argmax_unique _ _ _ Hargmax).
    by apply (first_argmax_single
                (λ group, Py.sum ((λ ent, Py.len (text ent)) <$> group))
                _ _ chosen).
Qed.

(** ** Where the offsets go wrong *)

(** C3, on the element [rio_tejo]. The probe string is built as the claim
    says, with a space between [rio] and [Tejo]; the entity was shifted by
    the length of the text before that space was added, so that its offsets
    select [" Tej"] in the probe string and not its text [Tejo]. *)
Theorem iterate_alt_tag_offsets_before_space :
  let is_wp := ascii_whitespace_or_punctuation in
  ∃ probe e,
    _iterate_alt_tag is_wp (converter false "most_entities") rio_tejo
      = Ok (probe, [e])
    ∧ probe = lit "rio Tejo|rio Tejo"
    ∧ e = entity "1" "Tejo" "LOCAL" 3 7
    ∧ Py.slice probe (start_offset e) (end_offset e) = lit " Tej"
    ∧ Py.slice probe (start_offset e) (end_offset e) ≠ text e.
Proof.
  intros is_wp. eexists _, _. split; [by vm_compute|].
  repeat split. by vm_compute.
Qed.

(** C2, on the probe string and the entity of [rio_o_rio_tejo]. The start
    offset of the entity, 10, is in the span of the third segment, which
    starts at 10; the loop moves on by one group only, and the entity ends
    in the group of the second segment, rebased by the start, 4, of that
    segment. *)
Theorem split_alternatives_skipped_segment :
  let is_wp := ascii_whitespace_or_punctuation in
  let probe := lit "rio|o rio|Tejo" in
  let e := entity "1" "Tejo" "LOCAL" 10 14 in
  let alt_texts := [ lit "rio"; lit "o rio"; lit "Tejo" ] in
  _iterate_alt_tag is_wp (converter false "most_entities") rio_o_rio_tejo
    = Ok (probe, [e])
  ∧ _split_alternatives probe [e]
    = Ok (alt_texts, [ []; [ entity "1" "Tejo" "LOCAL" 6 10 ]; [] ])
  ∧ segment_start alt_texts 1 = 4%Z
  ∧ segment_start alt_texts 2 = 10%Z
  ∧ Py.slice probe 10 14 = text e.
Proof. intros is_wp probe e alt_texts. repeat split; by vm_compute. Qed.

(** C1, on a document whose only child is [rio_tejo]. The document is
    accepted; the offsets of its entity select [" Tej"] in the document
    text and not the text [Tejo] of the entity. *)
Theorem convert_document_offsets_off :
  let is_wp := ascii_whitespace_or_punctuation in
  ∃ e,
    convert_document is_wp (converter false "most_entities")
      (DOC "HAREM-1" None [ rio_tejo ])
    = Ok {| doc_id := lit "HAREM-1"; doc_text := lit "rio Tejo";
            entities := [e] |}
    ∧ e = entity "1" "Tejo" "LOCAL" 3 7
    ∧ Py.slice (lit "rio Tejo") (start_offset e) (end_offset e) = lit " Tej"
    ∧ Py.slice (lit "rio Tejo") (start_offset e) (end_offset e) ≠ text e.
Proof.
  intros is_wp. eexists. split; [by vm_compute|].
  repeat split. by vm_compute.
Qed.

(** C4, on the element [rio_o_rio_tejo]. Its only entity starts in the
    third segment, [Tejo]; the second segment, [o rio], holds no entity.
    Under [most_entities] and under [entity_coverage] alike, [_handle_alt]
    returns the text of the second segment, with the entity at offsets that
    lie beyond that text: not the segment with the most entities, nor the
    one whose entities cover the most text. *)
Theorem handle_alt_wrong_segment :
  let is_wp := ascii_whitespace_or_punctuation in
  let probe := lit "rio|o rio|Tejo" in
  let e := entity "1" "Tejo" "LOCAL" 10 14 in
  let alt_texts := [ lit "rio"; lit "o rio"; lit "Tejo" ] in
  _iterate_alt_tag is_wp (converter false "most_entities") rio_o_rio_tejo
    = Ok (probe, [e])
  ∧ Py.split "|" probe = alt_texts
  ∧ in_segment alt_texts 2 e
  ∧ ¬ in_segment alt_texts 1 e
  ∧ _handle_alt is_wp (converter false "most_entities") rio_o_rio_tejo
    = Ok (lit "o rio", [ entity "1" "Tejo" "LOCAL" 6 10 ])
  ∧ _handle_alt is_wp (converter false "entity_coverage") rio_o_rio_tejo
    = Ok (lit "o rio", [ entity "1" "Tejo" "LOCAL" 6 10 ])
  ∧ (Py.len (lit "o rio") < 6)%Z.
Proof.
  intros is_wp probe e alt_texts.
  split; [by vm_compute|]. split; [by vm_compute|].
  split; [exists (lit "Tejo"); split; [done | by vm_compute]|].
  split.
  - intros (t & Ht & Hlo & Hhi). injection Ht as <-.
    vm_compute in Hhi. by apply Hhi.
  - split; [by vm_compute|]. split; by vm_compute.
Qed.

(** An [EM] element whose text is white space gives an entity with an
    empty text, and with offsets that are equal. *)
Example convert_document_blank_entity :
  convert_document ascii_whitespace_or_punctuation
    (converter false "most_entities")
    (DOC "HAREM-2" (Some "a ") [ EM "1" "PESSOA" " " (Some "b") ])
  = Ok {| doc_id := lit "HAREM-2"; doc_text := lit "a b";
          entities := [ entity "1" "" "PESSOA" 2 2 ] |}.
Proof. by vm_compute. Qed.

(** ** The examples of the test suite *)

Example test_iterate_alt_tag_total :
  _iterate_alt_tag ascii_whitespace_or_punctuation
    (converter false "most_entities") ovarense_amora
  = Ok (lit "Ovarense-Amora|Ovarense-Amora",
        [ entity "142" "Ovarense-Amora" "ACONTECIMENTO" 0 14;
          entity "143" "Ovarense" "PESSOA" 15 23;
          entity "144" "Amora" "PESSOA" 24 29 ]).
Proof. by vm_compute. Qed.

Example test_iterate_alt_tag_selective :
  _iterate_alt_tag ascii_whitespace_or_punctuation
    (converter true "most_entities") ovarense_amora
  = Ok (lit "Ovarense-Amora|Ovarense-Amora",
        [ entity "143" "Ovarense" "PESSOA" 15 23;
          entity "144" "Amora" "PESSOA" 24 29 ]).
Proof. by vm_compute. Qed.

Example test_handle_alt_selective :
  ∀ strategy, strategy ∈ [ "most_entities"; "entity_coverage" ]%string →
    _handle_alt ascii_whitespace_or_punctuation
      (converter true strategy) ovarense_amora
    = Ok (lit "Ovarense-Amora",
          [ entity "143" "Ovarense" "PESSOA" 0 8;
            entity "144" "Amora" "PESSOA" 9 14 ]).
Proof.
  intros strategy Hs. repeat (apply elem_of_cons in Hs as [->|Hs]);
    [by vm_compute.. | by apply elem_of_nil in Hs].
Qed.

Example test_handle_alt_simple_case_selective :
  ∀ strategy, strategy ∈ [ "most_entities"; "entity_coverage" ]%string →
    _handle_alt ascii_whitespace_or_punctuation
      (converter true strategy) nomes_de_origem
    = Ok (lit "Nomes de Origem", []).
Proof.
  intros strategy Hs. repeat (apply elem_of_cons in Hs as [->|Hs]);
    [by vm_compute.. | by apply elem_of_nil in Hs].
Qed.

Example test_text_agglutination_correction :
  ∃ doc,
    convert_document ascii_whitespace_or_punctuation
      (converter false "most_entities") marco_bode = Ok doc
    ∧ doc_text doc
      = lit ("Marco Bode fez o 4-0 aos 67', o Duisburg reduziu por "
             ++ "Markkus Marin (78') e foi Andreas Herzog quem estabeleceu o "
             ++ "resultado final, a sete minutos do fim.")
    ∧ (λ e, (text e, label e)) <$> entities doc
      = [ (lit "Marco Bode", Some (lit "PESSOA"));
          (lit "4-0", Some (lit "VALOR"));
          (lit "67'", Some (lit "VALOR"));
          (lit "Duisburg", Some (lit "PESSOA"));
          (lit "Markkus Marin", Some (lit "PESSOA"));
          (lit "78'", Some (lit "VALOR"));
          (lit "Andreas Herzog", Some (lit "PESSOA")) ]
    ∧ Forall (λ e, Py.slice (doc_text doc) (start_offset e) (end_offset e)
                   = text e) (entities doc).
Proof.
  eexists. split; [by vm_compute|]. split; [by vm_compute|].
  split; [by vm_compute|]. simpl entities. simpl doc_text.
  repeat (constructor; [by vm_compute|]). constructor.
Qed.

(** ** Documents without ALT blocks *)

Lemma located_slice doc_text e :
  located doc_text e →
  Py.slice doc_text (start_offset e) (end_offset e) = text e
  ∧ (0 ≤ start_offset e ≤ end_offset e)%Z
  ∧ (end_offset e ≤ Py.len doc_text)%Z.
Proof.
  intros (before & after & -> & Hstart & Hend).
  rewrite Hstart, Hend. unfold Py.slice, Py.clip.
  rewrite !PyFacts.len_app.
  pose proof (PyFacts.len_nonneg before).
  pose proof (PyFacts.len_nonneg (text e)).
  pose proof (PyFacts.len_nonneg after).
  rewrite !(proj2 (Z.ltb_ge _ 0)) by lia.
  rewrite !Z.min_l by lia.
  split; [|lia].
  replace (Z.to_nat (Py.len before + Py.len (text e) - Py.len before))
    with (length (text e)) by (unfold Py.len; lia).
  replace (Z.to_nat (Py.len before)) with (length before)
    by (unfold Py.len; lia).
  by rewrite drop_app_length, take_app_length.
Qed.

Lemma located_app doc_text more e :
  located doc_text e → located (doc_text ++ more) e.
Proof.
  intros (before & after & -> & Hstart & Hend).
  exists before, (after ++ more). by rewrite <- !app_assoc.
Qed.

Lemma located_shift doc_text tag_text e :
  located tag_text e →
  located (doc_text ++ tag_text) (_shift_offset e (Py.len doc_text)).
Proof.
  intros (before & after & -> & Hstart & Hend).
  exists (doc_text ++ before), after. simpl.
  rewrite PyFacts.len_app, app_assoc. repeat split; lia.
Qed.

(** The two guards of the loop of [convert_document] together: the text of
    the element is appended to the text so far, after a space at most, and
    the offsets are shifted to the place where it starts. *)
Lemma avoid_then_append (is_wp : ascii → bool) text0 tag_text text1 text2 :
  is_wp " "%char = true →
  _avoid_word_agglutination is_wp text0 tag_text = Ok text1 →
  (if nonempty tag_text then append_text_safe is_wp text1 tag_text
   else Ok text1) = Ok text2 →
  text2 = text1 ++ tag_text.
Proof.
  intros Hspace. unfold _avoid_word_agglutination, append_text_safe.
  destruct text0 as [|x text0]; simpl nonempty; cbv iota; simpl negb;
    cbv iota.
  - intros [= <-]. simpl nonempty. cbv iota.
    destruct tag_text; simpl; by intros [= <-].
  - destruct (Py.lastitem (x :: text0)) as [c|] eqn:Hc; simpl; [|done].
    destruct (is_wp c) eqn:Hwc; simpl.
    + intros [= <-]. simpl nonempty. cbv iota. rewrite Hc. simpl.
      rewrite Hwc. simpl.
      destruct tag_text; simpl; intros [= <-]; by rewrite ?app_nil_r.
    + destruct tag_text as [|d tag_text]; [done|].
      unfold Py.first, Py.getitem. simpl.
      destruct (is_wp d) eqn:Hwd; simpl.
      * intros [= <-]. simpl nonempty. cbv iota. rewrite Hc. simpl.
        rewrite Hwc. simpl. by intros [= <-].
      * intros [= <-].
        assert (Py.lastitem (x :: text0 ++ lit " ") = Ok " "%char) as ->.
        { unfold Py.lastitem. change (x :: text0 ++ lit " ")
            with ((x :: text0) ++ [" "%char]). by rewrite last_snoc. }
        simpl. rewrite Hspace. simpl. by intros [= <-].
Qed.

Lemma avoid_word_agglutination_Ok (is_wp : ascii → bool) text0 insertion
    text1 :
  _avoid_word_agglutination is_wp text0 insertion = Ok text1 →
  text1 = text0 ∨ text1 = text0 ++ lit " ".
Proof.
  unfold _avoid_word_agglutination.
  destruct (nonempty text0); simpl; [|intros [= <-]; by left].
  destruct (Py.lastitem text0) as [c|]; simpl; [|done].
  destruct (is_wp c); simpl; [intros [= <-]; by left|].
  destruct (Py.first insertion) as [d|]; simpl; [|done].
  destruct (is_wp d); simpl; intros [= <-]; [by left | by right].
Qed.

(** An element that is not an [ALT] block gives entities located in its
    text, each with a label. *)
Lemma convert_tag_located (is_wp : ascii → bool) self tag tag_text
    tag_entities :
  etree.tag tag ≠ lit "ALT" →
  _convert_tag is_wp self tag = Ok (tag_text, tag_entities) →
  Forall (λ e, located tag_text e ∧ label e ≠ None) tag_entities.
Proof.
  intros HALT. unfold _convert_tag.
  rewrite (bool_decide_eq_false_2 (etree.tag tag = lit "ALT")) by done.
  case_bool_decide as HEM; simpl.
  - unfold _convert_entity.
    destruct (etree.text tag) as [elem_text|]; simpl; [|done].
    destruct (etree.attrib tag !! lit "ID") as [id|]; simpl; [|done].
    assert (∀ l more,
              located (Py.lstrip elem_text ++ more)
                {| entity_id := id; text := Py.lstrip elem_text; label := l;
                   start_offset := 0;
                   end_offset := Py.len (Py.lstrip elem_text) |})
      as Hlocated.
    { intros l more. by exists [], more. }
    destruct (_get_label self tag) as [l|] eqn:Hlabel.
    + destruct (etree.tail tag) as [tl|]; simpl.
      * destruct (_avoid_word_agglutination is_wp (Py.lstrip elem_text) tl)
          as [text1|] eqn:Havoid; simpl; [|done].
        intros [= <- <-]. constructor; [|done]. split; [|done].
        apply avoid_word_agglutination_Ok in Havoid as [->| ->];
          [|rewrite <- app_assoc]; apply Hlocated.
      * intros [= <- <-]. constructor; [|done]. split; [|done].
        exists [], []. simpl. by rewrite app_nil_r.
    + destruct (etree.tail tag) as [tl|]; simpl.
      * destruct (_avoid_word_agglutination is_wp (Py.lstrip elem_text) tl);
          simpl; [|done].
        by intros [= <- <-].
      * by intros [= <- <-].
  - destruct (etree.tail tag) as [tl|]; simpl.
    + by intros [= <- <-].
    + by intros [= <- <-].
Qed.

(** In a document without [ALT] blocks, when the space is in the class of
    white space and punctuation, every entity returned has a label and
    offsets that select its text in the document text. *)
Lemma convert_document_no_alt (is_wp : ascii → bool) self doc document :
  is_wp " "%char = true →
  Forall (λ tag, etree.tag tag ≠ lit "ALT") (etree.children doc) →
  convert_document is_wp self doc = Ok document →
  Forall (λ e, Py.slice (doc_text document) (start_offset e) (end_offset e)
               = text e
               ∧ (0 ≤ start_offset e ≤ end_offset e)%Z
               ∧ (end_offset e ≤ Py.len (doc_text document))%Z
               ∧ label e ≠ None)
    (entities document).
Proof.
  intros Hspace Hno_alt. unfold convert_document.
  case_bool_decide; [done|].
  match goal with
  | |- context [for_each ?b ?l ?a] =>
      destruct (for_each b l a) as [[text1 entities1]|] eqn:Hloop
  end; simpl; [|done].
  destruct (etree.attrib doc !! lit "DOCID"); [|done]. intros [= <-]. simpl.
  assert (Forall (λ e, located text1 e ∧ label e ≠ None) entities1) as Hall.
  { revert Hloop Hno_alt.
    generalize (etree.children doc). intros tags Hloop Hno_alt.
    set (I := λ (seen : list etree._Element) (acc : str * list ENTITY),
                Forall (λ tag, etree.tag tag ≠ lit "ALT") seen →
                Forall (λ e, located acc.1 e ∧ label e ≠ None) acc.2).
    assert (∀ acc0, acc0.2 = [] → I [] acc0) as Hbase.
    { intros acc0 Hnil _. rewrite Hnil. apply Forall_nil_2. }
    apply (for_each_invariant _ I tags (_, []) (text1, entities1)
             (Hbase (_, []) eq_refl)) in Hloop;
      [by apply Hloop|].
    unfold I. clear I Hbase Hloop Hno_alt.
    intros seen tag [text_a entities_a] [text_b entities_b] IH Hbody
           [Hseen [Htag _]%Forall_cons]%Forall_app.
    specialize (IH Hseen). simpl in *.
    unfold convert_document_body in Hbody.
    destruct (_convert_tag is_wp self tag) as [[tag_text tag_entities]|]
      eqn:Hconv; simpl in Hbody; [|done].
    destruct (_avoid_word_agglutination is_wp text_a tag_text) as [text_s|]
      eqn:Havoid; simpl in Hbody; [|done].
    match type of Hbody with
    | context [if nonempty tag_text then ?a else ?b] =>
        destruct (if nonempty tag_text then a else b) as [text_c|] eqn:Happ
    end; simpl in Hbody; [|done].
    injection Hbody as <- <-.
    apply (avoid_then_append _ _ _ _ _ Hspace Havoid) in Happ as ->.
    apply convert_tag_located in Hconv; [|done].
    apply Forall_app. split.
    - eapply Forall_impl; [exact IH|]. intros e [Hloc Hlabel]. split; [|done].
      apply located_app.
      apply avoid_word_agglutination_Ok in Havoid as [->| ->];
        [done | by apply located_app].
    - apply Forall_fmap. eapply Forall_impl; [exact Hconv|].
      intros e [Hloc Hlabel]. split; [by apply located_shift | done]. }
  eapply Forall_impl; [exact Hall|]. intros e [Hloc Hlabel].
  destruct (located_slice _ _ Hloc) as (? & ? & ?). done.
Qed.

(** * Further properties of the converter *)

(** ** Shifting offsets *)

(** X1. Shifts add up: a shift by [a] and then by [b] is a shift by
    [a + b], a shift by [0] changes nothing, and a shift is undone by the
    opposite shift. A shift keeps the identifier, the text and the label of
    the entity, and the distance between its two offsets. *)
Theorem shift_offset_compose entity a b :
  _shift_offset (_shift_offset entity a) b = _shift_offset entity (a + b)
  ∧ _shift_offset entity 0 = entity
  ∧ _shift_offset (_shift_offset entity a) (- a) = entity
  ∧ entity_id (_shift_offset entity a) = entity_id entity
  ∧ text (_shift_offset entity a) = text entity
  ∧ label (_shift_offset entity a) = label entity
  ∧ (end_offset (_shift_offset entity a) - start_offset (_shift_offset entity a)
     = end_offset entity - start_offset entity)%Z.
Proof.
  destruct entity as [id t l s e]. unfold _shift_offset. simpl.
  repeat split; try (f_equal; lia). lia.
Qed.

(** ** Errors of the entity extraction *)

(** X2. [_convert_entity] returns an entity exactly when the element has a
    text and an [ID] attribute. Without a text it raises [AttributeError],
    whether or not there is an [ID]; with a text and without [ID] it raises
    [KeyError]. The label plays no part: an element without [CATEG], or
    with labels that are not accepted, still gives an entity, with no
    label. *)
Theorem convert_entity_errors self elem :
  ((∃ entity, _convert_entity self elem = Ok entity) ↔
   is_Some (etree.text elem) ∧ is_Some (etree.attrib elem !! lit "ID"))
  ∧ (etree.text elem = None →
     _convert_entity self elem = Raise AttributeError)
  ∧ (is_Some (etree.text elem) → etree.attrib elem !! lit "ID" = None →
     _convert_entity self elem = Raise KeyError)
  ∧ (∀ entity, _convert_entity self elem = Ok entity →
     etree.attrib elem !! lit "CATEG" = None → label entity = None).
Proof.
  unfold _convert_entity, _get_label.
  destruct (etree.text elem) as [t|]; destruct (etree.attrib elem !! lit "ID")
    as [id|] eqn:Hid; simpl.
  - split; [split; [by eauto | by eauto]|]. split; [done|].
    split; [done|]. intros entity [= <-] HC. simpl. by rewrite HC.
  - split; [split; [by intros [? ?] | by intros [_ [? ?]]]|].
    split; [done|]. split; [done|]. done.
  - split; [split; [by intros [? ?] | by intros [[? ?] _]]|].
    split; [done|]. split; [by intros [? ?]|]. done.
  - split; [split; [by intros [? ?] | by intros [[? ?] _]]|].
    split; [done|]. split; [by intros [? ?]|]. done.
Qed.

Lemma convert_entity_errors_witness :
  let self := converter true "most_entities" in
  _convert_entity self
    (etree.Element (lit "EM") ∅ None None []) = Raise AttributeError
  ∧ _convert_entity self
      (etree.Element (lit "EM") ∅ (Some (lit "Ana")) None [])
    = Raise KeyError
  ∧ ∃ entity,
      _convert_entity self
        (etree.Element (lit "EM") (<[lit "ID" := lit "7"]> ∅)
           (Some (lit "Ana")) None []) = Ok entity
      ∧ label entity = None.
Proof.
  intros self. split; [|split].
  - apply (convert_entity_errors self
             (etree.Element (lit "EM") ∅ None None [])). reflexivity.
  - apply (convert_entity_errors self
             (etree.Element (lit "EM") ∅ (Some (lit "Ana")) None []));
      [by eexists | reflexivity].
  - destruct (proj2 (proj1 (convert_entity_errors self
                (etree.Element (lit "EM") (<[lit "ID" := lit "7"]> ∅)
                   (Some (lit "Ana")) None []))))
      as [entity Hentity].
    { split; by eexists. }
    exists entity. split; [exact Hentity|].
    apply (convert_entity_errors self
             (etree.Element (lit "EM") (<[lit "ID" := lit "7"]> ∅)
                (Some (lit "Ana")) None []) ); [exact Hentity | reflexivity].
Defined.

(** ** The two guards against agglutination *)

Lemma append_text_safe_guard (is_wp : ascii → bool) text piece :
  append_text_safe is_wp text piece
  = (λ guarded, guarded ++ piece)
      <$> _avoid_word_agglutination is_wp text piece.
Proof.
  unfold append_text_safe, _avoid_word_agglutination.
  destruct (nonempty text); simpl; [|done].
  destruct (Py.lastitem text) as [c|]; simpl; [|done].
  destruct (is_wp c); simpl; [done|].
  destruct (Py.first piece) as [d|]; simpl; [|done].
  by destruct (is_wp d).
Qed.

(** X3. [append_text_safe] is [_avoid_word_agglutination] followed by the
    concatenation: it returns the guarded text with the piece appended, and
    raises when the guard raises. *)
Theorem append_text_safe_is_guard_then_concat (is_wp : ascii → bool)
    text piece :
  append_text_safe is_wp text piece
  = guarded ← _avoid_word_agglutination is_wp text piece;
    Ok (guarded ++ piece).
Proof.
  rewrite append_text_safe_guard.
  by destruct (_avoid_word_agglutination is_wp text piece).
Qed.

Lemma avoid_word_agglutination_cases (is_wp : ascii → bool) text insertion :
  match last text with
  | None => _avoid_word_agglutination is_wp text insertion = Ok text
  | Some c =>
      if is_wp c then _avoid_word_agglutination is_wp text insertion = Ok text
      else match head insertion with
           | None =>
               _avoid_word_agglutination is_wp text insertion
               = Raise IndexError
           | Some d =>
               _avoid_word_agglutination is_wp text insertion
               = Ok (if is_wp d then text else text ++ lit " ")
           end
  end.
Proof.
  unfold _avoid_word_agglutination, Py.lastitem, Py.first, Py.getitem.
  destruct text as [|x text]; [done|].
  simpl nonempty. cbv iota. simpl negb. cbv iota.
  destruct (last (x :: text)) as [c|] eqn:Hc.
  - simpl. destruct (is_wp c); simpl; [done|].
    destruct insertion as [|d insertion]; simpl; [done|].
    by destruct (is_wp d).
  - by apply last_None in Hc.
Qed.

(** X4. The guard raises in one case only, with [IndexError]: the text
    ends with a character that is neither white space nor punctuation and
    the insertion is empty. In every other case it returns the text, or the
    text and one space. An empty text never raises. *)
Theorem avoid_word_agglutination_errors (is_wp : ascii → bool) text
    insertion :
  (∀ e, _avoid_word_agglutination is_wp text insertion = Raise e ↔
        e = IndexError ∧ insertion = []
        ∧ ∃ c, last text = Some c ∧ is_wp c = false)
  ∧ (∀ guarded, _avoid_word_agglutination is_wp text insertion = Ok guarded →
       guarded = text ∨ guarded = text ++ lit " ")
  ∧ _avoid_word_agglutination is_wp [] insertion = Ok [].
Proof.
  pose proof (avoid_word_agglutination_cases is_wp text insertion) as Hcases.
  split; [|split; [|done]].
  - intros e. destruct (last text) as [c|] eqn:Hc.
    + destruct (is_wp c) eqn:Hwc.
      * rewrite Hcases. split; [done|]. intros (_ & _ & c' & [= <-] & Hc').
        congruence.
      * destruct insertion as [|d insertion]; simpl in Hcases; rewrite Hcases.
        -- split; [intros [= <-]; by eauto | by intros (-> & _)].
        -- split; [done | by intros (_ & ? & _)].
    + rewrite Hcases. split; [done | by intros (_ & _ & c & ? & _)].
  - intros guarded. destruct (last text) as [c|].
    + destruct (is_wp c).
      * rewrite Hcases. intros [= <-]. by left.
      * destruct (head insertion) as [d|]; rewrite Hcases; [|done].
        intros [= <-]. destruct (is_wp d); [by left | by right].
    + rewrite Hcases. intros [= <-]. by left.
Qed.

Lemma avoid_word_agglutination_errors_witness :
  let is_wp := ascii_whitespace_or_punctuation in
  _avoid_word_agglutination is_wp (lit "aos") [] = Raise IndexError
  ∧ (_avoid_word_agglutination is_wp (lit "aos") (lit "67'")
       = Ok (lit "aos")
     ∨ _avoid_word_agglutination is_wp (lit "aos") (lit "67'")
       = Ok (lit "aos" ++ lit " ")).
Proof.
  intros is_wp.
  destruct (avoid_word_agglutination_errors is_wp (lit "aos") [])
    as (Hraise & _ & _).
  destruct (avoid_word_agglutination_errors is_wp (lit "aos") (lit "67'"))
    as (_ & Hok & _).
  split.
  - apply Hraise. split; [reflexivity|]. split; [reflexivity|].
    exists "s"%char. split; reflexivity.
  - destruct (Hok (lit "aos ") eq_refl) as [Heq|Heq]; [discriminate|].
    right. reflexivity.
Defined.

(** ** Labels under the two scenarios *)

Lemma first_accepted_mono accepted1 accepted2 labels l :
  accepted1 ⊆ accepted2 →
  first_accepted accepted1 labels = Some l →
  ∃ l', first_accepted accepted2 labels = Some l'.
Proof.
  intros Hsub. induction labels as [|x labels IH]; simpl; [done|].
  case_bool_decide as H1.
  - intros _. rewrite bool_decide_eq_true_2 by by apply Hsub. by eauto.
  - intros Hl. case_bool_decide; [by eauto | by apply IH].
Qed.

Lemma first_accepted_agree accepted1 accepted2 labels l :
  accepted1 ⊆ accepted2 →
  first_accepted accepted2 labels = Some l →
  l ∈ accepted1 →
  first_accepted accepted1 labels = Some l.
Proof.
  intros Hsub. induction labels as [|x labels IH]; simpl; [done|].
  case_bool_decide as H2.
  - intros [= ->] Hl. by rewrite bool_decide_eq_true_2.
  - intros Hl Hin. rewrite bool_decide_eq_false_2; [by apply IH|].
    intros ?. by apply H2, Hsub.
Qed.

Lemma get_label_mono self1 self2 elem l :
  _accepted_labels self1 ⊆ _accepted_labels self2 →
  _get_label self1 elem = Some l →
  ∃ l', _get_label self2 elem = Some l'.
Proof.
  intros Hsub. unfold _get_label.
  destruct (etree.attrib elem !! lit "CATEG"); [|done].
  by apply first_accepted_mono.
Qed.

Lemma get_label_accepted self elem l :
  _get_label self elem = Some l → l ∈ _accepted_labels self.
Proof.
  unfold _get_label. destruct (etree.attrib elem !! lit "CATEG"); [|done].
  intros (i & _ & Hl & _)%first_accepted_Some. done.
Qed.

Lemma selective_subseteq_all : SELECTIVE_CATEGS ⊆ ALL_CATEGS.
Proof. intros l Hl. apply elem_of_app. by left. Qed.

(** X5. The selective scenario never finds a label where the total
    scenario finds none: a label returned under the selective scenario is
    one of the five selective categories, and the total scenario then
    returns a label too, one of the ten; when the label of the total
    scenario is a selective category, the selective scenario returns the
    same label. *)
Theorem get_label_scenarios strategy1 strategy2 self_selective self_total
    elem :
  __init__ true strategy1 = Ok self_selective →
  __init__ false strategy2 = Ok self_total →
  (∀ l, _get_label self_selective elem = Some l →
        l ∈ SELECTIVE_CATEGS
        ∧ ∃ l', _get_label self_total elem = Some l' ∧ l' ∈ ALL_CATEGS)
  ∧ (_get_label self_total elem = None →
     _get_label self_selective elem = None)
  ∧ (∀ l, _get_label self_total elem = Some l → l ∈ SELECTIVE_CATEGS →
          _get_label self_selective elem = Some l).
Proof.
  unfold __init__. intros Hsel Htot.
  case_bool_decide; [done|]. case_bool_decide; [done|].
  injection Hsel as <-. injection Htot as <-.
  set (s1 := {| _accepted_labels := SELECTIVE_CATEGS;
                alt_strategy := strategy1 |}).
  set (s2 := {| _accepted_labels := ALL_CATEGS; alt_strategy := strategy2 |}).
  assert (_accepted_labels s1 ⊆ _accepted_labels s2) as Hsub
    by apply selective_subseteq_all.
  split; [|split].
  - intros l Hl. split; [by apply get_label_accepted in Hl|].
    destruct (get_label_mono s1 s2 _ _ Hsub Hl) as [l' Hl'].
    exists l'. split; [done | by apply get_label_accepted in Hl'].
  - intros Hnone. destruct (_get_label s1 elem) as [l|] eqn:Hl; [|done].
    destruct (get_label_mono s1 s2 _ _ Hsub Hl) as [l' Hl']. congruence.
  - unfold _get_label. simpl.
    destruct (etree.attrib elem !! lit "CATEG") as [categ|]; [|done].
    intros l. by apply first_accepted_agree.
Qed.

Lemma get_label_scenarios_witness :
  let elem := EM "383" "ABSTRACCAO|PESSOA" "" None in
  _get_label (converter true "most_entities") elem = Some (lit "PESSOA")
  ∧ ∃ l', _get_label (converter false "entity_coverage") elem = Some l'
          ∧ l' ∈ ALL_CATEGS.
Proof.
  intros elem. split; [reflexivity|].
  destruct (get_label_scenarios (lit "most_entities") (lit "entity_coverage")
              (converter true "most_entities")
              (converter false "entity_coverage") elem eq_refl eq_refl)
    as (Hsel & _ & _).
  exact (proj2 (Hsel (lit "PESSOA") eq_refl)).
Defined.

(** ** The probe string and the entities of an ALT block *)

Lemma append_text_safe_Ok (is_wp : ascii → bool) text piece text' :
  append_text_safe is_wp text piece = Ok text' →
  text' = text ++ piece ∨ text' = text ++ lit " " ++ piece.
Proof.
  rewrite append_text_safe_guard.
  destruct (_avoid_word_agglutination is_wp text piece) as [guarded|]
    eqn:Hguard; simpl; [|done].
  intros [= <-].
  apply avoid_word_agglutination_Ok in Hguard as [->| ->];
    [by left | right; by rewrite <- app_assoc].
Qed.

Lemma append_text_safe_len (is_wp : ascii → bool) text piece text' :
  append_text_safe is_wp text piece = Ok text' →
  (Py.len text + Py.len piece ≤ Py.len text')%Z.
Proof.
  intros [->| ->]%append_text_safe_Ok; rewrite !PyFacts.len_app;
    pose proof (PyFacts.len_nonneg (lit " ")); lia.
Qed.

(** The turn of the loop of [_iterate_alt_tag] for an [EM] child that gives
    an entity. *)
Lemma iterate_alt_tag_body_Ok (is_wp : ascii → bool) self text0 entities0 tag
    text2 entities2 :
  _iterate_alt_tag_body is_wp self (text0, entities0) tag
    = Ok (text2, entities2) →
  (Py.len text0 ≤ Py.len text2)%Z
  ∧ (entities2 = entities0
     ∨ ∃ entity,
         _convert_entity self tag = Ok entity
         ∧ label entity ≠ None
         ∧ entities2 = entities0 ++ [_shift_offset entity (Py.len text0)]
         ∧ (Py.len text0 + Py.len (text entity) ≤ Py.len text2)%Z).
Proof.
  unfold _iterate_alt_tag_body.
  case_bool_decide; [|intros [= <- <-]; split; [lia | by left]].
  destruct (_convert_entity self tag) as [entity|] eqn:Hentity; simpl;
    [|done].
  assert (∀ text1,
            match etree.tail tag with
            | Some tl =>
                if nonempty tl then append_text_safe is_wp text1 tl
                else Ok text1
            | None => Ok text1
            end = Ok text2 → (Py.len text1 ≤ Py.len text2)%Z) as Htail.
  { intros text1. destruct (etree.tail tag) as [tl|]; [|by intros [= <-]].
    destruct (nonempty tl); [|by intros [= <-]].
    intros Hlen%append_text_safe_len. pose proof (PyFacts.len_nonneg tl).
    lia. }
  destruct (label entity) as [l|] eqn:Hlabel; simpl.
  - destruct (append_text_safe is_wp text0 (text entity)) as [text1|]
      eqn:Happ; simpl; [|done].
    apply append_text_safe_len in Happ.
    destruct (match etree.tail tag with Some _ => _ | None => _ end)
      as [text2'|] eqn:Htl; simpl; [|done].
    intros [= <- <-]. apply Htail in Htl.
    pose proof (PyFacts.len_nonneg (text entity)).
    split; [lia|]. right. exists entity.
    split; [done|]. split; [by rewrite Hlabel|]. split; [done | lia].
  - destruct (append_text_safe is_wp text0 (text entity)) as [text1|]
      eqn:Happ; simpl; [|done].
    apply append_text_safe_len in Happ.
    destruct (match etree.tail tag with Some _ => _ | None => _ end)
      as [text2'|] eqn:Htl; simpl; [|done].
    intros [= <- <-]. apply Htail in Htl.
    pose proof (PyFacts.len_nonneg (text entity)).
    split; [lia | by left].
Qed.

Lemma convert_entity_offsets self tag entity :
  _convert_entity self tag = Ok entity →
  start_offset entity = 0%Z ∧ end_offset entity = Py.len (text entity).
Proof.
  unfold _convert_entity. destruct (etree.text tag); [|done].
  destruct (etree.attrib tag !! lit "ID"); [|done]. by intros [= <-].
Qed.

(** What the loop of [_iterate_alt_tag] keeps: the entities lie, one after
    the other, within the text built so far. *)
Lemma iterate_alt_tag_invariant (is_wp : ascii → bool) self alt_tag probe
    alt_entities :
  _iterate_alt_tag is_wp self alt_tag = Ok (probe, alt_entities) →
  Forall (λ e, label e ≠ None
               ∧ end_offset e = (start_offset e + Py.len (text e))%Z
               ∧ (0 ≤ start_offset e)%Z
               ∧ (end_offset e ≤ Py.len probe)%Z) alt_entities
  ∧ ∀ i j e1 e2, (i < j)%nat →
      alt_entities !! i = Some e1 → alt_entities !! j = Some e2 →
      (end_offset e1 ≤ start_offset e2)%Z.
Proof.
  unfold _iterate_alt_tag. intros Hloop.
  apply (for_each_invariant _
           (λ _ acc,
              Forall (λ e, label e ≠ None
                           ∧ end_offset e = (start_offset e + Py.len (text e))%Z
                           ∧ (0 ≤ start_offset e)%Z
                           ∧ (end_offset e ≤ Py.len acc.1)%Z) acc.2
              ∧ ∀ i j e1 e2, (i < j)%nat →
                  acc.2 !! i = Some e1 → acc.2 !! j = Some e2 →
                  (end_offset e1 ≤ start_offset e2)%Z)) in Hloop;
    [done | by split; [apply Forall_nil_2 | intros ? ? ? ? _ ?] |].
  intros _ tag [text0 entities0] [text2 entities2] [Hall Hord]
         (Hlen & Hcases)%iterate_alt_tag_body_Ok.
  simpl in *.
  assert (Forall (λ e, label e ≠ None
                       ∧ end_offset e = (start_offset e + Py.len (text e))%Z
                       ∧ (0 ≤ start_offset e)%Z
                       ∧ (end_offset e ≤ Py.len text2)%Z) entities0) as Hall'.
  { eapply Forall_impl; [exact Hall|]. intros e (? & ? & ? & ?).
    repeat split; [done..|lia]. }
  destruct Hcases as [->|(entity & Hentity & Hlabel & -> & Hlen')];
    [done|].
  destruct (convert_entity_offsets _ _ _ Hentity) as [Hstart Hend].
  pose proof (PyFacts.len_nonneg text0).
  split.
  - apply Forall_app. split; [done|]. apply Forall_singleton. simpl.
    rewrite Hstart, Hend. repeat split; [done|lia..].
  - intros i j e1 e2 Hij H1 H2.
    destruct (decide (j < length entities0)%nat) as [Hj|Hj].
    + rewrite lookup_app_l in H1 by lia. rewrite lookup_app_l in H2 by lia.
      exact (Hord i j e1 e2 Hij H1 H2).
    + rewrite lookup_app_r in H2 by lia.
      destruct (j - length entities0)%nat eqn:Hj'; [|done].
      simpl in H2. injection H2 as <-. simpl. rewrite Hstart.
      assert (i < length entities0)%nat as Hi by lia.
      rewrite lookup_app_l in H1 by lia.
      rewrite Forall_forall in Hall.
      destruct (Hall e1) as (_ & _ & _ & ?);
        [by eapply list_elem_of_lookup_2 | simpl in *; lia].
Qed.

(** X6. The probe string of an [ALT] element is its own text followed by
    the pieces of its [EM] children in order (the text of the child without
    leading white space, then its tail when not empty), each appended by
    [append_text_safe]. Children that are not [EM] add nothing, not even
    their tail. *)
Theorem iterate_alt_tag_probe_string (is_wp : ascii → bool) self alt_tag
    probe alt_entities :
  _iterate_alt_tag is_wp self alt_tag = Ok (probe, alt_entities) →
  for_each (append_text_safe is_wp) (alt_pieces alt_tag)
    (default [] (etree.text alt_tag)) = Ok probe.
Proof. apply iterate_alt_tag_probe. Qed.

Lemma iterate_alt_tag_probe_string_witness :
  for_each (append_text_safe ascii_whitespace_or_punctuation)
    [ lit "Ovarense-Amora"; lit "|"; lit "Ovarense"; lit "-"; lit "Amora" ]
    [] = Ok (lit "Ovarense-Amora|Ovarense-Amora").
Proof.
  apply (iterate_alt_tag_probe_string ascii_whitespace_or_punctuation
           (converter false "most_entities") ovarense_amora
           (lit "Ovarense-Amora|Ovarense-Amora")
           [ entity "142" "Ovarense-Amora" "ACONTECIMENTO" 0 14;
             entity "143" "Ovarense" "PESSOA" 15 23;
             entity "144" "Amora" "PESSOA" 24 29 ]).
  reflexivity.
Defined.

(** X7. Every entity that [_iterate_alt_tag] collects has a label, offsets
    that are as far apart as its text is long, and lies within the probe
    string; the entities come in the order of the text and do not overlap:
    each one ends before the next one starts. *)
Theorem iterate_alt_tag_entities (is_wp : ascii → bool) self alt_tag probe
    alt_entities :
  _iterate_alt_tag is_wp self alt_tag = Ok (probe, alt_entities) →
  Forall (λ e, label e ≠ None
               ∧ end_offset e = (start_offset e + Py.len (text e))%Z
               ∧ (0 ≤ start_offset e)%Z
               ∧ (end_offset e ≤ Py.len probe)%Z) alt_entities
  ∧ ∀ i j e1 e2, (i < j)%nat →
      alt_entities !! i = Some e1 → alt_entities !! j = Some e2 →
      (end_offset e1 ≤ start_offset e2)%Z.
Proof. apply iterate_alt_tag_invariant. Qed.

Lemma iterate_alt_tag_entities_witness :
  (end_offset (entity "143" "Ovarense" "PESSOA" 15 23)
   ≤ start_offset (entity "144" "Amora" "PESSOA" 24 29))%Z.
Proof.
  apply (proj2 (iterate_alt_tag_entities ascii_whitespace_or_punctuation
                  (converter true "most_entities") ovarense_amora
                  (lit "Ovarense-Amora|Ovarense-Amora")
                  [ entity "143" "Ovarense" "PESSOA" 15 23;
                    entity "144" "Amora" "PESSOA" 24 29 ] eq_refl)
           0%nat 1%nat); [lia | reflexivity | reflexivity].
Defined.

(** One turn of the loop under two converters, the second accepting every
    label the first accepts. *)
Lemma iterate_alt_tag_body_scenarios (is_wp : ascii → bool) self1 self2 text0
    entities1 entities2 tag :
  _accepted_labels self1 ⊆ _accepted_labels self2 →
  entity_span <$> entities1 `sublist_of` entity_span <$> entities2 →
  match _iterate_alt_tag_body is_wp self1 (text0, entities1) tag,
        _iterate_alt_tag_body is_wp self2 (text0, entities2) tag with
  | Ok (text1, entities1'), Ok (text2, entities2') =>
      text1 = text2
      ∧ entity_span <$> entities1' `sublist_of` entity_span <$> entities2'
  | Raise e1, Raise e2 => e1 = e2
  | _, _ => False
  end.
Proof.
  intros Hsub Hspans. unfold _iterate_alt_tag_body.
  case_bool_decide; [|done].
  unfold _convert_entity.
  destruct (etree.text tag) as [elem_text|]; simpl; [|done].
  destruct (etree.attrib tag !! lit "ID") as [id|]; simpl; [|done].
  destruct (_get_label self1 tag) as [l1|] eqn:Hl1;
    destruct (_get_label self2 tag) as [l2|] eqn:Hl2; simpl.
  - destruct (append_text_safe is_wp text0 (Py.lstrip elem_text))
      as [text1|]; simpl; [|done].
    destruct (match etree.tail tag with Some _ => _ | None => _ end);
      simpl; [|done].
    split; [done|]. rewrite !fmap_app. by apply sublist_app.
  - destruct (get_label_mono _ _ _ _ Hsub Hl1) as [l' Hl']. congruence.
  - destruct (append_text_safe is_wp text0 (Py.lstrip elem_text))
      as [text1|]; simpl; [|done].
    destruct (match etree.tail tag with Some _ => _ | None => _ end);
      simpl; [|done].
    split; [done|]. rewrite fmap_app. by apply sublist_inserts_r.
  - destruct (append_text_safe is_wp text0 (Py.lstrip elem_text))
      as [text1|]; simpl; [|done].
    by destruct (match etree.tail tag with Some _ => _ | None => _ end).
Qed.

(** X8. The scenario does not change the probe string of an [ALT]
    element, nor whether it can be built: under a converter that accepts
    more labels the same probe string is returned, or the same error
    raised, and the entities collected under the narrower converter are
    among those collected under the wider one, in the same order, up to
    their labels. *)
Theorem iterate_alt_tag_scenarios (is_wp : ascii → bool) self1 self2
    alt_tag :
  _accepted_labels self1 ⊆ _accepted_labels self2 →
  match _iterate_alt_tag is_wp self1 alt_tag,
        _iterate_alt_tag is_wp self2 alt_tag with
  | Ok (probe1, entities1), Ok (probe2, entities2) =>
      probe1 = probe2
      ∧ entity_span <$> entities1 `sublist_of` entity_span <$> entities2
  | Raise e1, Raise e2 => e1 = e2
  | _, _ => False
  end.
Proof.
  intros Hsub. unfold _iterate_alt_tag.
  generalize (match etree.text alt_tag with
              | Some t => if nonempty t then t else []
              | None => []
              end).
  assert (entity_span <$> [] `sublist_of` entity_span <$> []) as Hspans
    by done.
  revert Hspans. generalize (@nil ENTITY) at 1 3. generalize (@nil ENTITY).
  induction (etree.children alt_tag) as [|tag tags IH];
    intros entities2 entities1 Hspans text0; [done|].
  rewrite !for_each_cons.
  pose proof (iterate_alt_tag_body_scenarios is_wp self1 self2 text0
                entities1 entities2 tag Hsub Hspans) as Hbody.
  destruct (_iterate_alt_tag_body is_wp self1 (text0, entities1) tag)
    as [[text1 entities1']|];
    destruct (_iterate_alt_tag_body is_wp self2 (text0, entities2) tag)
      as [[text2 entities2']|]; simpl; try done.
  destruct Hbody as [<- Hspans']. by apply IH.
Qed.

Lemma iterate_alt_tag_scenarios_witness :
  match _iterate_alt_tag ascii_whitespace_or_punctuation
          (converter true "most_entities") ovarense_amora,
        _iterate_alt_tag ascii_whitespace_or_punctuation
          (converter false "most_entities") ovarense_amora with
  | Ok (probe1, entities1), Ok (probe2, entities2) =>
      probe1 = probe2
      ∧ entity_span <$> entities1 `sublist_of` entity_span <$> entities2
  | Raise e1, Raise e2 => e1 = e2
  | _, _ => False
  end.
Proof.
  apply (iterate_alt_tag_scenarios ascii_whitespace_or_punctuation
           (converter true "most_entities")
           (converter false "most_entities") ovarense_amora).
  intros l Hl. apply elem_of_app. left. exact Hl.
Defined.

(** ** The split step: what it returns, and when *)

(** X9. When [_split_alternatives] returns, it returns the segments of
    the probe string between the [|] (joined by [|] they give the probe
    string back, none of them holds a [|], and there are at least two) and
    one group for each segment. The groups hold as many entities as were
    given; each group holds entities of the input in their order, shifted
    back by the offset at which the segment of the group starts. *)
Theorem split_alternatives_structure alt_text alt_entities alt_texts groups :
  _split_alternatives alt_text alt_entities = Ok (alt_texts, groups) →
  Py.join "|" alt_texts = alt_text
  ∧ Forall (λ t, "|"%char ∉ t) alt_texts
  ∧ (2 ≤ length alt_texts)%nat
  ∧ length groups = length alt_texts
  ∧ length (concat groups) = length alt_entities
  ∧ ∀ i group, groups !! i = Some group →
      rebased_group alt_texts alt_entities i group.
Proof.
  intros (-> & Htwo & Hlen & Hcount & Hrebased)%split_alternatives_Ok.
  split; [apply PyFacts.join_split|].
  split; [apply PyFacts.split_no_sep|]. done.
Qed.

Lemma split_alternatives_structure_witness :
  let alt_texts := [ lit "Ovarense-Amora"; lit "Ovarense-Amora" ] in
  Py.join "|" alt_texts = lit "Ovarense-Amora|Ovarense-Amora"
  ∧ rebased_group alt_texts
      [ entity "143" "Ovarense" "PESSOA" 15 23;
        entity "144" "Amora" "PESSOA" 24 29 ] 1
      [ entity "143" "Ovarense" "PESSOA" 0 8;
        entity "144" "Amora" "PESSOA" 9 14 ].
Proof.
  intros alt_texts.
  destruct (split_alternatives_structure
              (lit "Ovarense-Amora|Ovarense-Amora")
              [ entity "143" "Ovarense" "PESSOA" 15 23;
                entity "144" "Amora" "PESSOA" 24 29 ]
              alt_texts
              [ []; [ entity "143" "Ovarense" "PESSOA" 0 8;
                      entity "144" "Amora" "PESSOA" 9 14 ] ] eq_refl)
    as (Hjoin & _ & _ & _ & _ & Hgroups).
  split; [exact Hjoin|]. apply Hgroups. reflexivity.
Defined.

(** The two ways a turn of the loop of the split step goes well. *)
Lemma split_alternatives_body_stay alt_text divs st e g :
  (start_offset e ≤ current_group_end st)%Z →
  groups st !! group_ix st = Some g →
  _split_alternatives_body alt_text divs st e
  = Ok {| group_ix := group_ix st;
          group_start_offset := group_start_offset st;
          current_group_end := current_group_end st;
          groups := alter (λ g, g ++ [_shift_offset e
                                        (- group_start_offset st)])
                      (group_ix st) (groups st) |}.
Proof.
  intros Hle Hg. unfold _split_alternatives_body, Py.getitem.
  destruct (Z.gtb_spec (start_offset e) (current_group_end st)); [lia|].
  simpl. by rewrite Hg.
Qed.

Lemma split_alternatives_body_next alt_text divs st e g cge :
  (current_group_end st < start_offset e)%Z →
  groups st !! S (group_ix st) = Some g →
  (S (group_ix st) ≤ length divs)%nat →
  ((S (group_ix st) < length divs)%nat →
   divs !! S (group_ix st) = Some cge) →
  (S (group_ix st) = length divs → cge = Py.len alt_text) →
  _split_alternatives_body alt_text divs st e
  = Ok {| group_ix := S (group_ix st);
          group_start_offset := current_group_end st + 1;
          current_group_end := cge;
          groups := alter (λ g, g ++ [_shift_offset e
                                        (- (current_group_end st + 1))])
                      (S (group_ix st)) (groups st) |}.
Proof.
  intros Hgt Hg Hix Hnext Hlast. unfold _split_alternatives_body, Py.getitem.
  destruct (Z.gtb_spec (start_offset e) (current_group_end st)); [|lia].
  simpl. case_bool_decide as Hlt.
  - rewrite (Hnext Hlt). simpl. by rewrite Hg.
  - rewrite bool_decide_eq_true_2 by lia. simpl. rewrite Hg. simpl.
    by rewrite Hlast by lia.
Qed.

(** The loop of the split step goes through when no entity starts beyond
    the end of the probe string. *)
Lemma split_alternatives_loop_total alt_text alt_entities st :
  let divs := Py.finditer_start "|" alt_text 0 in
  length (groups st) = S (length divs) →
  (group_ix st ≤ length divs)%nat →
  (group_ix st = length divs → current_group_end st = Py.len alt_text) →
  Forall (λ e, (start_offset e ≤ Py.len alt_text)%Z) alt_entities →
  ∃ st', for_each (_split_alternatives_body alt_text divs) alt_entities st
         = Ok st'
         ∧ length (groups st') = length (groups st).
Proof.
  intros divs. revert st.
  induction alt_entities as [|e es IH]; intros st Hlen Hix Hlast Hall.
  { by exists st. }
  apply Forall_cons in Hall as [He Hes].
  rewrite for_each_cons.
  destruct (Z.lt_ge_cases (current_group_end st) (start_offset e))
    as [Hgt|Hle].
  - assert (group_ix st < length divs)%nat as Hlt.
    { destruct (decide (group_ix st = length divs)) as [Heq|]; [|lia].
      specialize (Hlast Heq). lia. }
    destruct (lookup_lt_is_Some_2 (groups st) (S (group_ix st)))
      as [g Hg]; [lia|].
    assert (∃ cge,
              ((S (group_ix st) < length divs)%nat →
               divs !! S (group_ix st) = Some cge)
              ∧ (S (group_ix st) = length divs → cge = Py.len alt_text))
      as (cge & Hnext & Hcge).
    { destruct (decide (S (group_ix st) < length divs)%nat) as [Hnext|].
      - destruct (lookup_lt_is_Some_2 divs (S (group_ix st)) Hnext)
          as [d Hd].
        exists d. split; [done | lia].
      - exists (Py.len alt_text). split; [lia | done]. }
    rewrite (split_alternatives_body_next _ _ _ _ g cge) by (done || lia).
    simpl.
    match goal with
    | |- ∃ st', for_each _ _ ?st1 = _ ∧ _ =>
        destruct (IH st1) as (st' & Hrun & Hlen')
    end; simpl; [by rewrite length_alter | lia | done | done |].
    exists st'. split; [done|]. simpl in Hlen'.
    by rewrite Hlen', length_alter.
  - destruct (lookup_lt_is_Some_2 (groups st) (group_ix st)) as [g Hg];
      [lia|].
    rewrite (split_alternatives_body_stay _ _ _ _ g) by (done || lia).
    simpl.
    match goal with
    | |- ∃ st', for_each _ _ ?st1 = _ ∧ _ =>
        destruct (IH st1) as (st' & Hrun & Hlen')
    end; simpl; [by rewrite length_alter | done | done | done |].
    exists st'. split; [done|]. simpl in Hlen'.
    by rewrite Hlen', length_alter.
Qed.

Lemma split_alternatives_total_aux alt_text alt_entities :
  "|"%char ∈ alt_text →
  Forall (λ e, (start_offset e ≤ Py.len alt_text)%Z) alt_entities →
  ∃ groups,
    _split_alternatives alt_text alt_entities
    = Ok (Py.split "|" alt_text, groups).
Proof.
  intros Hin Hall. unfold _split_alternatives.
  assert (¬ (length (Py.split "|" alt_text) < 2)%nat) as Htwo.
  { rewrite split_length_lt_2. naive_solver. }
  unfold Py.len at 1. rewrite (proj2 (Z.ltb_ge _ 2)) by lia.
  pose proof (PyFacts.split_length "|" alt_text 0) as Hlen.
  destruct (Py.finditer_start "|" alt_text 0) as [|div0 divs] eqn:Hdivs;
    [simpl in Hlen; lia|].
  unfold Py.getitem at 1. simpl lookup. cbv iota. simpl mbind at 1.
  rewrite <- Hdivs.
  match goal with
  | |- context [for_each _ _ ?st0] =>
      destruct (split_alternatives_loop_total alt_text alt_entities st0)
        as (st' & Hrun & Hlen')
  end; simpl.
  - rewrite length_replicate, Hlen. by rewrite Hdivs.
  - lia.
  - rewrite Hdivs. simpl. lia.
  - done.
  - rewrite Hrun. simpl. simpl in Hlen'. rewrite length_replicate in Hlen'.
    rewrite bool_decide_eq_true_2 by done. by eexists.
Qed.

(** X10. [_split_alternatives] returns a result whenever the probe string
    holds a [|] and no entity starts beyond the end of the probe string:
    in that case none of its list accesses is out of range. *)
Theorem split_alternatives_total alt_text alt_entities :
  "|"%char ∈ alt_text →
  Forall (λ e, (start_offset e ≤ Py.len alt_text)%Z) alt_entities →
  ∃ groups,
    _split_alternatives alt_text alt_entities
    = Ok (Py.split "|" alt_text, groups).
Proof. apply split_alternatives_total_aux. Qed.

Lemma split_alternatives_total_witness :
  ∃ groups,
    _split_alternatives (lit "rio|o rio|Tejo")
      [ entity "1" "Tejo" "LOCAL" 10 14 ]
    = Ok (Py.split "|" (lit "rio|o rio|Tejo"), groups).
Proof.
  apply (split_alternatives_total (lit "rio|o rio|Tejo")
           [ entity "1" "Tejo" "LOCAL" 10 14 ]).
  - apply (bool_decide_unpack _). vm_compute. exact I.
  - apply Forall_cons. split; [|apply Forall_nil_2].
    simpl. unfold Py.len. simpl. lia.
Defined.

(** ** The split step on entities that skip no alternative *)

Lemma sum_app l1 l2 : Py.sum (l1 ++ l2) = (Py.sum l1 + Py.sum l2)%Z.
Proof.
  unfold Py.sum. induction l1 as [|x l1 IH]; simpl; [done|].
  rewrite IH. lia.
Qed.

Lemma segment_start_succ alt_texts k t :
  alt_texts !! k = Some t →
  segment_start alt_texts (S k)
  = (segment_start alt_texts k + Py.len t + 1)%Z.
Proof.
  intros Hk. unfold segment_start.
  rewrite (take_S_r _ _ t) by done.
  rewrite fmap_app, sum_app. unfold Py.sum at 2. simpl. lia.
Qed.

Lemma len_join sep (parts : list str) :
  parts ≠ [] →
  (Py.len (Py.join sep parts) + 1 = segment_start parts (length parts))%Z.
Proof.
  induction parts as [|p parts IH]; [done|]. intros _.
  destruct parts as [|q parts].
  - simpl. rewrite segment_start_S, segment_start_0. lia.
  - change (Py.join sep (p :: q :: parts))
      with (p ++ sep :: Py.join sep (q :: parts)).
    change (length (p :: q :: parts)) with (S (length (q :: parts))).
    rewrite segment_start_S, <- IH by done.
    rewrite PyFacts.len_app. unfold Py.len. simpl. lia.
Qed.

(** The delimiter after segment [k] stands right after the segment. *)
Lemma div_segment_end alt_text k d t :
  Py.finditer_start "|" alt_text 0 !! k = Some d →
  Py.split "|" alt_text !! k = Some t →
  d = (segment_start (Py.split "|" alt_text) k + Py.len t)%Z.
Proof.
  intros Hd%finditer_segment_start Ht.
  rewrite (segment_start_succ _ _ _ Ht) in Hd. lia.
Qed.

(** The last segment ends where the probe string ends. *)
Lemma last_segment_end alt_text k t :
  k = length (Py.finditer_start "|" alt_text 0) →
  Py.split "|" alt_text !! k = Some t →
  Py.len alt_text
  = (segment_start (Py.split "|" alt_text) k + Py.len t)%Z.
Proof.
  intros Hk Ht.
  pose proof (len_join "|" (Py.split "|" alt_text)
                (PyFacts.split_nonempty _ _)) as Hlen.
  rewrite PyFacts.join_split, (PyFacts.split_length _ _ 0), <- Hk in Hlen.
  rewrite (segment_start_succ _ _ _ Ht) in Hlen. lia.
Qed.

Lemma rebased_to_cons_eq alt_texts k e assigned :
  rebased_to alt_texts ((k, e) :: assigned) k
  = _shift_offset e (- segment_start alt_texts k)
    :: rebased_to alt_texts assigned k.
Proof. unfold rebased_to. rewrite filter_cons. by rewrite decide_True. Qed.

Lemma rebased_to_cons_ne alt_texts k e assigned i :
  k ≠ i →
  rebased_to alt_texts ((k, e) :: assigned) i = rebased_to alt_texts assigned i.
Proof.
  intros Hne. unfold rebased_to. rewrite filter_cons.
  by rewrite decide_False.
Qed.

(** After one more entity for group [k], the rest of the loop adds the
    entities that follow. *)
Lemma lookup_alter_rebased alt_texts (groups0 groups' : list (list ENTITY))
    k e assigned :
  (∀ i, groups' !! i
        = (λ g, g ++ rebased_to alt_texts assigned i)
            <$> alter (λ g, g ++ [_shift_offset e
                                    (- segment_start alt_texts k)])
                  k groups0 !! i) →
  ∀ i, groups' !! i
       = (λ g, g ++ rebased_to alt_texts ((k, e) :: assigned) i)
           <$> groups0 !! i.
Proof.
  intros Hlookup i. rewrite Hlookup.
  destruct (decide (k = i)) as [->|Hne].
  - rewrite list_lookup_alter_eq, rebased_to_cons_eq.
    destruct (groups0 !! i) as [g|]; simpl; [|done].
    by rewrite <- app_assoc.
  - rewrite list_lookup_alter_ne, rebased_to_cons_ne by done. done.
Qed.

Lemma split_alternatives_loop_stepwise alt_text assigned st t0 :
  let alt_texts := Py.split "|" alt_text in
  let divs := Py.finditer_start "|" alt_text 0 in
  length (groups st) = length alt_texts →
  alt_texts !! group_ix st = Some t0 →
  group_start_offset st = segment_start alt_texts (group_ix st) →
  current_group_end st
  = (segment_start alt_texts (group_ix st) + Py.len t0)%Z →
  stepwise (group_ix st) assigned.*1 →
  Forall (λ p, in_segment alt_texts p.1 p.2) assigned →
  ∃ st',
    for_each (_split_alternatives_body alt_text divs) assigned.*2 st = Ok st'
    ∧ length (groups st') = length alt_texts
    ∧ ∀ i, groups st' !! i
           = (λ g, g ++ rebased_to alt_texts assigned i) <$> groups st !! i.
Proof.
  intros alt_texts divs. subst alt_texts divs. revert st t0.
  induction assigned as [|[k e] assigned IH];
    intros st t0 Hlen Ht0 Hgso Hcge Hsteps Hall.
  { exists st. split; [done|]. split; [done|]. intros i.
    destruct (groups st !! i); simpl; [|done].
    unfold rebased_to. by rewrite filter_nil, app_nil_r. }
  apply Forall_cons in Hall as [(t & Ht & Hlo & Hhi) Hall].
  destruct Hsteps as [Hk Hsteps]. simpl in Ht, Hlo, Hhi.
  rewrite !fmap_cons, for_each_cons. simpl fst in *. simpl snd in *.
  pose proof (PyFacts.split_length "|" alt_text 0) as Hdivs.
  destruct Hk as [->| ->].
  - assert (t = t0) as -> by congruence.
    destruct (lookup_lt_is_Some_2 (groups st) (group_ix st)) as [g Hg].
    { rewrite Hlen. by eapply lookup_lt_Some. }
    rewrite (split_alternatives_body_stay _ _ _ _ g) by (done || lia).
    simpl. rewrite Hgso.
    match goal with
    | |- ∃ st', for_each _ _ ?st1 = _ ∧ _ =>
        destruct (IH st1 t0) as (st' & Hrun & Hlen' & Hlookup)
    end; simpl; [by rewrite length_alter | done..|].
    exists st'. split; [done|]. split; [done|].
    by apply lookup_alter_rebased.
  - pose proof (lookup_lt_Some _ _ _ Ht) as Hix.
    destruct (lookup_lt_is_Some_2 (groups st) (S (group_ix st)))
      as [g Hg]; [by rewrite Hlen|].
    rewrite (segment_start_succ _ _ _ Ht0) in Hlo, Hhi.
    rewrite (split_alternatives_body_next _ _ _ _ g
               (segment_start (Py.split "|" alt_text) (group_ix st)
                + Py.len t0 + 1 + Py.len t)%Z).
    + simpl. rewrite Hcge.
      replace (segment_start (Py.split "|" alt_text) (group_ix st)
               + Py.len t0 + 1)%Z
        with (segment_start (Py.split "|" alt_text) (S (group_ix st)))
        by by rewrite (segment_start_succ _ _ _ Ht0).
      match goal with
      | |- ∃ st', for_each _ _ ?st1 = _ ∧ _ =>
          destruct (IH st1 t) as (st' & Hrun & Hlen' & Hlookup)
      end; simpl; [by rewrite length_alter | done..|].
      exists st'. split; [done|]. split; [done|].
      by apply lookup_alter_rebased.
    + lia.
    + done.
    + lia.
    + intros Hnext.
      destruct (lookup_lt_is_Some_2 _ (S (group_ix st)) Hnext) as [d Hd].
      rewrite Hd. f_equal.
      rewrite (div_segment_end _ _ _ _ Hd Ht).
      by rewrite (segment_start_succ _ _ _ Ht0).
    + intros Hlast.
      rewrite (last_segment_end _ _ _ Hlast Ht).
      by rewrite (segment_start_succ _ _ _ Ht0).
Qed.

Lemma split_alternatives_stepwise_aux alt_text assigned :
  let alt_texts := Py.split "|" alt_text in
  "|"%char ∈ alt_text →
  stepwise 0 assigned.*1 →
  Forall (λ p, in_segment alt_texts p.1 p.2) assigned →
  _split_alternatives alt_text assigned.*2
  = Ok (alt_texts,
        rebased_to alt_texts assigned <$> seq 0 (length alt_texts)).
Proof.
  intros alt_texts Hin Hsteps Hall. subst alt_texts.
  unfold _split_alternatives.
  assert (¬ (length (Py.split "|" alt_text) < 2)%nat) as Htwo.
  { rewrite split_length_lt_2. naive_solver. }
  unfold Py.len at 1. rewrite (proj2 (Z.ltb_ge _ 2)) by lia.
  destruct (Py.split "|" alt_text !! 0%nat) as [t0|] eqn:Ht0;
    [|apply lookup_ge_None in Ht0; lia].
  pose proof (PyFacts.split_length "|" alt_text 0) as Hlen.
  destruct (Py.finditer_start "|" alt_text 0 !! 0%nat) as [div0|] eqn:Hdiv0;
    [|apply lookup_ge_None in Hdiv0; lia].
  unfold Py.getitem at 1. rewrite Hdiv0. simpl mbind at 1.
  match goal with
  | |- context [for_each _ _ ?st0] =>
      destruct (split_alternatives_loop_stepwise alt_text assigned st0 t0)
        as (st' & Hrun & Hlen' & Hlookup)
  end; simpl; [by rewrite length_replicate | done | done | | done | done |].
  { by rewrite (div_segment_end _ _ _ _ Hdiv0 Ht0), ?segment_start_0. }
  rewrite Hrun. simpl.
  rewrite bool_decide_eq_true_2 by done. simpl. do 2 f_equal.
  apply list_eq. intros i. rewrite Hlookup. simpl.
  rewrite list_lookup_fmap.
  destruct (decide (i < length (Py.split "|" alt_text))%nat) as [Hi|Hi].
  - rewrite lookup_replicate_2, lookup_seq_lt by done. done.
  - rewrite (proj1 (lookup_replicate_None _ _ _)), lookup_seq_ge by lia.
    done.
Qed.

(** X11. On a probe string that holds a [|], and when its entities skip
    no alternative, the split step does what its docstring says. Let each
    entity be given a segment in which it starts, the first entity the
    first or the second segment and each further entity the segment of the
    one before or the next one. Then [_split_alternatives] returns the
    segments and, for each segment, exactly the entities given to it, in
    order, with offsets relative to the start of the segment. (Without a
    [|] the split step raises [HypothesisViolation], whatever the
    entities.) *)
Theorem split_alternatives_stepwise alt_text assigned :
  let alt_texts := Py.split "|" alt_text in
  "|"%char ∈ alt_text →
  stepwise 0 assigned.*1 →
  Forall (λ p, in_segment alt_texts p.1 p.2) assigned →
  _split_alternatives alt_text assigned.*2
  = Ok (alt_texts,
        rebased_to alt_texts assigned <$> seq 0 (length alt_texts)).
Proof. apply split_alternatives_stepwise_aux. Qed.

Lemma split_alternatives_stepwise_witness :
  _split_alternatives (lit "Ovarense-Amora|Ovarense-Amora")
    [ entity "142" "Ovarense-Amora" "ACONTECIMENTO" 0 14;
      entity "143" "Ovarense" "PESSOA" 15 23;
      entity "144" "Amora" "PESSOA" 24 29 ]
  = Ok ([ lit "Ovarense-Amora"; lit "Ovarense-Amora" ],
        [ [ entity "142" "Ovarense-Amora" "ACONTECIMENTO" 0 14 ];
          [ entity "143" "Ovarense" "PESSOA" 0 8;
            entity "144" "Amora" "PESSOA" 9 14 ] ]).
Proof.
  apply (split_alternatives_stepwise (lit "Ovarense-Amora|Ovarense-Amora")
           [ (0%nat, entity "142" "Ovarense-Amora" "ACONTECIMENTO" 0 14);
             (1%nat, entity "143" "Ovarense" "PESSOA" 15 23);
             (1%nat, entity "144" "Amora" "PESSOA" 24 29) ]).
  - apply (bool_decide_unpack _). vm_compute. exact I.
  - simpl. repeat split; (by left) || (by right).
  - repeat (apply Forall_cons; split); [..|apply Forall_nil_2];
      (eexists; split; [reflexivity|]; vm_compute; split; discriminate).
Defined.

(** ** The resolution of an ALT block as a whole *)

(** A result of [_handle_alt] comes from a probe string that was built and
    split, and is one of the segments with its group. *)
Lemma handle_alt_Ok_inv (is_wp : ascii → bool) self alt_tag group_text
    chosen :
  _handle_alt is_wp self alt_tag = Ok (group_text, chosen) →
  ∃ probe alt_entities alt_texts groups N,
    _iterate_alt_tag is_wp self alt_tag = Ok (probe, alt_entities)
    ∧ _split_alternatives probe alt_entities = Ok (alt_texts, groups)
    ∧ alt_texts !! N = Some group_text
    ∧ groups !! N = Some chosen.
Proof.
  unfold _handle_alt.
  destruct (_iterate_alt_tag is_wp self alt_tag) as [[probe alt_entities]|]
    eqn:Hiter; simpl; [|done].
  destruct (_split_alternatives probe alt_entities) as [[alt_texts groups]|]
    eqn:Hsplit; simpl; [|done].
  intros Hrun. exists probe, alt_entities, alt_texts, groups.
  assert (∀ (scores : list Z) (r : result unit),
            (_ ← r; m ← Py.max scores; N_max ← Py.index scores m;
             chosen_entities ← Py.getitem groups N_max;
             text ← Py.getitem alt_texts N_max;
             Ok (text, chosen_entities)) = Ok (group_text, chosen) →
            ∃ N, alt_texts !! N = Some group_text
                 ∧ groups !! N = Some chosen) as Hinv.
  { intros scores [[]|]; simpl; [|done].
    destruct (Py.max scores) as [m|]; simpl; [|done].
    destruct (Py.index scores m) as [N|]; simpl; [|done].
    unfold Py.getitem.
    destruct (groups !! N) as [g|] eqn:Hg; simpl; [|done].
    destruct (alt_texts !! N) as [t|] eqn:Ht; simpl; [|done].
    intros [= <- <-]. by exists N. }
  case_bool_decide.
  - apply Hinv in Hrun as (N & ? & ?). by exists N.
  - apply Hinv in Hrun as (N & ? & ?). by exists N.
Qed.

Lemma iterate_alt_tag_starts (is_wp : ascii → bool) self alt_tag probe
    alt_entities :
  _iterate_alt_tag is_wp self alt_tag = Ok (probe, alt_entities) →
  Forall (λ e, (start_offset e ≤ Py.len probe)%Z) alt_entities.
Proof.
  intros [Hall _]%iterate_alt_tag_invariant.
  eapply Forall_impl; [exact Hall|]. intros e (_ & Hend & _ & Hle).
  pose proof (PyFacts.len_nonneg (text e)). lia.
Qed.

Lemma handle_alt_total_aux (is_wp : ascii → bool) self alt_tag probe
    alt_entities :
  _iterate_alt_tag is_wp self alt_tag = Ok (probe, alt_entities) →
  alt_strategy self = lit "most_entities"
  ∨ alt_strategy self = lit "entity_coverage" →
  "|"%char ∈ probe →
  ∃ group_text chosen,
    _handle_alt is_wp self alt_tag = Ok (group_text, chosen).
Proof.
  intros Hiter Hstrategy Hin.
  destruct (split_alternatives_total_aux probe alt_entities Hin
              (iterate_alt_tag_starts _ _ _ _ _ Hiter)) as [groups Hsplit].
  destruct (handle_alt_first_argmax _ _ _ _ _ _ _ Hiter Hsplit)
    as (_ & Hmost & Hcoverage).
  destruct Hstrategy as [Hs|Hs].
  - destruct (Hmost Hs) as (N & t & c & _ & _ & _ & _ & Hrun). by eauto.
  - destruct (Hcoverage Hs) as (N & t & c & _ & _ & _ & _ & Hrun). by eauto.
Qed.

(** X12. Once the probe string of an [ALT] element is built, and for a
    converter with one of the two strategies, [_handle_alt] returns a
    reading exactly when the probe string holds a [|]: the split step then
    never fails on the entities of the element, and neither assertion of
    [_handle_alt] does. *)
Theorem handle_alt_total (is_wp : ascii → bool) self alt_tag probe
    alt_entities :
  _iterate_alt_tag is_wp self alt_tag = Ok (probe, alt_entities) →
  alt_strategy self = lit "most_entities"
  ∨ alt_strategy self = lit "entity_coverage" →
  ((∃ group_text chosen,
      _handle_alt is_wp self alt_tag = Ok (group_text, chosen))
   ↔ "|"%char ∈ probe).
Proof.
  intros Hiter Hstrategy.
  split; [|by apply (handle_alt_total_aux _ _ _ _ alt_entities)].
  intros (t & c & Hrun).
  destruct (decide ("|"%char ∈ probe)) as [|Hno]; [done|].
  unfold _handle_alt in Hrun. rewrite Hiter in Hrun. simpl in Hrun.
  by rewrite (split_alternatives_no_delimiter _ _ Hno) in Hrun.
Qed.

Lemma handle_alt_total_witness :
  ∃ group_text chosen,
    _handle_alt ascii_whitespace_or_punctuation
      (converter false "entity_coverage") rio_o_rio_tejo
    = Ok (group_text, chosen).
Proof.
  apply (handle_alt_total ascii_whitespace_or_punctuation
           (converter false "entity_coverage") rio_o_rio_tejo
           (lit "rio|o rio|Tejo") [ entity "1" "Tejo" "LOCAL" 10 14 ]).
  - reflexivity.
  - right. reflexivity.
  - apply (bool_decide_unpack _). vm_compute. exact I.
Defined.

Lemma first_argmax_all_zero (f : list ENTITY → Z) (groups : list (list ENTITY)) :
  groups ≠ [] → f [] = 0%Z → Forall (λ g, g = []) groups →
  first_argmax (f <$> groups) 0.
Proof.
  intros Hne Hnil Hall. destruct groups as [|g groups]; [done|].
  exists (f g). split; [done|]. split; [|lia].
  intros j x Hx. rewrite list_lookup_fmap in Hx.
  destruct ((g :: groups) !! j) as [h|] eqn:Hh; [|done]. simpl in Hx.
  rewrite Forall_forall in Hall.
  rewrite (Hall g) by by left.
  rewrite (Hall h) in Hx by by eapply list_elem_of_lookup_2.
  simplify_eq. lia.
Qed.

(** X13. When no entity of an [ALT] element is accepted, [_handle_alt]
    returns the first alternative, without entities, under both
    strategies. *)
Theorem handle_alt_no_entity (is_wp : ascii → bool) self alt_tag probe :
  _iterate_alt_tag is_wp self alt_tag = Ok (probe, []) →
  alt_strategy self = lit "most_entities"
  ∨ alt_strategy self = lit "entity_coverage" →
  "|"%char ∈ probe →
  ∃ first_text,
    Py.split "|" probe !! 0%nat = Some first_text
    ∧ _handle_alt is_wp self alt_tag = Ok (first_text, []).
Proof.
  intros Hiter Hstrategy Hin.
  pose proof (split_alternatives_stepwise_aux probe [] Hin I
                (Forall_nil_2 _)) as Hsplit.
  simpl in Hsplit.
  set (groups := rebased_to (Py.split "|" probe) []
                   <$> seq 0 (length (Py.split "|" probe))) in *.
  assert (Forall (λ g, g = []) groups) as Hempty.
  { apply Forall_fmap, Forall_forall. by intros i _. }
  assert (groups ≠ []) as Hne.
  { pose proof (PyFacts.split_nonempty "|" probe). unfold groups.
    by destruct (Py.split "|" probe). }
  destruct (handle_alt_first_argmax _ _ _ _ _ _ _ Hiter Hsplit)
    as (_ & Hmost & Hcoverage).
  assert (∀ N t (c : list ENTITY),
            N = 0%nat → Py.split "|" probe !! N = Some t →
            groups !! N = Some c →
            Py.split "|" probe !! 0%nat = Some t ∧ c = []) as Hzero.
  { intros N t c -> Ht Hc. split; [done|].
    rewrite Forall_forall in Hempty. apply Hempty.
    by eapply list_elem_of_lookup_2. }
  destruct Hstrategy as [Hs|Hs].
  - destruct (Hmost Hs) as (N & t & c & Hargmax & Ht & Hc & _ & Hrun).
    destruct (Hzero N t c) as [Ht0 ->]; [|done..|by eauto].
    apply (first_argmax_unique _ _ _ Hargmax).
    by apply (first_argmax_all_zero Py.len).
  - destruct (Hcoverage Hs) as (N & t & c & Hargmax & Ht & Hc & _ & Hrun).
    destruct (Hzero N t c) as [Ht0 ->]; [|done..|by eauto].
    apply (first_argmax_unique _ _ _ Hargmax).
    by apply (first_argmax_all_zero
                (λ group, Py.sum ((λ ent, Py.len (text ent)) <$> group))).
Qed.

Lemma handle_alt_no_entity_witness :
  ∃ first_text,
    Py.split "|" (lit "Nomes de Origem|Nomes de Origem") !! 0%nat
    = Some first_text
    ∧ _handle_alt ascii_whitespace_or_punctuation
        (converter true "entity_coverage") nomes_de_origem
      = Ok (first_text, []).
Proof.
  apply (handle_alt_no_entity ascii_whitespace_or_punctuation
           (converter true "entity_coverage") nomes_de_origem
           (lit "Nomes de Origem|Nomes de Origem")).
  - reflexivity.
  - right. reflexivity.
  - apply (bool_decide_unpack _). vm_compute. exact I.
Defined.

(** X14. Whatever [_handle_alt] returns is one reading of the element:
    the text is a segment of the probe string and holds no [|], and the
    entities are entities collected from the element, in their order,
    shifted back by the start of that segment; each has a label and
    offsets as far apart as its text is long. *)
Theorem handle_alt_result (is_wp : ascii → bool) self alt_tag group_text
    chosen :
  _handle_alt is_wp self alt_tag = Ok (group_text, chosen) →
  ("|"%char ∉ group_text)
  ∧ Forall (λ e, label e ≠ None
                 ∧ end_offset e = (start_offset e + Py.len (text e))%Z)
      chosen
  ∧ ∃ probe alt_entities N,
      _iterate_alt_tag is_wp self alt_tag = Ok (probe, alt_entities)
      ∧ Py.split "|" probe !! N = Some group_text
      ∧ rebased_group (Py.split "|" probe) alt_entities N chosen.
Proof.
  intros (probe & alt_entities & alt_texts & groups & N & Hiter & Hsplit
          & Htext & Hchosen)%handle_alt_Ok_inv.
  destruct (split_alternatives_Ok _ _ _ _ Hsplit)
    as (-> & _ & _ & _ & Hrebased).
  specialize (Hrebased N chosen Hchosen).
  split; [|split].
  - pose proof (PyFacts.split_no_sep "|" probe) as Hno.
    rewrite Forall_forall in Hno. apply Hno.
    by eapply list_elem_of_lookup_2.
  - destruct Hrebased as (sub & Hsub & ->).
    destruct (iterate_alt_tag_invariant _ _ _ _ _ Hiter) as [Hall _].
    apply Forall_fmap, Forall_forall. intros e He. simpl.
    rewrite Forall_forall in Hall.
    destruct (Hall e) as (? & ? & _).
    { by eapply sublist_submseteq, elem_of_submseteq in Hsub. }
    split; [done | lia].
  - by exists probe, alt_entities, N.
Qed.

Lemma handle_alt_result_witness :
  ("|"%char ∉ lit "Ovarense-Amora")
  ∧ Forall (λ e, label e ≠ None
                 ∧ end_offset e = (start_offset e + Py.len (text e))%Z)
      [ entity "143" "Ovarense" "PESSOA" 0 8;
        entity "144" "Amora" "PESSOA" 9 14 ].
Proof.
  destruct (handle_alt_result ascii_whitespace_or_punctuation
              (converter true "most_entities") ovarense_amora
              (lit "Ovarense-Amora")
              [ entity "143" "Ovarense" "PESSOA" 0 8;
                entity "144" "Amora" "PESSOA" 9 14 ] eq_refl)
    as (Hno & Hall & _).
  split; [exact Hno | exact Hall].
Defined.

Lemma concat_nonempty {A} (l : list (list A)) :
  (0 < length (concat l))%nat → ∃ j g, l !! j = Some g ∧ g ≠ [].
Proof.
  induction l as [|h l IH]; simpl; [lia|].
  destruct h as [|x h].
  - simpl. intros (j & g & Hj & Hg)%IH. by exists (S j), g.
  - intros _. by exists 0%nat, (x :: h).
Qed.

(** X15. Under [most_entities], an [ALT] element from which at least one
    entity was collected never comes out without entities. *)
Theorem handle_alt_most_entities_nonempty (is_wp : ascii → bool) self
    alt_tag probe alt_entities group_text chosen :
  _iterate_alt_tag is_wp self alt_tag = Ok (probe, alt_entities) →
  alt_entities ≠ [] →
  alt_strategy self = lit "most_entities" →
  _handle_alt is_wp self alt_tag = Ok (group_text, chosen) →
  chosen ≠ [].
Proof.
  intros Hiter Hne Hstrategy Hrun.
  destruct (handle_alt_Ok_inv _ _ _ _ _ Hrun)
    as (probe' & alt_entities' & alt_texts & groups & _ & Hiter' & Hsplit & _).
  rewrite Hiter in Hiter'. injection Hiter' as <- <-.
  destruct (handle_alt_first_argmax _ _ _ _ _ _ _ Hiter Hsplit)
    as (_ & Hmost & _).
  destruct (Hmost Hstrategy)
    as (N & t & c & (m & Hm & Hle & _) & _ & Hc & _ & Hrun').
  rewrite Hrun in Hrun'. injection Hrun' as <- <-.
  destruct (split_alternatives_Ok _ _ _ _ Hsplit)
    as (_ & _ & _ & Hcount & _).
  destruct (concat_nonempty groups) as (j & g & Hj & Hg).
  { rewrite Hcount. destruct alt_entities; simpl; [done | lia]. }
  specialize (Hle j (Py.len g)).
  rewrite list_lookup_fmap, Hj in Hle. specialize (Hle eq_refl).
  rewrite list_lookup_fmap, Hc in Hm. injection Hm as <-.
  intros ->. destruct g; [done|]. unfold Py.len in Hle. simpl in Hle. lia.
Qed.

Lemma handle_alt_most_entities_nonempty_witness :
  [ entity "1" "" "PESSOA" 0 0 ] ≠ [].
Proof.
  apply (handle_alt_most_entities_nonempty ascii_whitespace_or_punctuation
           (converter false "most_entities") blank_entity_alt
           (lit "x|y") [ entity "1" "" "PESSOA" 2 2 ] (lit "y")
           [ entity "1" "" "PESSOA" 0 0 ]);
    [reflexivity | discriminate | reflexivity | reflexivity].
Defined.

(** ** Elements and documents *)

(** An element that is not an [ALT] block gives one entity at most, at
    the start of its text. *)
Lemma convert_tag_at_most_one (is_wp : ascii → bool) self tag tag_text
    tag_entities :
  etree.tag tag ≠ lit "ALT" →
  _convert_tag is_wp self tag = Ok (tag_text, tag_entities) →
  (length tag_entities ≤ 1)%nat
  ∧ Forall (λ e, located tag_text e ∧ start_offset e = 0%Z ∧ label e ≠ None)
      tag_entities.
Proof.
  intros HALT Hconv.
  pose proof (convert_tag_located _ _ _ _ _ HALT Hconv) as Hlocated.
  revert Hconv. unfold _convert_tag.
  rewrite (bool_decide_eq_false_2 (etree.tag tag = lit "ALT")) by done.
  case_bool_decide; simpl.
  - destruct (_convert_entity self tag) as [entity|] eqn:Hentity; simpl;
      [|done].
    destruct (convert_entity_offsets _ _ _ Hentity) as [Hstart _].
    assert (∀ es, es = match label entity with
                       | Some _ => [entity]
                       | None => []
                       end →
                  (length es ≤ 1)%nat
                  ∧ Forall (λ e, start_offset e = 0%Z) es) as Hes.
    { intros es ->. destruct (label entity); simpl; [|by split; [lia|]].
      split; [lia|]. by apply Forall_singleton. }
    destruct (etree.tail tag) as [tl|]; simpl.
    + destruct (_avoid_word_agglutination is_wp (text entity) tl); simpl;
        [|done].
      intros [= <- <-]. destruct (Hes _ eq_refl) as [Hlen Hzero].
      split; [done|].
      apply Forall_forall. intros e He.
      rewrite Forall_forall in Hlocated, Hzero.
      destruct (Hlocated e He). split; [done|].
      split; [by apply Hzero | done].
    + intros [= <- <-]. destruct (Hes _ eq_refl) as [Hlen Hzero].
      split; [done|].
      apply Forall_forall. intros e He.
      rewrite Forall_forall in Hlocated, Hzero.
      destruct (Hlocated e He). split; [done|].
      split; [by apply Hzero | done].
  - destruct (etree.tail tag); simpl; intros [= <- <-];
      (split; [simpl; lia | apply Forall_nil_2]).
Qed.

(** X16. For an element that is not an [ALT] block, [_convert_tag]
    returns at most one entity; it has a label, and its offsets delimit its
    text at the very start of the text returned, whatever tail follows. *)
Theorem convert_tag_entity_located (is_wp : ascii → bool) self tag tag_text
    tag_entities :
  etree.tag tag ≠ lit "ALT" →
  _convert_tag is_wp self tag = Ok (tag_text, tag_entities) →
  (length tag_entities ≤ 1)%nat
  ∧ Forall (λ e, located tag_text e ∧ start_offset e = 0%Z ∧ label e ≠ None)
      tag_entities.
Proof. apply convert_tag_at_most_one. Qed.

Lemma convert_tag_entity_located_witness :
  located (lit "67' , o") (entity "205" "67' " "VALOR" 0 4).
Proof.
  destruct (convert_tag_entity_located ascii_whitespace_or_punctuation
              (converter false "most_entities")
              (EM "205" "VALOR" " 67' " (Some ", o"))
              (lit "67' , o") [ entity "205" "67' " "VALOR" 0 4 ])
    as [_ Hall].
  - apply (bool_decide_unpack _). vm_compute. exact I.
  - reflexivity.
  - apply Forall_cons in Hall as [[Hlocated _] _]. exact Hlocated.
Defined.

(** X17. In a document without [ALT] blocks, and when the space counts as
    white space or punctuation, every entity returned has a label and
    offsets that select its text in the document text:
    [doc_text[start_offset:end_offset] == text], with
    [0 <= start_offset <= end_offset <= len(doc_text)]. *)
Theorem convert_document_aligned_without_alt (is_wp : ascii → bool) self doc
    document :
  is_wp " "%char = true →
  Forall (λ tag, etree.tag tag ≠ lit "ALT") (etree.children doc) →
  convert_document is_wp self doc = Ok document →
  Forall (λ e, Py.slice (doc_text document) (start_offset e) (end_offset e)
               = text e
               ∧ (0 ≤ start_offset e ≤ end_offset e)%Z
               ∧ (end_offset e ≤ Py.len (doc_text document))%Z
               ∧ label e ≠ None)
    (entities document).
Proof. apply convert_document_no_alt. Qed.

Lemma convert_document_aligned_without_alt_witness :
  Py.slice (lit "Os Ana e ") 3 6 = lit "Ana".
Proof.
  pose proof (convert_document_aligned_without_alt
                ascii_whitespace_or_punctuation
                (converter false "most_entities")
                (DOC "d" (Some "Os ") [ EM "1" "PESSOA" "Ana" (Some " e ") ])
                {| doc_id := lit "d"; doc_text := lit "Os Ana e ";
                   entities := [ entity "1" "Ana" "PESSOA" 3 6 ] |}
                eq_refl) as Hall.
  apply Forall_cons in Hall as [[Hslice _] _].
  - exact Hslice.
  - apply Forall_cons. split; [|apply Forall_nil_2].
    apply (bool_decide_unpack _). vm_compute. exact I.
  - reflexivity.
Defined.

(** The entities of a reading chosen by [_handle_alt]. *)
Lemma handle_alt_entities (is_wp : ascii → bool) self alt_tag group_text
    chosen :
  _handle_alt is_wp self alt_tag = Ok (group_text, chosen) →
  Forall (λ e, label e ≠ None
               ∧ end_offset e = (start_offset e + Py.len (text e))%Z)
    chosen.
Proof.
  intros (probe & alt_entities & alt_texts & groups & N & Hiter & Hsplit
          & _ & Hchosen)%handle_alt_Ok_inv.
  destruct (split_alternatives_Ok _ _ _ _ Hsplit) as (_ & _ & _ & _ & Hreb).
  destruct (Hreb N chosen Hchosen) as (sub & Hsub & ->).
  destruct (iterate_alt_tag_invariant _ _ _ _ _ Hiter) as [Hall _].
  apply Forall_fmap, Forall_forall. intros e He. simpl.
  rewrite Forall_forall in Hall.
  destruct (Hall e) as (? & ? & _).
  { by eapply sublist_submseteq, elem_of_submseteq in Hsub. }
  split; [done | lia].
Qed.

Lemma convert_tag_entities (is_wp : ascii → bool) self tag tag_text
    tag_entities :
  _convert_tag is_wp self tag = Ok (tag_text, tag_entities) →
  Forall (λ e, label e ≠ None
               ∧ end_offset e = (start_offset e + Py.len (text e))%Z)
    tag_entities.
Proof.
  unfold _convert_tag.
  assert (∀ text0 entities0,
            match etree.tail tag with
            | Some tl =>
                text1 ← _avoid_word_agglutination is_wp text0 tl;
                Ok (text1 ++ tl, entities0)
            | None => Ok (text0, entities0)
            end = Ok (tag_text, tag_entities) → entities0 = tag_entities)
    as Htail.
  { intros text0 entities0. destruct (etree.tail tag) as [tl|];
      [|by intros [= _ <-]].
    destruct (_avoid_word_agglutination is_wp text0 tl); simpl; [|done].
    by intros [= _ <-]. }
  case_bool_decide; [|case_bool_decide]; simpl.
  - destruct (_convert_entity self tag) as [entity|] eqn:Hentity; simpl;
      [|done].
    intros <-%Htail.
    destruct (convert_entity_offsets _ _ _ Hentity) as [Hstart Hend].
    destruct (label entity) eqn:Hlabel; [|apply Forall_nil_2].
    apply Forall_singleton. rewrite Hlabel, Hstart, Hend. split; [done|lia].
  - destruct (_handle_alt is_wp self tag) as [[alt_text alt_entities]|]
      eqn:Halt; simpl; [|done].
    intros <-%Htail. by eapply handle_alt_entities.
  - destruct (etree.tail tag); intros [= _ <-]; apply Forall_nil_2.
Qed.

(** X18. In every document that [convert_document] returns, [ALT] blocks
    or not, each entity has a label (an entity whose labels are all
    rejected never reaches a document) and offsets that are as far apart as
    its text is long. *)
Theorem convert_document_entities (is_wp : ascii → bool) self doc document :
  convert_document is_wp self doc = Ok document →
  Forall (λ e, label e ≠ None
               ∧ end_offset e = (start_offset e + Py.len (text e))%Z)
    (entities document).
Proof.
  unfold convert_document. case_bool_decide; [done|].
  match goal with
  | |- context [for_each ?b ?l ?a] =>
      destruct (for_each b l a) as [[text1 entities1]|] eqn:Hloop
  end; simpl; [|done].
  destruct (etree.attrib doc !! lit "DOCID"); [|done]. intros [= <-]. simpl.
  apply (for_each_invariant _
           (λ _ acc,
              Forall (λ e, label e ≠ None
                           ∧ end_offset e
                             = (start_offset e + Py.len (text e))%Z) acc.2))
    in Hloop; [done | apply Forall_nil_2 |].
  intros _ tag [text_a entities_a] [text_b entities_b] IH Hbody.
  simpl in *. unfold convert_document_body in Hbody.
  destruct (_convert_tag is_wp self tag) as [[tag_text tag_entities]|]
    eqn:Hconv; simpl in Hbody; [|done].
  destruct (_avoid_word_agglutination is_wp text_a tag_text) as [text_s|];
    simpl in Hbody; [|done].
  match type of Hbody with
  | context [if nonempty tag_text then ?a else ?b] =>
      destruct (if nonempty tag_text then a else b)
  end; simpl in Hbody; [|done].
  injection Hbody as <- <-.
  apply Forall_app. split; [done|].
  apply Forall_fmap. eapply Forall_impl; [by eapply convert_tag_entities|].
  intros e [? ?]. simpl. split; [done | lia].
Qed.

Lemma convert_document_entities_witness :
  Forall (λ e, label e ≠ None
               ∧ end_offset e = (start_offset e + Py.len (text e))%Z)
    [ entity "1" "Tejo" "LOCAL" 3 7 ].
Proof.
  apply (convert_document_entities ascii_whitespace_or_punctuation
           (converter false "most_entities")
           (DOC "HAREM-1" None [ rio_tejo ])
           {| doc_id := lit "HAREM-1"; doc_text := lit "rio Tejo";
              entities := [ entity "1" "Tejo" "LOCAL" 3 7 ] |}).
  reflexivity.
Defined.

(** X19. A document returned by [convert_document] comes from a [DOC]
    element, carries its [DOCID] attribute as identifier, and has a text
    that starts with the text of the element before its first child,
    unchanged; without children, that is the whole text and there are no
    entities. *)
Theorem convert_document_text_prefix (is_wp : ascii → bool) self doc
    document :
  convert_document is_wp self doc = Ok document →
  etree.tag doc = lit "DOC"
  ∧ etree.attrib doc !! lit "DOCID" = Some (doc_id document)
  ∧ default [] (etree.text doc) `prefix_of` doc_text document
  ∧ (etree.children doc = [] →
     doc_text document = default [] (etree.text doc)
     ∧ entities document = []).
Proof.
  unfold convert_document. case_bool_decide as Htag; [done|].
  replace (match etree.text doc with Some t => t | None => [] end)
    with (default [] (etree.text doc)) by by destruct (etree.text doc).
  match goal with
  | |- context [for_each ?b ?l ?a] =>
      destruct (for_each b l a) as [[text1 entities1]|] eqn:Hloop
  end; simpl; [|done].
  destruct (etree.attrib doc !! lit "DOCID") as [id|]; [|done].
  intros [= <-]. simpl. split; [done|]. split; [done|]. split.
  - apply (for_each_invariant _
             (λ _ acc, default [] (etree.text doc) `prefix_of` acc.1))
      in Hloop; [done | done |].
    intros _ tag [text_a entities_a] [text_b entities_b] IH Hbody.
    simpl in *. unfold convert_document_body in Hbody.
    destruct (_convert_tag is_wp self tag) as [[tag_text tag_entities]|];
      simpl in Hbody; [|done].
    destruct (_avoid_word_agglutination is_wp text_a tag_text) as [text_s|]
      eqn:Havoid; simpl in Hbody; [|done].
    assert (default [] (etree.text doc) `prefix_of` text_s) as Hs.
    { apply avoid_word_agglutination_Ok in Havoid as [->| ->];
        [done | by apply prefix_app_r]. }
    destruct (nonempty tag_text); simpl in Hbody.
    + destruct (append_text_safe is_wp text_s tag_text) as [text_c|]
        eqn:Happ; simpl in Hbody; [|done].
      injection Hbody as <- <-.
      apply append_text_safe_Ok in Happ as [->| ->]; by apply prefix_app_r.
    + by injection Hbody as <- <-.
  - intros Hnil. rewrite Hnil in Hloop. simpl in Hloop. by simplify_eq.
Qed.

Lemma convert_document_text_prefix_witness :
  lit "Os " `prefix_of` lit "Os Ana e ".
Proof.
  apply (convert_document_text_prefix ascii_whitespace_or_punctuation
           (converter false "most_entities")
           (DOC "d" (Some "Os ") [ EM "1" "PESSOA" "Ana" (Some " e ") ])
           {| doc_id := lit "d"; doc_text := lit "Os Ana e ";
              entities := [ entity "1" "Ana" "PESSOA" 3 6 ] |}).
  reflexivity.
Defined.

(** ** The errors a conversion can raise *)

Lemma avoid_word_agglutination_Raise (is_wp : ascii → bool) text insertion e :
  _avoid_word_agglutination is_wp text insertion = Raise e → e = IndexError.
Proof.
  pose proof (avoid_word_agglutination_cases is_wp text insertion) as Hcases.
  destruct (last text) as [c|]; [|by rewrite Hcases].
  destruct (is_wp c); [by rewrite Hcases|].
  destruct (head insertion); rewrite Hcases; [done | by intros [= <-]].
Qed.

Lemma append_text_safe_Raise (is_wp : ascii → bool) text piece e :
  append_text_safe is_wp text piece = Raise e → e = IndexError.
Proof.
  rewrite append_text_safe_guard.
  destruct (_avoid_word_agglutination is_wp text piece) eqn:Hguard; simpl;
    [done|].
  intros [= <-]. by eapply avoid_word_agglutination_Raise.
Qed.

Lemma convert_entity_Raise self elem e :
  _convert_entity self elem = Raise e → e = AttributeError ∨ e = KeyError.
Proof.
  unfold _convert_entity.
  destruct (etree.text elem); [|intros [= <-]; by left].
  destruct (etree.attrib elem !! lit "ID"); [done | intros [= <-]; by right].
Qed.

Lemma iterate_alt_tag_Raise (is_wp : ascii → bool) self alt_tag e :
  _iterate_alt_tag is_wp self alt_tag = Raise e → e ∈ input_errors.
Proof.
  unfold _iterate_alt_tag.
  intros ([text0 entities0] & tag & _ & Hbody)%for_each_Raise.
  unfold _iterate_alt_tag_body in Hbody.
  case_bool_decide; [|done].
  destruct (_convert_entity self tag) as [entity|] eqn:Hentity;
    simpl in Hbody.
  - assert (∀ (entity' : ENTITY) (entities1 : list ENTITY),
              (text1 ← append_text_safe is_wp text0 (text entity');
               text2 ← match etree.tail tag with
                        | Some tl =>
                            if nonempty tl
                            then append_text_safe is_wp text1 tl
                            else Ok text1
                        | None => Ok text1
                        end;
               Ok (text2, entities1)) = Raise e → e = IndexError) as Hrest.
    { intros entity' entities1.
      destruct (append_text_safe is_wp text0 (text entity')) as [text1|]
        eqn:Happ; simpl;
        [|intros [= <-]; by eapply append_text_safe_Raise].
      destruct (etree.tail tag) as [tl|]; simpl; [|done].
      destruct (nonempty tl); simpl; [|done].
      destruct (append_text_safe is_wp text1 tl) eqn:Htl; simpl; [done|].
      intros [= <-]. by eapply append_text_safe_Raise. }
    destruct (label entity); apply Hrest in Hbody as ->;
      apply (bool_decide_unpack _); by vm_compute.
  - injection Hbody as <-.
    apply convert_entity_Raise in Hentity as [->| ->];
      apply (bool_decide_unpack _); by vm_compute.
Qed.

Lemma split_alternatives_Raise alt_text alt_entities e :
  _split_alternatives alt_text alt_entities = Raise e →
  e = HypothesisViolation ∨ e = IndexError.
Proof.
  unfold _split_alternatives.
  destruct (Py.len (Py.split "|" alt_text) <? 2)%Z;
    [intros [= <-]; by left|].
  unfold Py.getitem at 1.
  destruct (Py.finditer_start "|" alt_text 0 !! 0%nat) as [div0|]; simpl;
    [|intros [= <-]; by right].
  match goal with
  | |- context [for_each ?b ?l ?a] =>
      destruct (for_each b l a) as [st|] eqn:Hloop
  end; simpl.
  - apply (for_each_invariant _
             (λ _ st, length (groups st)
                      = length (Py.split "|" alt_text))) in Hloop.
    + by rewrite bool_decide_eq_true_2.
    + simpl. by rewrite length_replicate.
    + intros _ x st1 st2 Hlen
             (ix & gso & cge & g & _ & -> & _)%split_alternatives_body_Ok.
      simpl. by rewrite length_alter.
  - intros [= <-].
    apply for_each_Raise in Hloop as (st & x & _ & Hraise).
    apply split_alternatives_body_Raise in Hraise. by right.
Qed.

Lemma handle_alt_Raise (is_wp : ascii → bool) self alt_tag e :
  alt_strategy self = lit "most_entities"
  ∨ alt_strategy self = lit "entity_coverage" →
  _handle_alt is_wp self alt_tag = Raise e → e ∈ input_errors.
Proof.
  intros Hstrategy Hraise.
  destruct (_iterate_alt_tag is_wp self alt_tag) as [[probe alt_entities]|]
    eqn:Hiter.
  - destruct (_split_alternatives probe alt_entities)
      as [[alt_texts groups]|] eqn:Hsplit.
    + destruct (handle_alt_first_argmax _ _ _ _ _ _ _ Hiter Hsplit)
        as (_ & Hmost & Hcoverage).
      destruct Hstrategy as [Hs|Hs].
      * destruct (Hmost Hs) as (N & t & c & _ & _ & _ & _ & Hrun).
        congruence.
      * destruct (Hcoverage Hs) as (N & t & c & _ & _ & _ & _ & Hrun).
        congruence.
    + unfold _handle_alt in Hraise. rewrite Hiter in Hraise.
      simpl in Hraise. rewrite Hsplit in Hraise. injection Hraise as <-.
      apply split_alternatives_Raise in Hsplit as [->| ->];
        apply (bool_decide_unpack _); by vm_compute.
  - unfold _handle_alt in Hraise. rewrite Hiter in Hraise.
    injection Hraise as <-. by eapply iterate_alt_tag_Raise.
Qed.

Lemma convert_tag_Raise (is_wp : ascii → bool) self tag e :
  alt_strategy self = lit "most_entities"
  ∨ alt_strategy self = lit "entity_coverage" →
  _convert_tag is_wp self tag = Raise e → e ∈ input_errors.
Proof.
  intros Hstrategy. unfold _convert_tag.
  assert (∀ text0 (entities0 : list ENTITY),
            match etree.tail tag with
            | Some tl =>
                text1 ← _avoid_word_agglutination is_wp text0 tl;
                Ok (text1 ++ tl, entities0)
            | None => Ok (text0, entities0)
            end = Raise e → e ∈ input_errors) as Htail.
  { intros text0 entities0. destruct (etree.tail tag) as [tl|]; [|done].
    destruct (_avoid_word_agglutination is_wp text0 tl) eqn:Havoid; simpl;
      [done|].
    intros [= <-]. apply avoid_word_agglutination_Raise in Havoid as ->.
    apply (bool_decide_unpack _). by vm_compute. }
  case_bool_decide; [|case_bool_decide].
  - destruct (_convert_entity self tag) as [entity|] eqn:Hentity; simpl.
    + apply Htail.
    + intros [= <-]. apply convert_entity_Raise in Hentity as [->| ->];
        apply (bool_decide_unpack _); by vm_compute.
  - destruct (_handle_alt is_wp self tag) as [[alt_text alt_entities]|]
      eqn:Halt; simpl.
    + apply Htail.
    + intros [= <-]. by eapply handle_alt_Raise.
  - simpl. by destruct (etree.tail tag).
Qed.

Lemma convert_document_body_Raise (is_wp : ascii → bool) self acc tag e :
  alt_strategy self = lit "most_entities"
  ∨ alt_strategy self = lit "entity_coverage" →
  convert_document_body is_wp self acc tag = Raise e → e ∈ input_errors.
Proof.
  intros Hstrategy. destruct acc as [text0 entities0].
  unfold convert_document_body.
  destruct (_convert_tag is_wp self tag) as [[tag_text tag_entities]|]
    eqn:Hconv; simpl; [|intros [= <-]; by eapply convert_tag_Raise].
  destruct (_avoid_word_agglutination is_wp text0 tag_text) as [text1|]
    eqn:Havoid; simpl.
  - destruct (nonempty tag_text); simpl; [|done].
    destruct (append_text_safe is_wp text1 tag_text) eqn:Happ; simpl;
      [done|].
    intros [= <-]. apply append_text_safe_Raise in Happ as ->.
    apply (bool_decide_unpack _). by vm_compute.
  - intros [= <-]. apply avoid_word_agglutination_Raise in Havoid as ->.
    apply (bool_decide_unpack _). by vm_compute.
Qed.

(** X20. For a converter with one of the two strategies,
    [convert_document] raises [ValueError] exactly when the element is not
    a [DOC] element, and otherwise it raises nothing but the errors of a
    malformed input ([AttributeError], [KeyError], [IndexError],
    [HypothesisViolation]): no assertion of the converter fails, and the
    maximum of the scores is never taken over an empty list. *)
Theorem convert_document_errors (is_wp : ascii → bool) self doc :
  alt_strategy self = lit "most_entities"
  ∨ alt_strategy self = lit "entity_coverage" →
  (convert_document is_wp self doc = Raise ValueError ↔
   etree.tag doc ≠ lit "DOC")
  ∧ convert_document is_wp self doc ≠ Raise AssertionError
  ∧ ∀ e, convert_document is_wp self doc = Raise e →
         etree.tag doc = lit "DOC" → e ∈ input_errors.
Proof.
  intros Hstrategy.
  assert (∀ e, convert_document is_wp self doc = Raise e →
               etree.tag doc = lit "DOC" → e ∈ input_errors) as Hinput.
  { intros e Hraise Htag. unfold convert_document in Hraise.
    rewrite bool_decide_eq_false_2 in Hraise by naive_solver.
    match type of Hraise with
    | context [for_each ?b ?l ?a] =>
        destruct (for_each b l a) as [[text1 entities1]|] eqn:Hloop
    end; simpl in Hraise.
    - destruct (etree.attrib doc !! lit "DOCID"); [done|].
      injection Hraise as <-. apply (bool_decide_unpack _). by vm_compute.
    - injection Hraise as <-.
      apply for_each_Raise in Hloop as (acc & tag & _ & Hbody).
      by eapply convert_document_body_Raise. }
  split; [|split; [|done]].
  - split.
    + intros Hraise Htag. specialize (Hinput _ Hraise Htag).
      by apply (bool_decide_pack _) in Hinput.
    + intros Htag. unfold convert_document.
      by rewrite bool_decide_eq_true_2.
  - intros Hraise.
    destruct (decide (etree.tag doc = lit "DOC")) as [Htag|Htag].
    + specialize (Hinput _ Hraise Htag).
      by apply (bool_decide_pack _) in Hinput.
    + unfold convert_document in Hraise.
      by rewrite bool_decide_eq_true_2 in Hraise.
Qed.

Lemma convert_document_errors_witness :
  convert_document ascii_whitespace_or_punctuation
    (converter true "entity_coverage")
    (ALT (Some "x|y") [] None) = Raise ValueError
  ∧ HypothesisViolation ∈ input_errors.
Proof.
  destruct (convert_document_errors ascii_whitespace_or_punctuation
              (converter true "entity_coverage")
              (ALT (Some "x|y") [] None)) as (Hvalue & _ & _).
  { right. reflexivity. }
  destruct (convert_document_errors ascii_whitespace_or_punctuation
              (converter true "entity_coverage")
              (DOC "d" None [ ALT (Some "xy") [] None ]))
    as (_ & _ & Hinput).
  { right. reflexivity. }
  split.
  - apply Hvalue. apply (bool_decide_unpack _). vm_compute. exact I.
  - apply Hinput; reflexivity.
Defined.

(** ** The text of a document and the scenario *)

Lemma convert_tag_text_scenario (is_wp : ascii → bool) self1 self2 tag :
  etree.tag tag ≠ lit "ALT" →
  fst <$> _convert_tag is_wp self1 tag = fst <$> _convert_tag is_wp self2 tag.
Proof.
  intros HALT. unfold _convert_tag.
  rewrite !(bool_decide_eq_false_2 (etree.tag tag = lit "ALT")) by done.
  case_bool_decide; [|done].
  unfold _convert_entity.
  destruct (etree.text tag) as [elem_text|]; simpl; [|done].
  destruct (etree.attrib tag !! lit "ID"); simpl; [|done].
  destruct (etree.tail tag) as [tl|]; simpl; [|done].
  by destruct (_avoid_word_agglutination is_wp (Py.lstrip elem_text) tl).
Qed.

Lemma convert_document_body_scenario (is_wp : ascii → bool) self1 self2
    text0 entities1 entities2 tag :
  etree.tag tag ≠ lit "ALT" →
  match convert_document_body is_wp self1 (text0, entities1) tag,
        convert_document_body is_wp self2 (text0, entities2) tag with
  | Ok (text1, _), Ok (text2, _) => text1 = text2
  | Raise e1, Raise e2 => e1 = e2
  | _, _ => False
  end.
Proof.
  intros Htag. unfold convert_document_body.
  pose proof (convert_tag_text_scenario is_wp self1 self2 tag Htag) as Htext.
  destruct (_convert_tag is_wp self1 tag) as [[tag_text tag_entities1]|];
    destruct (_convert_tag is_wp self2 tag) as [[tag_text' tag_entities2]|];
    simpl in Htext; simplify_eq; simpl; [|done].
  destruct (_avoid_word_agglutination is_wp text0 tag_text') as [text1|];
    simpl; [|done].
  by destruct (if nonempty tag_text'
               then append_text_safe is_wp text1 tag_text'
               else Ok text1).
Qed.

Lemma convert_document_loop_scenario (is_wp : ascii → bool) self1 self2 tags
    text0 entities1 entities2 :
  Forall (λ tag, etree.tag tag ≠ lit "ALT") tags →
  fst <$> for_each (convert_document_body is_wp self1) tags
            (text0, entities1)
  = fst <$> for_each (convert_document_body is_wp self2) tags
              (text0, entities2).
Proof.
  intros Hno_alt. revert text0 entities1 entities2.
  induction Hno_alt as [|tag tags Htag _ IH];
    intros text0 entities1 entities2; [done|].
  rewrite !for_each_cons.
  pose proof (convert_document_body_scenario is_wp self1 self2 text0
                entities1 entities2 tag Htag) as Hbody.
  destruct (convert_document_body is_wp self1 (text0, entities1) tag)
    as [[text1 entities1']|];
    destruct (convert_document_body is_wp self2 (text0, entities2) tag)
      as [[text2 entities2']|]; simpl; try done.
  - subst. apply IH.
  - by subst.
Qed.

(** X21. In a document without [ALT] blocks the scenario and the
    strategy change the entities only: two converters return the same
    document text and identifier, or raise the same error. *)
Theorem convert_document_text_scenario (is_wp : ascii → bool) self1 self2
    doc :
  Forall (λ tag, etree.tag tag ≠ lit "ALT") (etree.children doc) →
  (λ d, (doc_id d, doc_text d)) <$> convert_document is_wp self1 doc
  = (λ d, (doc_id d, doc_text d)) <$> convert_document is_wp self2 doc.
Proof.
  intros Hno_alt. unfold convert_document. case_bool_decide; [done|].
  pose proof (convert_document_loop_scenario is_wp self1 self2 _
                (match etree.text doc with Some t => t | None => [] end)
                [] [] Hno_alt) as Hloop.
  destruct (for_each (convert_document_body is_wp self1) _ _)
    as [[text1 entities1]|];
    destruct (for_each (convert_document_body is_wp self2) _ _)
      as [[text2 entities2]|]; simpl in Hloop; simplify_eq; simpl; [|done].
  by destruct (etree.attrib doc !! lit "DOCID").
Qed.

Lemma convert_document_text_scenario_witness :
  (λ d, (doc_id d, doc_text d))
    <$> convert_document ascii_whitespace_or_punctuation
          (converter true "most_entities") marco_bode
  = (λ d, (doc_id d, doc_text d))
      <$> convert_document ascii_whitespace_or_punctuation
            (converter false "entity_coverage") marco_bode.
Proof.
  apply (convert_document_text_scenario ascii_whitespace_or_punctuation
           (converter true "most_entities")
           (converter false "entity_coverage") marco_bode).
  repeat (apply Forall_cons; split;
          [apply (bool_decide_unpack _); vm_compute; exact I|]).
  apply Forall_nil_2.
Defined.

(** ** The order of the entities of a document *)

(** X22. In a document without [ALT] blocks the entities come in the
    order of the text and do not overlap: each one ends, in the document
    text, before the next one starts. *)
Theorem convert_document_entities_ordered (is_wp : ascii → bool) self doc
    document :
  Forall (λ tag, etree.tag tag ≠ lit "ALT") (etree.children doc) →
  convert_document is_wp self doc = Ok document →
  ∀ i j e1 e2, (i < j)%nat →
    entities document !! i = Some e1 → entities document !! j = Some e2 →
    (end_offset e1 ≤ start_offset e2)%Z.
Proof.
  intros Hno_alt. unfold convert_document. case_bool_decide; [done|].
  match goal with
  | |- context [for_each ?b ?l ?a] =>
      destruct (for_each b l a) as [[text1 entities1]|] eqn:Hloop
  end; simpl; [|done].
  destruct (etree.attrib doc !! lit "DOCID"); [|done]. intros [= <-]. simpl.
  set (I := λ (seen : list etree._Element) (acc : str * list ENTITY),
              Forall (λ tag, etree.tag tag ≠ lit "ALT") seen →
              Forall (λ e, (end_offset e ≤ Py.len acc.1)%Z) acc.2
              ∧ ∀ i j e1 e2, (i < j)%nat →
                  acc.2 !! i = Some e1 → acc.2 !! j = Some e2 →
                  (end_offset e1 ≤ start_offset e2)%Z).
  assert (∀ acc0, acc0.2 = [] → I [] acc0) as Hbase.
  { intros acc0 Hnil _. rewrite Hnil. split; [apply Forall_nil_2|].
    by intros ? ? ? ? _ ?. }
  apply (for_each_invariant _ I (etree.children doc) (_, [])
           (text1, entities1) (Hbase (_, []) eq_refl)) in Hloop;
    [by apply Hloop|].
  unfold I. clear I Hbase Hloop Hno_alt.
  intros seen tag [text_a entities_a] [text_b entities_b] IH Hbody
         [Hseen [Htag _]%Forall_cons]%Forall_app.
  destruct (IH Hseen) as [Hends Hord]. simpl in *.
  unfold convert_document_body in Hbody.
  destruct (_convert_tag is_wp self tag) as [[tag_text tag_entities]|]
    eqn:Hconv; simpl in Hbody; [|done].
  destruct (_avoid_word_agglutination is_wp text_a tag_text) as [text_s|]
    eqn:Havoid; simpl in Hbody; [|done].
  match type of Hbody with
  | context [if nonempty tag_text then ?a else ?b] =>
      destruct (if nonempty tag_text then a else b) as [text_c|] eqn:Happ
  end; simpl in Hbody; [|done].
  injection Hbody as <- <-.
  destruct (convert_tag_at_most_one _ _ _ _ _ Htag Hconv) as [Hone Hlocated].
  assert (Py.len text_a ≤ Py.len text_s)%Z as Hlen_s.
  { apply avoid_word_agglutination_Ok in Havoid as [->| ->];
      rewrite ?PyFacts.len_app; pose proof (PyFacts.len_nonneg (lit " "));
      lia. }
  assert (Py.len text_s + Py.len tag_text ≤ Py.len text_c)%Z as Hlen_c.
  { destruct tag_text as [|d tag_text]; simpl in Happ.
    - injection Happ as <-. unfold Py.len. simpl. lia.
    - by apply append_text_safe_len in Happ. }
  pose proof (PyFacts.len_nonneg tag_text).
  destruct tag_entities as [|e [|? ?]]; [| |simpl in Hone; lia].
  - simpl. rewrite app_nil_r. split; [|done].
    eapply Forall_impl; [exact Hends|]. intros e He. simpl in *. lia.
  - apply Forall_singleton in Hlocated
      as [(before & after & Htext & Hstart & Hend) [Hzero _]].
    assert (Py.len (text e) ≤ Py.len tag_text)%Z as Hlen_e.
    { rewrite Htext, !PyFacts.len_app.
      pose proof (PyFacts.len_nonneg before).
      pose proof (PyFacts.len_nonneg after). lia. }
    assert (end_offset e = Py.len (text e)) as Hend'.
    { rewrite Hend. rewrite Hzero in Hstart. lia. }
    simpl. split.
    + apply Forall_app. split.
      * eapply Forall_impl; [exact Hends|]. intros e' He'. simpl in *. lia.
      * apply Forall_singleton. simpl. lia.
    + intros i j e1 e2 Hij H1 H2.
      destruct (decide (j < length entities_a)%nat) as [Hj|Hj].
      * rewrite lookup_app_l in H1 by lia.
        rewrite lookup_app_l in H2 by lia.
        exact (Hord i j e1 e2 Hij H1 H2).
      * rewrite lookup_app_r in H2 by lia.
        destruct (j - length entities_a)%nat eqn:Hj'; [|done].
        simpl in H2. injection H2 as <-. simpl. rewrite Hzero.
        rewrite lookup_app_l in H1 by lia.
        rewrite Forall_forall in Hends.
        specialize (Hends e1 (list_elem_of_lookup_2 _ _ _ H1)).
        simpl in Hends. lia.
Qed.

Lemma convert_document_entities_ordered_witness :
  (end_offset (entity "1" "Ana" "PESSOA" 3 6)
   ≤ start_offset (entity "2" "Rui" "PESSOA" 9 12))%Z.
Proof.
  apply (convert_document_entities_ordered ascii_whitespace_or_punctuation
           (converter false "most_entities")
           (DOC "d" (Some "Os ")
              [ EM "1" "PESSOA" "Ana" (Some " e ");
                EM "2" "PESSOA" "Rui" None ])
           {| doc_id := lit "d"; doc_text := lit "Os Ana e Rui";
              entities := [ entity "1" "Ana" "PESSOA" 3 6;
                            entity "2" "Rui" "PESSOA" 9 12 ] |}
           ltac:(repeat (apply Forall_cons; split;
                         [apply (bool_decide_unpack _); vm_compute; exact I|]);
                 apply Forall_nil_2)
           eq_refl 0%nat 1%nat); [lia | reflexivity | reflexivity].
Defined.

(** ** The corpus *)

Lemma convert_xml_loop (is_wp : ascii → bool) self docs acc docs_info :
  for_each (λ docs_info doc,
              doc_info ← convert_document is_wp self doc;
              Ok (docs_info ++ [doc_info])) docs acc = Ok docs_info
  ↔ ∃ new, docs_info = acc ++ new
           ∧ Forall2 (λ doc d, convert_document is_wp self doc = Ok d)
               docs new.
Proof.
  revert acc. induction docs as [|doc docs IH]; intros acc.
  - simpl. split.
    + intros [= <-]. exists []. by rewrite app_nil_r.
    + intros (new & -> & ->%Forall2_nil_inv_l). by rewrite app_nil_r.
  - rewrite for_each_cons.
    destruct (convert_document is_wp self doc) as [d|e] eqn:Hdoc; simpl.
    + rewrite IH. split.
      * intros (new & -> & Hnew). exists (d :: new).
        split; [by rewrite <- app_assoc | by constructor].
      * intros (new & -> & Hnew).
        apply Forall2_cons_inv_l in Hnew as (d' & new' & Hd & Hnew & ->).
        exists new'. split; [|done].
        rewrite Hdoc in Hd. injection Hd as <-. by rewrite <- app_assoc.
    + split; [done|]. intros (new & _ & Hnew).
      apply Forall2_cons_inv_l in Hnew as (d' & new' & Hd & _).
      by rewrite Hdoc in Hd.
Qed.

Lemma convert_xml_loop_Ok (is_wp : ascii → bool) self docs acc :
  Forall (λ doc, ∃ d, convert_document is_wp self doc = Ok d) docs →
  ∃ docs_info,
    for_each (λ docs_info doc,
                doc_info ← convert_document is_wp self doc;
                Ok (docs_info ++ [doc_info])) docs acc = Ok docs_info.
Proof.
  intros Hall. revert acc.
  induction Hall as [|doc docs [d Hd] _ IH]; intros acc; [by eexists|].
  rewrite for_each_cons, Hd. simpl. apply IH.
Qed.

(** X23. [convert_xml] converts all documents or none. With a strategy
    that is not one of the two it raises [ValueError] before any document
    is looked at. Otherwise it returns a list exactly when every document
    converts, and the list then holds the converted documents one for one,
    in the order of the input; when a document fails after documents that
    convert, its error is the error of the whole call. *)
Theorem convert_xml_all_or_nothing (is_wp : ascii → bool) docs selective
    alt_strategy :
  (alt_strategy ∉ [ lit "most_entities"; lit "entity_coverage" ] →
   convert_xml is_wp docs selective alt_strategy = Raise ValueError)
  ∧ ∀ self, __init__ selective alt_strategy = Ok self →
      (∀ docs_info,
         convert_xml is_wp docs selective alt_strategy = Ok docs_info ↔
         Forall2 (λ doc d, convert_document is_wp self doc = Ok d)
           docs docs_info)
      ∧ ∀ before doc after e,
          docs = before ++ doc :: after →
          Forall (λ doc, ∃ d, convert_document is_wp self doc = Ok d)
            before →
          convert_document is_wp self doc = Raise e →
          convert_xml is_wp docs selective alt_strategy = Raise e.
Proof.
  unfold convert_xml. split.
  - intros Hno. unfold __init__. by rewrite bool_decide_eq_true_2.
  - intros self ->. simpl. split.
    + intros docs_info. rewrite convert_xml_loop. split.
      * by intros (new & -> & Hnew).
      * intros Hall. by exists docs_info.
    + intros before doc after e -> Hbefore Hraise.
      rewrite for_each_app.
      destruct (convert_xml_loop_Ok is_wp self before [] Hbefore)
        as [docs_info ->].
      simpl. by rewrite Hraise.
Qed.

Lemma convert_xml_all_or_nothing_witness :
  let is_wp := ascii_whitespace_or_punctuation in
  let doc1 := DOC "d" (Some "Os ") [ EM "1" "PESSOA" "Ana" (Some " e ") ] in
  let doc2 := DOC "HAREM-1" None [ rio_tejo ] in
  let bad := DOC "HAREM-3" None [ ALT (Some "xy") [] None ] in
  convert_xml is_wp [ doc1; doc2 ] false (lit "most_entities")
  = Ok [ {| doc_id := lit "d"; doc_text := lit "Os Ana e ";
            entities := [ entity "1" "Ana" "PESSOA" 3 6 ] |};
         {| doc_id := lit "HAREM-1"; doc_text := lit "rio Tejo";
            entities := [ entity "1" "Tejo" "LOCAL" 3 7 ] |} ]
  ∧ convert_xml is_wp [ doc1; bad; doc2 ] false (lit "most_entities")
    = Raise HypothesisViolation
  ∧ convert_xml is_wp [ doc1; doc2 ] false (lit "best")
    = Raise ValueError.
Proof.
  intros is_wp doc1 doc2 bad. split; [|split].
  - apply (proj2 (convert_xml_all_or_nothing is_wp [ doc1; doc2 ] false
                    (lit "most_entities"))
             (converter false "most_entities") eq_refl).
    repeat constructor.
  - apply (proj2 (proj2 (convert_xml_all_or_nothing is_wp
                           [ doc1; bad; doc2 ] false (lit "most_entities"))
                    (converter false "most_entities") eq_refl)
             [ doc1 ] bad [ doc2 ]); [reflexivity | | reflexivity].
    apply Forall_cons. split; [by eexists | apply Forall_nil_2].
  - apply (proj1 (convert_xml_all_or_nothing is_wp [ doc1; doc2 ] false
                    (lit "best"))).
    apply (bool_decide_unpack _). vm_compute. exact I.
Defined.

(** ** The single segment with entities *)

Lemma stepwise_constant (prev k : nat) (ents : list ENTITY) :
  k = prev ∨ k = S prev →
  stepwise prev ((λ e, (k, e)) <$> ents).*1.
Proof.
  revert prev. induction ents as [|e ents IH]; intros prev Hk; [done|].
  csimpl. split; [done|]. apply IH. by left.
Qed.

Lemma constant_snd (k : nat) (ents : list ENTITY) :
  ((λ e, (k, e)) <$> ents).*2 = ents.
Proof. induction ents as [|e ents IH]; [done|]. csimpl. by rewrite IH. Qed.

Lemma rebased_to_constant alt_texts (k i : nat) (ents : list ENTITY) :
  rebased_to alt_texts ((λ e, (k, e)) <$> ents) i
  = if decide (k = i)
    then (λ e, _shift_offset e (- segment_start alt_texts i)) <$> ents
    else [].
Proof.
  induction ents as [|e ents IH]; [by destruct (decide (k = i))|].
  csimpl. destruct (decide (k = i)) as [->|Hne].
  - by rewrite rebased_to_cons_eq, IH.
  - by rewrite rebased_to_cons_ne, IH.
Qed.

Lemma shift_offset_text_lengths (ents : list ENTITY) (offset : Z) :
  (λ ent, Py.len (text ent)) <$> ((λ e, _shift_offset e offset) <$> ents)
  = (λ ent, Py.len (text ent)) <$> ents.
Proof. rewrite <- list_fmap_compose. by apply list_fmap_ext. Qed.

(** C5, as the code has it. Let the probe string of an [ALT] element hold
    a [|], and let all the entities collected from the element, of which
    there is one at least, start in one segment, the first or the second;
    let their texts be not all empty. Then [_handle_alt] returns the text
    of that segment and these entities, rebased to its start, under
    [most_entities] and under [entity_coverage]. *)
Theorem handle_alt_single_segment (is_wp : ascii → bool) accepted alt_tag
    probe alt_entities k group_text :
  let self strategy :=
    {| _accepted_labels := accepted; alt_strategy := lit strategy |} in
  let alt_texts := Py.split "|" probe in
  let chosen :=
    (λ e, _shift_offset e (- segment_start alt_texts k)) <$> alt_entities in
  _iterate_alt_tag is_wp (self "most_entities") alt_tag
    = Ok (probe, alt_entities) →
  "|"%char ∈ probe →
  alt_entities ≠ [] →
  Forall (in_segment alt_texts k) alt_entities →
  alt_texts !! k = Some group_text →
  (k ≤ 1)%nat →
  (0 < Py.sum ((λ ent, Py.len (text ent)) <$> alt_entities))%Z →
  _handle_alt is_wp (self "most_entities") alt_tag = Ok (group_text, chosen)
  ∧ _handle_alt is_wp (self "entity_coverage") alt_tag
      = Ok (group_text, chosen).
Proof.
  intros self alt_texts chosen Hiter Hdelim Hne Hin Htext Hk Hcoverage.
  set (assigned := (λ e, (k, e)) <$> alt_entities).
  assert (_split_alternatives probe alt_entities
          = Ok (alt_texts,
                rebased_to alt_texts assigned <$> seq 0 (length alt_texts)))
    as Hsplit.
  { rewrite <- (constant_snd k alt_entities).
    apply split_alternatives_stepwise_aux; [done| |].
    - apply stepwise_constant. lia.
    - unfold assigned. by rewrite Forall_fmap. }
  apply (handle_alt_single_group is_wp accepted alt_tag probe alt_entities
           alt_texts _ k group_text chosen Hiter Hsplit Htext).
  - rewrite list_lookup_fmap, lookup_seq_lt
      by by apply lookup_lt_is_Some; eexists.
    csimpl. unfold assigned. rewrite rebased_to_constant.
    by rewrite decide_True.
  - unfold chosen. by destruct alt_entities.
  - intros j group Hj Hgroup.
    rewrite list_lookup_fmap in Hgroup.
    destruct (seq 0 (length alt_texts) !! j) as [i|] eqn:Hi; [|done].
    apply lookup_seq in Hi as [-> _]. csimpl in Hgroup.
    injection Hgroup as <-. unfold assigned.
    rewrite rebased_to_constant. by rewrite decide_False.
  - unfold chosen. by rewrite shift_offset_text_lengths.
Qed.

Lemma handle_alt_single_segment_witness :
  let is_wp := ascii_whitespace_or_punctuation in
  let chosen := [ entity "2011" "Nomes de Origem" "ABSTRACCAO" 0 15 ] in
  _handle_alt is_wp (converter false "most_entities") nomes_de_origem
    = Ok (lit "Nomes de Origem", chosen)
  ∧ _handle_alt is_wp (converter false "entity_coverage") nomes_de_origem
    = Ok (lit "Nomes de Origem", chosen).
Proof.
  intros is_wp chosen.
  apply (handle_alt_single_segment is_wp ALL_CATEGS nomes_de_origem
           (lit "Nomes de Origem|Nomes de Origem")
           [ entity "2011" "Nomes de Origem" "ABSTRACCAO" 16 31 ]
           1 (lit "Nomes de Origem")).
  - reflexivity.
  - apply (bool_decide_unpack _). vm_compute. exact I.
  - discriminate.
  - constructor; [|constructor].
    exists (lit "Nomes de Origem"). split; [reflexivity|].
    vm_compute. split; discriminate.
  - reflexivity.
  - lia.
  - reflexivity.
Defined.

(** The claim of the single segment fails at two elements. In
    [blank_entity_alt] the only entity starts in the second segment, and
    its text is empty once stripped: [entity_coverage] sees no segment
    ahead of another and returns the first, with no entity. In [ana_alone]
    the only segment holds the only entity, and [_handle_alt] raises
    [HypothesisViolation], for want of a [|]. *)
Lemma handle_alt_single_segment_counterexample :
  ¬ selects_single_segment ascii_whitespace_or_punctuation ALL_CATEGS
      blank_entity_alt
  ∧ ¬ selects_single_segment ascii_whitespace_or_punctuation ALL_CATEGS
        ana_alone.
Proof.
  split.
  - intros Hclaim.
    destruct (Hclaim (lit "x|y") [ entity "1" "" "PESSOA" 2 2 ] 1 (lit "y"))
      as [_ Hcoverage].
    + reflexivity.
    + discriminate.
    + constructor; [|constructor].
      exists (lit "y"). split; [reflexivity|].
      vm_compute. split; discriminate.
    + reflexivity.
    + vm_compute in Hcoverage. discriminate.
  - intros Hclaim.
    destruct (Hclaim (lit "Ana") [ entity "1" "Ana" "PESSOA" 0 3 ] 0
                (lit "Ana")) as [Hmost _].
    + reflexivity.
    + discriminate.
    + constructor; [|constructor].
      exists (lit "Ana"). split; [reflexivity|].
      vm_compute. split; discriminate.
    + reflexivity.
    + vm_compute in Hmost. discriminate.
Qed.
